(** * Wallet-signature sign-in: nonce challenge and verification

    A shallow embedding of the three sign-in implementations of the
    repository and of the helpers they share:

    - [AuthNonce]   apps/api/src/auth-nonce.ts   (in-process [Map] of nonces)
    - [Solana]      apps/api/src/utils/solana.ts (signature helpers)
    - [RoutesAuth]  apps/api/src/routes/auth.ts  (nonce kept in the Session table)
    - [Server]      apps/api/src/server.ts       (nonce kept in a signed cookie)

    Conventions.  A handler is a function from the request, the values it
    draws from its environment (clock, random identifiers) and the state
    it can touch to the HTTP reply, the trace of what it did (console
    lines, calls of the signature verifier) and the new state.  Request
    fields are optional strings; a string is its UTF-8 byte sequence;
    [Date.now()] is an integer number of milliseconds and is read once
    per request. *)

From Stdlib Require Import ZArith String Ascii List Bool Lia.
From stdpp Require Import base gmap strings list fin_maps pretty.
Import ListNotations.

Local Open Scope Z_scope.

(** ** Values shared by all handlers *)

(** A [Uint8Array]. *)
Definition bytes : Type := list Byte.byte.

(** [new TextEncoder().encode(s)]. *)
Definition TextEncoder_encode (s : string) : bytes :=
  map byte_of_ascii (list_ascii_of_string s).

(** What a library call or the code itself may throw. *)
Inductive thrown : Type :=
  | NonBase58Character        (* bs58.decode *)
  | InvalidPublicKeyInput     (* new PublicKey(address) *)
  | InvalidCharacterError     (* atob *)
  | BadSignatureSize          (* nacl.sign.detached.verify *)
  | BadPublicKeySize          (* nacl.sign.detached.verify *)
  | ZodError                  (* schema.parse *)
  | UniqueConstraintFailed    (* prisma create on an existing primary key *)
  | SecretMustHaveValue       (* jwt.sign without a secret *)
  | MissingJwtSecret          (* issueJWT: 'Missing JWT_SECRET' *)
  | JsonWebTokenError         (* jwt.verify: malformed token or wrong key *)
  | TokenExpiredError.        (* jwt.verify: exp reached *)

(** The result of a call that may throw. *)
Inductive res (A : Type) : Type :=
  | Ret (a : A)
  | Throw (e : thrown).
Arguments Ret {A} a.
Arguments Throw {A} e.

(** JavaScript truthiness of a string: only the empty string is falsy. *)
Definition truthy (s : string) : bool := negb (String.eqb s "").

(** [a || b] on an optional string and a string. *)
Definition or_else (a : option string) (b : string) : string :=
  match a with
  | Some s => if truthy s then s else b
  | None => b
  end.

(** [!!x] for an optional string field. *)
Definition present (a : option string) : bool := truthy (or_else a "").

(** ** The platform

    Library functions the handlers call and whose code is not part of the
    repository.  They are parameters of the development; [nacl_size] is
    the one documented property of tweetnacl that is used: a call that
    returns (rather than throws) was given a 64-byte signature and a
    32-byte key. *)
Class Platform : Type := {
  (** [s.trim()] *)
  String_trim : string -> string;
  (** [new Date(ms).toISOString()] *)
  Date_toISOString : Z -> string;
  (** [bs58.decode(s)]; [None] when it throws *)
  bs58_decode : string -> option bytes;
  (** [new PublicKey(s).toBytes()]; [None] when the constructor throws *)
  PublicKey : string -> option bytes;
  (** [Buffer.from(s, "base64")] *)
  Buffer_from_base64 : string -> bytes;
  (** [Uint8Array.from(atob(s), c => c.charCodeAt(0))]; [None] when [atob] throws *)
  atob_bytes : string -> option bytes;
  (** [nacl.sign.detached.verify(msg, sig, publicKey)] *)
  nacl_sign_detached_verify : bytes -> bytes -> bytes -> res bool;
  nacl_size : forall msg sig pk b,
    nacl_sign_detached_verify msg sig pk = Ret b ->
    length sig = 64%nat /\ length pk = 32%nat
}.

(** [process.env] as far as the handlers read it. *)
Record env : Type := {
  APP_NAME : string;
  JWT_SECRET : string;          (* the empty string when unset *)
  USE_DB : bool;
  ADMIN_ADDRESSES : string
}.

(** ** jsonwebtoken, symbolically

    A token is the claims it carries together with the key that signed
    it; the compact serialisation and the MAC are not modelled.  Times
    inside a token are in seconds. *)
Module jwt.

Inductive claims : Type :=
  | NonceClaims (wallet nonce msg : string)        (* { t: "nonce", wallet, nonce, msg } *)
  | AuthClaims (sub wid : string)                   (* { sub, wid, t: "auth" } *)
  | SubAddrClaims (sub addr : string)               (* { sub, addr } *)
  | UidClaims (uid address : string) (role : option string). (* JWTPayload *)

Record token : Type := {
  payload : claims;
  iat : Z;
  exp : Z;
  jti : option string;
  key : string
}.

(** A cookie or header value: a signed token or any other string. *)
Inductive wire : Type :=
  | Opaque (s : string)
  | Signed (t : token).

(** [jwt.sign(payload, secret, { expiresIn, jwtid })] at time [now] (ms). *)
Definition sign (p : claims) (secret : string) (expiresIn : Z)
    (jwtid : option string) (now : Z) : res token :=
  if truthy secret
  then Ret {| payload := p; iat := now / 1000;
              exp := now / 1000 + expiresIn; jti := jwtid; key := secret |}
  else Throw SecretMustHaveValue.

(** [jwt.verify(value, secret)] at time [now] (ms). *)
Definition verify (w : wire) (secret : string) (now : Z) : res claims :=
  match w with
  | Opaque _ => Throw JsonWebTokenError
  | Signed t =>
      if negb (String.eqb (key t) secret) then Throw JsonWebTokenError
      else if exp t <=? now / 1000 then Throw TokenExpiredError
      else Ret (payload t)
  end.

Definition minutes (n : Z) : Z := n * 60.
Definition days (n : Z) : Z := n * 24 * 60 * 60.

End jwt.

(** ** Replies and traces *)

Inductive cookie_op : Type :=
  | SetCookie (name : string) (value : jwt.token) (maxAge : Z)
  | ClearCookie (name : string).

Inductive db_status : Type := DbSkipped | DbOk | DbError.

Inductive sig_encoding : Type := EncBase64 | EncBase58.

(** The JSON bodies the handlers send. *)
Inductive body : Type :=
  | ErrorJson (msg : string)                       (* { error: msg } *)
  | ErrorHintJson (msg hint : string)              (* { error: msg, hint } *)
  | ErrorThrownJson (e : thrown)                   (* { error: e.message } *)
  | NonceJson (nonce : string)                     (* { nonce } *)
  | OkJson                                         (* { ok: true } *)
  | TokenRoleJson (token : jwt.token) (role : string)   (* { token, role } *)
  | ChallengeJson (wallet nonce message : string) (expiresInSec : Z)
  | VerifiedJson (token : jwt.token) (userId walletId : string)
      (enc : sig_encoding) (db : db_status) (expiresAt : string).

Record reply : Type := {
  status : Z;
  json : body;
  cookies : list cookie_op
}.

Definition send (st : Z) (b : body) : reply :=
  {| status := st; json := b; cookies := [] |}.

Inductive event : Type :=
  | Console (line : string)               (* first argument of console.warn / error / log *)
  | NaclVerify (msg sig pk : bytes).      (* a call of nacl.sign.detached.verify *)

(** ** Prisma tables

    A table is the list of its rows; the primary key is the column [id].
    [create] throws on an existing key, [upsert] updates the row with the
    key or appends a new one, [delete] removes the rows with the key.
    The database is taken to answer every call; foreign keys are not
    modelled (the handlers write the referenced user first). *)
Module Prisma.

Record user_row : Type := {
  u_id : string; u_createdAt : Z; u_updatedAt : Z
}.

Record wallet_row : Type := {
  w_id : string; w_address : string; w_chain : string;
  w_userId : string; w_createdAt : Z
}.

Record session_row : Type := {
  s_id : string; s_userId : string; s_jwtId : string;
  s_expiresAt : Z; s_createdAt : Z
}.

Record db : Type := {
  users : list user_row;
  wallets : list wallet_row;
  sessions : list session_row
}.

Definition empty : db := {| users := []; wallets := []; sessions := [] |}.

Section Table.
Context {row : Type} (id : row -> string).

Definition findUnique (k : string) (t : list row) : option row :=
  List.find (fun r => String.eqb (id r) k) t.

Definition create (r : row) (t : list row) : res (list row) :=
  match findUnique (id r) t with
  | Some _ => Throw UniqueConstraintFailed
  | None => Ret (t ++ [r])
  end.

Fixpoint update (k : string) (f : row -> row) (t : list row) : list row :=
  match t with
  | [] => []
  | r :: t' => if String.eqb (id r) k then f r :: update k f t'
               else r :: update k f t'
  end.

Definition upsert (k : string) (f : row -> row) (r : row) (t : list row)
    : list row :=
  match findUnique k t with
  | Some _ => update k f t
  | None => t ++ [r]
  end.

Definition delete (k : string) (t : list row) : list row :=
  List.filter (fun r => negb (String.eqb (id r) k)) t.

(** The rows stored under key [k]. *)
Definition rows_of (k : string) (t : list row) : list row :=
  List.filter (fun r => String.eqb (id r) k) t.

End Table.

(** [prisma.wallet.findFirst({ where: { address } })] *)
Definition wallet_findFirst (address : string) (t : list wallet_row)
    : option wallet_row :=
  List.find (fun w => String.eqb (w_address w) address) t.

End Prisma.

(** What a handler yields: the reply, the trace and the state it leaves. *)
Definition outcome (S : Type) : Type := reply * list event * S.

(** ** apps/api/src/auth-nonce.ts

    The [IS_DEV] console output of the two handlers is not traced. *)
Module AuthNonce.

Definition NONCE_TTL_MS : Z := 5 * 60 * 1000.

Record nonce_rec : Type := { nonce : string; expiresAt : Z }.

(** The module-level [nonces] map (key = wallet address) and the database. *)
Record state : Type := {
  nonces : gmap string nonce_rec;
  db : Prisma.db
}.

Definition init : state := {| nonces := ∅; db := Prisma.empty |}.

(** Bodies accepted by [NonceReq] and [VerifyReq]. *)
Record nonce_req : Type := {
  address : option string;
  walletAddress : option string
}.

Record verify_req : Type := {
  v_address : option string;
  v_signature : option string;
  v_nonce : option string
}.

Section Handlers.
Context {P : Platform}.
(** [registerAuthRoutes(app, JWT_SECRET)] *)
Variable JWT_SECRET : string.

(** [parsed.walletAddress ?? parsed.address] *)
Definition nullish (a b : option string) : option string :=
  match a with Some _ => a | None => b end.

(** [(parsed.walletAddress ?? parsed.address)?.trim()] *)
Definition address_of (req : nonce_req) : option string :=
  option_map String_trim (nullish (walletAddress req) (address req)).

(** [app.post("/auth/nonce")]; [fresh] is the value of [makeNonce()]. *)
Definition post_nonce (now : Z) (fresh : string) (req : nonce_req)
    (st : state) : outcome state :=
  match address_of req with
  | None => (send 400 (ErrorJson "address required"), [], st)
  | Some address =>
    if negb (truthy address)
    then (send 400 (ErrorJson "address required"), [], st)
    else
      match PublicKey address with
      | None => (send 400 (ErrorJson "Invalid walletAddress"), [], st)
      | Some _ =>
        let issue :=
          (send 200 (NonceJson fresh), [],
           {| nonces := <[address := {| nonce := fresh;
                                        expiresAt := now + NONCE_TTL_MS |}]>
                          (nonces st);
              db := db st |}) in
        match nonces st !! address with
        | Some existing =>
            if now <? expiresAt existing
            then (send 200 (NonceJson (nonce existing)), [], st)
            else issue
        | None => issue
        end
      end
  end.

(** "Find or create user": the wallet row of the address, or a new user
    and wallet with the given random identifiers. *)
Definition find_or_create_user (now : Z) (uid wid address : string)
    (d : Prisma.db) : res string * Prisma.db :=
  match Prisma.wallet_findFirst address (Prisma.wallets d) with
  | Some existingWallet => (Ret (Prisma.w_userId existingWallet), d)
  | None =>
    match Prisma.create Prisma.u_id
            {| Prisma.u_id := uid; Prisma.u_createdAt := now;
               Prisma.u_updatedAt := now |} (Prisma.users d) with
    | Throw e => (Throw e, d)
    | Ret us =>
      let d1 := {| Prisma.users := us; Prisma.wallets := Prisma.wallets d;
                   Prisma.sessions := Prisma.sessions d |} in
      match Prisma.create Prisma.w_id
              {| Prisma.w_id := wid; Prisma.w_address := address;
                 Prisma.w_chain := "solana"; Prisma.w_userId := uid;
                 Prisma.w_createdAt := now |} (Prisma.wallets d1) with
      | Throw e => (Throw e, d1)
      | Ret ws =>
        (Ret uid, {| Prisma.users := us; Prisma.wallets := ws;
                     Prisma.sessions := Prisma.sessions d |})
      end
    end
  end.

(** The [catch] of both handlers: [400 { error: e.message }]. *)
Definition caught (e : thrown) : reply := send 400 (ErrorThrownJson e).

(** [app.post("/auth/verify")]; [uid] and [wid] are the two values of
    [crypto.randomUUID()] the handler may draw. *)
Definition post_verify (now : Z) (uid wid : string) (req : verify_req)
    (st : state) : outcome state :=
  match v_address req, v_signature req, v_nonce req with
  | Some address, Some signature, Some nonce' =>
    match PublicKey address with
    | None => (caught InvalidPublicKeyInput, [], st)
    | Some pub =>
      match nonces st !! address with
      | None => (send 400 (ErrorJson "Nonce not found. Get a new nonce."), [], st)
      | Some rec =>
        if expiresAt rec <? now
        then (send 400 (ErrorJson "Nonce expired. Get a new nonce."), [],
              {| nonces := delete address (nonces st); db := db st |})
        else if negb (String.eqb (nonce rec) nonce')
        then (send 400 (ErrorJson "Nonce mismatch"), [], st)
        else
          let msg := TextEncoder_encode nonce' in
          match bs58_decode signature with
          | None => (caught NonBase58Character, [], st)
          | Some sig =>
            let tr := [NaclVerify msg sig pub] in
            match nacl_sign_detached_verify msg sig pub with
            | Throw e => (caught e, tr, st)
            | Ret false => (send 401 (ErrorJson "Invalid signature"), tr, st)
            | Ret true =>
              match find_or_create_user now uid wid address (db st) with
              | (Throw e, d) => (caught e, tr, {| nonces := nonces st; db := d |})
              | (Ret userId, d) =>
                match jwt.sign (jwt.SubAddrClaims userId address) JWT_SECRET
                        (jwt.days 7) None now with
                | Throw e => (caught e, tr, {| nonces := nonces st; db := d |})
                | Ret token =>
                  ({| status := 200; json := OkJson;
                      cookies := [SetCookie "auth" token (7 * 24 * 3600 * 1000)] |},
                   tr,
                   {| nonces := delete address (nonces st); db := d |})
                end
              end
            end
          end
      end
    end
  | _, _, _ => (caught ZodError, [], st)
  end.

(** A request to either route. *)
Inductive request : Type :=
  | PostNonce (now : Z) (fresh : string) (req : nonce_req)
  | PostVerify (now : Z) (uid wid : string) (req : verify_req).

Definition handle (r : request) (st : state) : outcome state :=
  match r with
  | PostNonce now fresh req => post_nonce now fresh req st
  | PostVerify now uid wid req => post_verify now uid wid req st
  end.

(** The state after serving the requests in order, each handler from its
    first line to its reply before the next one starts: one run of the
    event loop among many.  All its runs, with handlers that overlap, are
    the subject of [AuthNonceLoop]. *)
Fixpoint run (rs : list request) (st : state) : state :=
  match rs with
  | [] => st
  | r :: rs' => run rs' (snd (handle r st))
  end.

End Handlers.

End AuthNonce.

(** ** apps/api/src/auth-nonce.ts as the event loop runs it

    Both handlers are [async] functions.  A handler runs without
    interruption up to its next [await]; the awaited database call is
    performed at some later moment, and the handler resumes with its
    result at a later moment still.  In between, segments of other
    handlers run.  [/auth/nonce] contains no [await] and is served in
    one piece.  [/auth/verify] awaits three database calls, at lines
    101, 105 and 108. *)
Module AuthNonceLoop.

(** A [/auth/verify] handler at an [await]: the call it has issued, or
    the result the database has settled on; or the handler's reply.
    [uid] and [wid] are the two values of [crypto.randomUUID()] the
    handler may draw, [tr] the verifier calls it has made. *)
Inductive task : Type :=
  | FindFirstIssued (uid wid address : string) (tr : list event)
  | FindFirstSettled (uid wid address : string) (tr : list event)
      (existingWallet : option Prisma.wallet_row)
  | UserCreateIssued (wid address : string) (tr : list event)
      (data : Prisma.user_row)
  | UserCreateSettled (wid address : string) (tr : list event)
      (user : res Prisma.user_row)
  | WalletCreateIssued (address userId : string) (tr : list event)
      (data : Prisma.wallet_row)
  | WalletCreateSettled (address userId : string) (tr : list event)
      (result : res unit)
  | Done (r : reply) (tr : list event).


(** The module-level state and the handlers that have begun, in the
    order they began. *)
Record system : Type := {
  store : AuthNonce.state;
  handlers : list task
}.

(** A turn of the event loop. *)
Inductive turn : Type :=
  | Nonce (now : Z) (fresh : string) (req : AuthNonce.nonce_req)
      (* a whole [/auth/nonce] handler *)
  | Begin (now : Z) (uid wid : string) (req : AuthNonce.verify_req)
      (* a new [/auth/verify] handler, up to its first [await] *)
  | Advance (i : nat) (now : Z).
      (* handler [i]: the database performs the call it awaits, or the
         handler resumes with the result *)

Section Handlers.
Context {P : Platform}.
(** [registerAuthRoutes(app, JWT_SECRET)] *)
Variable JWT_SECRET : string.

(** Lines 83 to 101: the checks on the stored nonce and on the
    signature, up to the call of [prisma.wallet.findFirst]. *)
Definition begin (now : Z) (uid wid : string) (req : AuthNonce.verify_req)
    (st : AuthNonce.state) : task * AuthNonce.state :=
  match AuthNonce.v_address req, AuthNonce.v_signature req,
        AuthNonce.v_nonce req with
  | Some address, Some signature, Some nonce' =>
    match PublicKey address with
    | None => (Done (AuthNonce.caught InvalidPublicKeyInput) [], st)
    | Some pub =>
      match AuthNonce.nonces st !! address with
      | None =>
        (Done (send 400 (ErrorJson "Nonce not found. Get a new nonce.")) [], st)
      | Some rec =>
        if AuthNonce.expiresAt rec <? now
        then (Done (send 400 (ErrorJson "Nonce expired. Get a new nonce.")) [],
              {| AuthNonce.nonces := delete address (AuthNonce.nonces st);
                 AuthNonce.db := AuthNonce.db st |})
        else if negb (String.eqb (AuthNonce.nonce rec) nonce')
        then (Done (send 400 (ErrorJson "Nonce mismatch")) [], st)
        else
          let msg := TextEncoder_encode nonce' in
          match bs58_decode signature with
          | None => (Done (AuthNonce.caught NonBase58Character) [], st)
          | Some sig =>
            let tr := [NaclVerify msg sig pub] in
            match nacl_sign_detached_verify msg sig pub with
            | Throw e => (Done (AuthNonce.caught e) tr, st)
            | Ret false => (Done (send 401 (ErrorJson "Invalid signature")) tr, st)
            | Ret true => (FindFirstIssued uid wid address tr, st)
            end
          end
      end
    end
  | _, _, _ => (Done (AuthNonce.caught ZodError) [], st)
  end.

(** Lines 114 to 126: the token, the one-time use of the nonce, the
    reply. *)
Definition finish (now : Z) (address userId : string) (tr : list event)
    (st : AuthNonce.state) : task * AuthNonce.state :=
  match jwt.sign (jwt.SubAddrClaims userId address) JWT_SECRET
          (jwt.days 7) None now with
  | Throw e => (Done (AuthNonce.caught e) tr, st)
  | Ret token =>
    (Done {| status := 200; json := OkJson;
             cookies := [SetCookie "auth" token (7 * 24 * 3600 * 1000)] |} tr,
     {| AuthNonce.nonces := delete address (AuthNonce.nonces st);
        AuthNonce.db := AuthNonce.db st |})
  end.

(** The database performs the call the handler has issued. *)
Definition settle (t : task) (d : Prisma.db) : task * Prisma.db :=
  match t with
  | FindFirstIssued uid wid address tr =>
    (FindFirstSettled uid wid address tr
       (Prisma.wallet_findFirst address (Prisma.wallets d)), d)
  | UserCreateIssued wid address tr data =>
    match Prisma.create Prisma.u_id data (Prisma.users d) with
    | Throw e => (UserCreateSettled wid address tr (Throw e), d)
    | Ret us =>
      (UserCreateSettled wid address tr (Ret data),
       {| Prisma.users := us; Prisma.wallets := Prisma.wallets d;
          Prisma.sessions := Prisma.sessions d |})
    end
  | WalletCreateIssued address userId tr data =>
    match Prisma.create Prisma.w_id data (Prisma.wallets d) with
    | Throw e => (WalletCreateSettled address userId tr (Throw e), d)
    | Ret ws =>
      (WalletCreateSettled address userId tr (Ret tt),
       {| Prisma.users := Prisma.users d; Prisma.wallets := ws;
          Prisma.sessions := Prisma.sessions d |})
    end
  | _ => (t, d)
  end.

(** The handler resumes after its [await], at time [now]: lines 102 to
    105, line 108, or lines 111 to 126; a rejected call goes to the
    [catch]. *)
Definition resume (now : Z) (t : task) (st : AuthNonce.state)
    : task * AuthNonce.state :=
  match t with
  | FindFirstSettled uid wid address tr (Some existingWallet) =>
    finish now address (Prisma.w_userId existingWallet) tr st
  | FindFirstSettled uid wid address tr None =>
    (UserCreateIssued wid address tr
       {| Prisma.u_id := uid; Prisma.u_createdAt := now;
          Prisma.u_updatedAt := now |}, st)
  | UserCreateSettled wid address tr (Ret user) =>
    (WalletCreateIssued address (Prisma.u_id user) tr
       {| Prisma.w_id := wid; Prisma.w_address := address;
          Prisma.w_chain := "solana"; Prisma.w_userId := Prisma.u_id user;
          Prisma.w_createdAt := now |}, st)
  | UserCreateSettled _ _ tr (Throw e) => (Done (AuthNonce.caught e) tr, st)
  | WalletCreateSettled address userId tr (Ret _) =>
    finish now address userId tr st
  | WalletCreateSettled _ _ tr (Throw e) => (Done (AuthNonce.caught e) tr, st)
  | _ => (t, st)
  end.

(** One turn of a handler. *)
Definition advance (now : Z) (t : task) (st : AuthNonce.state)
    : task * AuthNonce.state :=
  match t with
  | FindFirstIssued _ _ _ _ | UserCreateIssued _ _ _ _
  | WalletCreateIssued _ _ _ _ =>
    let '(t', d') := settle t (AuthNonce.db st) in
    (t', {| AuthNonce.nonces := AuthNonce.nonces st; AuthNonce.db := d' |})
  | _ => resume now t st
  end.

Definition exec (e : turn) (s : system) : system :=
  match e with
  | Nonce now fresh req =>
    {| store := snd (AuthNonce.post_nonce now fresh req (store s));
       handlers := handlers s |}
  | Begin now uid wid req =>
    let '(t, st') := begin now uid wid req (store s) in
    {| store := st'; handlers := handlers s ++ [t] |}
  | Advance i now =>
    match handlers s !! i with
    | None => s
    | Some t =>
      let '(t', st') := advance now t (store s) in
      {| store := st'; handlers := <[i := t']> (handlers s) |}
    end
  end.

(** The system after the turns in order. *)
Fixpoint run (es : list turn) (s : system) : system :=
  match es with
  | [] => s
  | e :: es' => run es' (exec e s)
  end.

(** The six turns that take handler [i] from its first [await] to its
    reply when nothing else runs in between. *)
Definition to_completion (i : nat) (now : Z) : list turn :=
  repeat (Advance i now) 6.

(** The turns that serve the requests one at a time, each verify handler
    taken to its reply before the next request is looked at; [n] verify
    handlers have begun before. *)
Fixpoint serially (rs : list AuthNonce.request) (n : nat) : list turn :=
  match rs with
  | [] => []
  | AuthNonce.PostNonce now fresh req :: rs' =>
      Nonce now fresh req :: serially rs' n
  | AuthNonce.PostVerify now uid wid req :: rs' =>
      Begin now uid wid req :: to_completion n now ++ serially rs' (S n)
  end.

End Handlers.

End AuthNonceLoop.

(** ** apps/api/src/utils/solana.ts *)
Module Solana.

Section Helpers.
Context {P : Platform}.

Definition verifySolanaSignatureBase58 (address message signature58 : string)
    : res bool * list event :=
  match PublicKey address with
  | None => (Throw InvalidPublicKeyInput, [])
  | Some pub =>
    let msg := TextEncoder_encode message in
    match bs58_decode signature58 with
    | None => (Throw NonBase58Character, [])
    | Some sig =>
      (nacl_sign_detached_verify msg sig pub, [NaclVerify msg sig pub])
    end
  end.

Definition verifySolanaSignatureBase64 (address message signatureB64 : string)
    : res bool * list event :=
  match PublicKey address with
  | None => (Throw InvalidPublicKeyInput, [])
  | Some pub =>
    let msg := TextEncoder_encode message in
    match atob_bytes signatureB64 with
    | None => (Throw InvalidCharacterError, [])
    | Some sig =>
      (nacl_sign_detached_verify msg sig pub, [NaclVerify msg sig pub])
    end
  end.

End Helpers.

End Solana.

(** ** apps/api/src/middleware/auth.ts *)
Module Middleware.

(** [issueJWT(payload)] at time [now]. *)
Definition issueJWT (e : env) (uid address : string) (role : option string)
    (now : Z) : res jwt.token :=
  if negb (truthy (JWT_SECRET e)) then Throw MissingJwtSecret
  else jwt.sign (jwt.UidClaims uid address role) (JWT_SECRET e)
         (jwt.days 7) None now.

End Middleware.

(** The line feed. *)
Definition LF : string := String (ascii_of_nat 10) EmptyString.

(** [s.split(c)] for a one-character separator. *)
Fixpoint split_at (c : ascii) (s : string) : list string :=
  match s with
  | EmptyString => [EmptyString]
  | String a s' =>
    if Ascii.eqb a c then EmptyString :: split_at c s'
    else match split_at c s' with
         | [] => [String a EmptyString]
         | w :: ws => String a w :: ws
         end
  end.

(** ** apps/api/src/routes/auth.ts *)
Module RoutesAuth.

(** Body of POST /auth/verify. *)
Record verify_req : Type := {
  address : option string;
  nonce : option string;
  signatureBase64 : option string;
  signature58 : option string
}.

Section Handlers.
Context {P : Platform}.
Variable E : env.

(** Admin check from env *)
Definition isAdmin (address : string) : bool :=
  existsb (String.eqb address)
    (List.filter truthy (map String_trim (split_at "," (ADMIN_ADDRESSES E)))).

(** The session key [`nonce:${address}`]. *)
Definition nonce_key (address : string) : string := "nonce:" +:+ address.

(** Create + store a 5-minute nonce for an address; [hex] is
    [crypto.randomBytes(16).toString('hex')]. *)
Definition createAndStoreNonce (now : Z) (hex : string) (address : string)
    (d : Prisma.db) : string * Prisma.db :=
  let nonce :=
    "Sign in to FST" +:+ LF +:+
    "Address: " +:+ address +:+ LF +:+
    "Nonce: " +:+ hex +:+ LF +:+
    "TS:" +:+ pretty now in
  let us :=
    Prisma.upsert Prisma.u_id address
      (fun u => {| Prisma.u_id := Prisma.u_id u;
                   Prisma.u_createdAt := Prisma.u_createdAt u;
                   Prisma.u_updatedAt := now |})
      {| Prisma.u_id := address; Prisma.u_createdAt := now;
         Prisma.u_updatedAt := now |}
      (Prisma.users d) in
  let ss :=
    Prisma.upsert Prisma.s_id (nonce_key address)
      (fun s => {| Prisma.s_id := Prisma.s_id s;
                   Prisma.s_userId := Prisma.s_userId s;
                   Prisma.s_jwtId := nonce;
                   Prisma.s_expiresAt := now + 5 * 60000;
                   Prisma.s_createdAt := Prisma.s_createdAt s |})
      {| Prisma.s_id := nonce_key address; Prisma.s_userId := address;
         Prisma.s_jwtId := nonce; Prisma.s_expiresAt := now + 5 * 60000;
         Prisma.s_createdAt := now |}
      (Prisma.sessions d) in
  (nonce, {| Prisma.users := us; Prisma.wallets := Prisma.wallets d;
             Prisma.sessions := ss |}).

(** GET /auth/nonce?address=<base58> -> { nonce } *)
Definition get_nonce (now : Z) (hex : string) (query_address : option string)
    (d : Prisma.db) : outcome Prisma.db :=
  let address := String_trim (or_else query_address "") in
  if negb (truthy address)
  then (send 400 (ErrorJson "address is required"), [], d)
  else
    let '(nonce, d') := createAndStoreNonce now hex address d in
    (send 200 (NonceJson nonce), [], d').

(** POST /auth/nonce { walletAddress } -> { nonce } *)
Definition post_nonce (now : Z) (hex : string) (body_walletAddress : option string)
    (d : Prisma.db) : outcome Prisma.db :=
  let address := String_trim (or_else body_walletAddress "") in
  if negb (truthy address)
  then (send 400 (ErrorJson "walletAddress is required"), [], d)
  else
    let '(nonce, d') := createAndStoreNonce now hex address d in
    (send 200 (NonceJson nonce), [], d').

(** The [try] block around the two signature helpers: the value of [ok]
    after it, and what was traced. *)
Definition check_signatures (addr n : string) (req : verify_req)
    : bool * list event :=
  let '(r1, t1) :=
    if present (signatureBase64 req)
    then Solana.verifySolanaSignatureBase64 addr n (or_else (signatureBase64 req) "")
    else (Ret false, []) in
  match r1 with
  | Throw _ => (false, t1 ++ [Console "[verify] signature verify error"])
  | Ret ok =>
    if negb ok && present (signature58 req)
    then
      let '(r2, t2) :=
        Solana.verifySolanaSignatureBase58 addr n (or_else (signature58 req) "") in
      match r2 with
      | Throw _ => (false, t1 ++ t2 ++ [Console "[verify] signature verify error"])
      | Ret ok2 => (ok2, t1 ++ t2)
      end
    else (ok, t1)
  end.

(** POST /auth/verify *)
Definition post_verify (now : Z) (req : verify_req) (d : Prisma.db)
    : outcome Prisma.db :=
  let hasAll :=
    present (address req) && present (nonce req) &&
    (present (signatureBase64 req) || present (signature58 req)) in
  if negb hasAll
  then (send 400 (ErrorJson "address, nonce and signature are required"),
        [Console "[verify] missing fields"], d)
  else
    let addr := or_else (address req) "" in
    let n := or_else (nonce req) "" in
    match Prisma.findUnique Prisma.s_id (nonce_key addr) (Prisma.sessions d) with
    | None =>
      (send 400 (ErrorJson "nonce invalid or expired"),
       [Console "[verify] no stored session"], d)
    | Some stored =>
      if negb (String.eqb (Prisma.s_jwtId stored) n)
      then (send 400 (ErrorJson "nonce invalid or expired"),
            [Console "[verify] nonce mismatch"], d)
      else if Prisma.s_expiresAt stored <? now
      then (send 400 (ErrorJson "nonce invalid or expired"),
            [Console "[verify] nonce expired"], d)
      else
        let '(ok, tr) := check_signatures addr n req in
        if negb ok
        then (send 400 (ErrorJson "invalid signature"),
              tr ++ [Console "[verify] invalid signature"], d)
        else
          (* Invalidate nonce (one-time use) *)
          let d' := {| Prisma.users := Prisma.users d;
                       Prisma.wallets := Prisma.wallets d;
                       Prisma.sessions :=
                         Prisma.delete Prisma.s_id (nonce_key addr)
                           (Prisma.sessions d) |} in
          let role := if isAdmin addr then Some "ADMIN" else None in
          match Middleware.issueJWT E addr addr role now with
          | Throw _ =>
            (send 500 (ErrorJson "verify failed"),
             tr ++ [Console "[verify] failed"], d')
          | Ret token =>
            (send 200 (TokenRoleJson token (or_else role "USER")),
             tr ++ [Console "[verify] ok"], d')
          end
    end.

(** A request to one of the three routes. *)
Inductive request : Type :=
  | GetNonce (now : Z) (hex : string) (query_address : option string)
  | PostNonce (now : Z) (hex : string) (body_walletAddress : option string)
  | PostVerify (now : Z) (req : verify_req).

Definition handle (r : request) (d : Prisma.db) : outcome Prisma.db :=
  match r with
  | GetNonce now hex a => get_nonce now hex a d
  | PostNonce now hex a => post_nonce now hex a d
  | PostVerify now req => post_verify now req d
  end.

(** The database after serving the requests in order, each handler from
    its first line to its reply before the next one starts. *)
Fixpoint run (rs : list request) (d : Prisma.db) : Prisma.db :=
  match rs with
  | [] => d
  | r :: rs' => run rs' (snd (handle r d))
  end.

End Handlers.

End RoutesAuth.

(** ** POST /auth/verify of routes/auth.ts as the event loop runs it

    The handler awaits two database calls: [prisma.session.findUnique]
    at line 114 and [prisma.session.delete] at line 154, whose rejection
    is swallowed by [.catch(() => {})].  Between the two, and before the
    first is performed, segments of other handlers run.  The challenge
    routes are not part of this model. *)
Module RoutesAuthLoop.

Inductive task : Type :=
  | FindUniqueIssued (addr n : string) (req : RoutesAuth.verify_req)
  | FindUniqueSettled (addr n : string) (req : RoutesAuth.verify_req)
      (stored : option Prisma.session_row)
  | DeleteIssued (addr : string) (tr : list event)
  | DeleteSettled (addr : string) (tr : list event)
  | Done (r : reply) (tr : list event).

Record system : Type := {
  db : Prisma.db;
  handlers : list task
}.

Inductive turn : Type :=
  | Begin (req : RoutesAuth.verify_req)
  | Advance (i : nat) (now : Z).

Section Handlers.
Context {P : Platform}.
Variable E : env.

(** Lines 98 to 114. *)
Definition begin (req : RoutesAuth.verify_req) : task :=
  let hasAll :=
    present (RoutesAuth.address req) && present (RoutesAuth.nonce req) &&
    (present (RoutesAuth.signatureBase64 req) ||
     present (RoutesAuth.signature58 req)) in
  if negb hasAll
  then Done (send 400 (ErrorJson "address, nonce and signature are required"))
         [Console "[verify] missing fields"]
  else FindUniqueIssued (or_else (RoutesAuth.address req) "")
         (or_else (RoutesAuth.nonce req) "") req.

(** The database performs the call the handler has issued; a [delete]
    of a missing row rejects, and the handler goes on all the same. *)
Definition settle (t : task) (d : Prisma.db) : task * Prisma.db :=
  match t with
  | FindUniqueIssued addr n req =>
    (FindUniqueSettled addr n req
       (Prisma.findUnique Prisma.s_id (RoutesAuth.nonce_key addr)
          (Prisma.sessions d)), d)
  | DeleteIssued addr tr =>
    (DeleteSettled addr tr,
     {| Prisma.users := Prisma.users d; Prisma.wallets := Prisma.wallets d;
        Prisma.sessions :=
          Prisma.delete Prisma.s_id (RoutesAuth.nonce_key addr)
            (Prisma.sessions d) |})
  | _ => (t, d)
  end.

(** The handler resumes at time [now]: lines 116 to 154, or lines 156
    to 160. *)
Definition resume (now : Z) (t : task) : task :=
  match t with
  | FindUniqueSettled addr n req None =>
    Done (send 400 (ErrorJson "nonce invalid or expired"))
      [Console "[verify] no stored session"]
  | FindUniqueSettled addr n req (Some stored) =>
    if negb (String.eqb (Prisma.s_jwtId stored) n)
    then Done (send 400 (ErrorJson "nonce invalid or expired"))
           [Console "[verify] nonce mismatch"]
    else if Prisma.s_expiresAt stored <? now
    then Done (send 400 (ErrorJson "nonce invalid or expired"))
           [Console "[verify] nonce expired"]
    else
      let '(ok, tr) := RoutesAuth.check_signatures addr n req in
      if negb ok
      then Done (send 400 (ErrorJson "invalid signature"))
             (tr ++ [Console "[verify] invalid signature"])
      else DeleteIssued addr tr
  | DeleteSettled addr tr =>
    let role := if RoutesAuth.isAdmin E addr then Some "ADMIN" else None in
    match Middleware.issueJWT E addr addr role now with
    | Throw _ =>
      Done (send 500 (ErrorJson "verify failed")) (tr ++ [Console "[verify] failed"])
    | Ret token =>
      Done (send 200 (TokenRoleJson token (or_else role "USER")))
        (tr ++ [Console "[verify] ok"])
    end
  | _ => t
  end.

Definition advance (now : Z) (t : task) (d : Prisma.db) : task * Prisma.db :=
  match t with
  | FindUniqueIssued _ _ _ | DeleteIssued _ _ => settle t d
  | _ => (resume now t, d)
  end.

Definition exec (e : turn) (s : system) : system :=
  match e with
  | Begin req => {| db := db s; handlers := handlers s ++ [begin req] |}
  | Advance i now =>
    match handlers s !! i with
    | None => s
    | Some t =>
      let '(t', d') := advance now t (db s) in
      {| db := d'; handlers := <[i := t']> (handlers s) |}
    end
  end.

Fixpoint run (es : list turn) (s : system) : system :=
  match es with
  | [] => s
  | e :: es' => run es' (exec e s)
  end.

(** The four turns that take handler [i] from its first [await] to its
    reply when nothing else runs in between. *)
Definition to_completion (i : nat) (now : Z) : list turn :=
  repeat (Advance i now) 4.

End Handlers.

End RoutesAuthLoop.

(** ** apps/api/src/server.ts *)
Module Server.

(** The fields the verify handler reads from [req.body] and [req.query]. *)
Record fields : Type := {
  walletAddress : option string;
  address : option string;
  wallet : option string;
  signatureBase58 : option string;
  signature : option string;
  sig : option string;
  message : option string
}.

Record verify_req : Type := {
  body : fields;                      (* after the text/plain normalisation *)
  query : fields;
  nonce_cookie : option jwt.wire      (* req.cookies?.nonce *)
}.

(** What the environment answers when the handler reaches the database:
    [ensurePrisma()] gave no client, or the writes went through, or one threw. *)
Inductive prisma_run : Type := NoClient | WritesOk | WriteThrew.

Section Handlers.
Context {P : Platform}.
Variable E : env.

(** [signNonceCookie(payload)]; [jti] is its [randomUUID()]. *)
Definition signNonceCookie (now : Z) (jti wallet nonce msg : string)
    : res jwt.token :=
  jwt.sign (jwt.NonceClaims wallet nonce msg) (JWT_SECRET E)
    (jwt.minutes 5) (Some jti) now.

Definition decodeBase58 (s : string) : option bytes := bs58_decode s.

Definition decodeBase64 (s : string) : option bytes :=
  Some (Buffer_from_base64 s).

(** [app.get("/auth/nonce")]; [nonce] and [jti] are the two values of
    [randomUUID()]. *)
Definition get_nonce (now : Z) (nonce jti : string) (query_wallet : option string)
    : reply * list event :=
  let wallet := String_trim (or_else query_wallet "") in
  if negb (truthy wallet)
  then (send 400 (ErrorJson "Missing wallet param"), [])
  else
    let issuedAt := Date_toISOString now in
    let message :=
      APP_NAME E +:+ " login" +:+ LF +:+ LF +:+
      "Wallet: " +:+ wallet +:+ LF +:+
      "Nonce: " +:+ nonce +:+ LF +:+
      "Issued At: " +:+ issuedAt +:+ LF +:+
      LF +:+ "By signing, you prove ownership of this wallet." in
    match signNonceCookie now jti wallet nonce message with
    | Throw _ => (send 500 (ErrorJson "Internal error"), [Console "[nonce] error:"])
    | Ret token =>
      ({| status := 200;
          json := ChallengeJson wallet nonce message 300;
          cookies := [SetCookie "nonce" token (5 * 60 * 1000)] |}, [])
    end.

(** The message the signature is checked against: the one of a verified
    nonce cookie if there is one, the one of the request otherwise.
    [inl r] is an early reply. *)
Definition choose_message (now : Z) (walletAddress : string)
    (bodyMessage : option string) (nonceCookie : option jwt.wire)
    : reply + option string :=
  let fallback := inr bodyMessage in
  match nonceCookie with
  | None => fallback
  | Some (jwt.Opaque "") => fallback
  | Some c =>
    match jwt.verify c (JWT_SECRET E) now with
    | Ret (jwt.NonceClaims w _ msg) =>
      if negb (String.eqb w walletAddress)
      then inl (send 400 (ErrorJson "Wallet mismatch with nonce"))
      else inr (Some msg)
    | Ret _ => inl (send 400 (ErrorJson "Bad nonce payload"))
    | Throw _ => fallback
    end
  end.

(** The [db] field of the reply. *)
Definition persist (run : prisma_run) : db_status * list event :=
  if USE_DB E then
    match run with
    | NoClient => (DbSkipped, [])
    | WritesOk => (DbOk, [])
    | WriteThrew => (DbError, [Console "[verify] DB write failed:"])
    end
  else (DbSkipped, []).

(** The normalised inputs of the verify handler. *)
Definition walletAddress_of (req : verify_req) : string :=
  let b := body req in
  let q := query req in
  String_trim
    (or_else (walletAddress b) (or_else (address b) (or_else (wallet b)
      (or_else (walletAddress q) (or_else (address q) (or_else (wallet q) "")))))).

Definition signatureBase58_of (req : verify_req) : string :=
  String_trim
    (or_else (signatureBase58 (body req)) (or_else (signatureBase58 (query req)) "")).

Definition signatureBase64_of (req : verify_req) : string :=
  let b := body req in
  let q := query req in
  String_trim
    (or_else (signature b) (or_else (sig b) (or_else (signature q)
      (or_else (sig q) "")))).

Definition bodyMessage_of (req : verify_req) : option string :=
  let m := or_else (message (body req)) (or_else (message (query req)) "") in
  if truthy m then Some m else None.

(** Decode signature: Base64 (preferred) then Base58.  [inl r] is an
    early reply. *)
Definition decode_signature (req : verify_req) : reply + (bytes * sig_encoding) :=
  if truthy (signatureBase64_of req) then
    match decodeBase64 (signatureBase64_of req) with
    | None => inl (send 400 (ErrorJson "Bad signature (base64)"))
    | Some s => inr (s, EncBase64)
    end
  else if truthy (signatureBase58_of req) then
    match decodeBase58 (signatureBase58_of req) with
    | None => inl (send 400 (ErrorJson "Bad signature (base58)"))
    | Some s => inr (s, EncBase58)
    end
  else inl (send 400 (ErrorHintJson "Missing signature"
              "Send 'signature' (Base64) or 'signatureBase58'.")).

(** [app.post("/auth/verify")]; [jti], [userId], [walletId] are its values
    of [randomUUID()]. *)
Definition post_verify (now : Z) (jti userId walletId : string)
    (run : prisma_run) (req : verify_req) : reply * list event :=
  let walletAddress := walletAddress_of req in
  if negb (truthy walletAddress)
  then (send 400 (ErrorJson "walletAddress is required"), [])
  else
    match choose_message now walletAddress (bodyMessage_of req) (nonce_cookie req) with
    | inl r => (r, [])
    | inr message =>
      if negb (present message)
      then (send 400 (ErrorJson "Missing nonce message"), [])
      else
        let message := or_else message "" in
        match decode_signature req with
        | inl r => (r, [])
        | inr (sig, encUsed) =>
          if (length sig <? 64)%nat
          then (send 400 (ErrorJson "Signature length invalid"), [])
          else
            match bs58_decode walletAddress with
            | None => (send 400 (ErrorJson "walletAddress must be base58"), [])
            | Some pubkey =>
              let msg := TextEncoder_encode message in
              let tr := [NaclVerify msg sig pubkey] in
              match nacl_sign_detached_verify msg sig pubkey with
              | Throw _ =>
                (send 500 (ErrorJson "Internal error"), tr ++ [Console "[verify] error:"])
              | Ret false => (send 401 (ErrorJson "Invalid signature"), tr)
              | Ret true =>
                match jwt.sign (jwt.AuthClaims userId walletId) (JWT_SECRET E)
                        (jwt.days 30) (Some jti) now with
                | Throw _ =>
                  (send 500 (ErrorJson "Internal error"),
                   tr ++ [Console "[verify] error:"])
                | Ret authToken =>
                  let expiresAt := now + 30 * 24 * 60 * 60 * 1000 in
                  let '(db, tdb) := persist run in
                  ({| status := 200;
                      json := VerifiedJson authToken userId walletId encUsed db
                                (Date_toISOString expiresAt);
                      cookies := [ClearCookie "nonce";
                                  SetCookie "auth" authToken
                                    (30 * 24 * 60 * 60 * 1000)] |},
                   tr ++ tdb)
                end
              end
            end
        end
    end.

End Handlers.

End Server.

(** ** A reference platform

    One concrete reading of the library functions, used to run the
    handlers on concrete requests.  Strings are taken to be ASCII here.
    The Ed25519 check itself stays a parameter [ed25519]: an example picks
    whether the signature at hand verifies. *)
Module Reference.

Definition byte_of_Z (n : Z) : Byte.byte :=
  byte_of_ascii (ascii_of_N (Z.to_N (n mod 256))).

Definition code (c : ascii) : Z := Z.of_N (N_of_ascii c).

(** *** [String.prototype.trim] on ASCII white space *)
Definition is_space (c : ascii) : bool :=
  let n := code c in ((9 <=? n) && (n <=? 13)) || (n =? 32).

Fixpoint trim_start (s : string) : string :=
  match s with
  | String c s' => if is_space c then trim_start s' else s
  | EmptyString => EmptyString
  end.

Fixpoint trim_end (s : string) : string :=
  match s with
  | String c s' =>
    match trim_end s' with
    | EmptyString => if is_space c then EmptyString else String c EmptyString
    | t => String c t
    end
  | EmptyString => EmptyString
  end.

Definition trim (s : string) : string := trim_end (trim_start s).

(** *** [Date.prototype.toISOString] (proleptic Gregorian calendar, UTC) *)
Fixpoint digits (width : nat) (n : Z) (acc : string) : string :=
  match width with
  | O => acc
  | S w => digits w (n / 10) (String (ascii_of_N (Z.to_N (48 + n mod 10))) acc)
  end.

Definition toISOString (ms : Z) : string :=
  let days := ms / 86400000 in
  let rest := ms mod 86400000 in
  let z := days + 719468 in
  let era := z / 146097 in
  let doe := z - era * 146097 in
  let yoe := (doe - doe / 1460 + doe / 36524 - doe / 146096) / 365 in
  let doy := doe - (365 * yoe + yoe / 4 - yoe / 100) in
  let mp := (5 * doy + 2) / 153 in
  let d := doy - (153 * mp + 2) / 5 + 1 in
  let m := if mp <? 10 then mp + 3 else mp - 9 in
  let y := yoe + era * 400 + (if m <=? 2 then 1 else 0) in
  digits 4 y ("-" +:+ digits 2 m ("-" +:+ digits 2 d ("T" +:+
  digits 2 (rest / 3600000) (":" +:+ digits 2 (rest / 60000 mod 60) (":" +:+
  digits 2 (rest / 1000 mod 60) ("." +:+ digits 3 (rest mod 1000) "Z")))))).

(** *** [bs58.decode] *)
Definition b58_alphabet : string :=
  "123456789ABCDEFGHJKLMNPQRSTUVWXYZabcdefghijkmnopqrstuvwxyz".

Fixpoint index_from (i : Z) (c : ascii) (alphabet : string) : option Z :=
  match alphabet with
  | EmptyString => None
  | String a rest => if Ascii.eqb a c then Some i else index_from (i + 1) c rest
  end.

(** The number a digit string denotes, most significant digit first. *)
Fixpoint b58_value (acc : Z) (s : string) : option Z :=
  match s with
  | EmptyString => Some acc
  | String c s' =>
    match index_from 0 c b58_alphabet with
    | None => None
    | Some d => b58_value (acc * 58 + d) s'
    end
  end.

(** The leading ['1'] characters, each worth one zero byte. *)
Fixpoint leading_ones (s : string) : nat :=
  match s with
  | String "1" s' => S (leading_ones s')
  | _ => O
  end.

(** Big-endian bytes of [n], without leading zero bytes. *)
Fixpoint be_bytes (fuel : nat) (n : Z) (acc : bytes) : bytes :=
  match fuel with
  | O => acc
  | S f => if n =? 0 then acc else be_bytes f (n / 256) (byte_of_Z n :: acc)
  end.

Definition b58decode (s : string) : option bytes :=
  match b58_value 0 s with
  | None => None
  | Some n =>
    Some (repeat Byte.x00 (leading_ones s) ++ be_bytes (String.length s) n [])
  end.

(** [new PublicKey(s).toBytes()]: the decoded key when it has 32 bytes. *)
Definition publicKey (s : string) : option bytes :=
  match b58decode s with
  | Some b => if (length b =? 32)%nat then Some b else None
  | None => None
  end.

(** *** base64 *)
Definition b64_alphabet : string :=
  "ABCDEFGHIJKLMNOPQRSTUVWXYZabcdefghijklmnopqrstuvwxyz0123456789+/".

(** Bytes of a sequence of 6-bit values; left-over bits are dropped. *)
Fixpoint b64_bytes (vals : list Z) (acc nbits : Z) : bytes :=
  match vals with
  | [] => []
  | v :: rest =>
    let acc' := acc * 64 + v in
    let nb := nbits + 6 in
    if 8 <=? nb
    then byte_of_Z (acc' / 2 ^ (nb - 8)) :: b64_bytes rest (acc' mod 2 ^ (nb - 8)) (nb - 8)
    else b64_bytes rest acc' nb
  end.

(** [Buffer.from(s, "base64")]: reads the characters of either base64
    alphabet up to the first ['='] and skips every other character. *)
Fixpoint lenient_values (s : string) : list Z :=
  match s with
  | EmptyString => []
  | String "=" _ => []
  | String c s' =>
    let c' := if Ascii.eqb c "-" then "+"%char
              else if Ascii.eqb c "_" then "/"%char else c in
    match index_from 0 c' b64_alphabet with
    | Some v => v :: lenient_values s'
    | None => lenient_values s'
    end
  end.

Definition bufferFromBase64 (s : string) : bytes :=
  b64_bytes (lenient_values s) 0 0.

(** [atob]: white space is removed, up to two trailing ['='] of a string
    whose length is a multiple of four are removed, and any other
    character outside the alphabet, or a length of 1 modulo 4, throws. *)
Fixpoint strict_values (cs : list ascii) : option (list Z) :=
  match cs with
  | [] => Some []
  | c :: cs' =>
    match index_from 0 c b64_alphabet, strict_values cs' with
    | Some v, Some vs => Some (v :: vs)
    | _, _ => None
    end
  end.

Definition strip_padding (cs : list ascii) : list ascii :=
  if (length cs mod 4 =? 0)%nat then
    match rev cs with
    | "="%char :: "="%char :: r => rev r
    | "="%char :: r => rev r
    | _ => cs
    end
  else cs.

Definition atob (s : string) : option bytes :=
  let cs := strip_padding
              (List.filter (fun c => negb (is_space c)) (list_ascii_of_string s)) in
  if (length cs mod 4 =? 1)%nat then None
  else option_map (fun vs => b64_bytes vs 0 0) (strict_values cs).

(** *** [nacl.sign.detached.verify] around a given Ed25519 check *)
Definition detached_verify (ed25519 : bytes -> bytes -> bytes -> bool)
    (msg sig pk : bytes) : res bool :=
  if negb (length sig =? 64)%nat then Throw BadSignatureSize
  else if negb (length pk =? 32)%nat then Throw BadPublicKeySize
  else Ret (ed25519 msg sig pk).

Definition platform (ed25519 : bytes -> bytes -> bytes -> bool) : Platform.
Proof.
  refine {| String_trim := trim;
            Date_toISOString := toISOString;
            bs58_decode := b58decode;
            PublicKey := publicKey;
            Buffer_from_base64 := bufferFromBase64;
            atob_bytes := atob;
            nacl_sign_detached_verify := detached_verify ed25519 |}.
  intros msg sig pk b. unfold detached_verify.
  destruct (Nat.eqb_spec (length sig) 64), (Nat.eqb_spec (length pk) 32);
    simpl; intros; (congruence || auto).
Defined.

(** The signature at hand verifies, or does not. *)
Definition accepting : Platform := platform (fun _ _ _ => true).
Definition rejecting : Platform := platform (fun _ _ _ => false).

End Reference.


(** ** apps/api/src/middleware/auth.ts ([auth]) and middleware/admin.ts *)
Module Guards.

(** The fields a handler reads from [req.user], the payload [jwt.verify]
    returned. *)
Definition user_uid (c : jwt.claims) : option string :=
  match c with
  | jwt.UidClaims uid _ _ => Some uid
  | _ => None
  end.

Definition user_address (c : jwt.claims) : option string :=
  match c with
  | jwt.UidClaims _ address _ => Some address
  | _ => None
  end.

Definition user_role (c : jwt.claims) : option string :=
  match c with
  | jwt.UidClaims _ _ role => role
  | _ => None
  end.

(** What a middleware does: call [next()] with [req.user], or answer. *)
Inductive passage : Type :=
  | Next (user : jwt.claims)
  | Answer (r : reply).

(** [s.slice(n)] *)
Definition slice (n : nat) (s : string) : string :=
  String.substring n (String.length s - n) s.

Section Middlewares.
Context {P : Platform}.
Variable E : env.
(** The token a compact string stands for, as [jwt.verify] decodes it. *)
Variable decode : string -> jwt.wire.

(** [auth(req, res, next)] at time [now]; [authorization] is
    [req.headers.authorization].  Without a secret [jwt.verify] throws. *)
Definition auth (now : Z) (authorization : option string) : passage :=
  let h := or_else authorization "" in
  let token := if String.prefix "Bearer " h then Some (slice 7 h) else None in
  if negb (present token)
  then Answer (send 401 (ErrorJson "No token"))
  else if negb (truthy (JWT_SECRET E))
  then Answer (send 401 (ErrorJson "Invalid token"))
  else
    match jwt.verify (decode (or_else token "")) (JWT_SECRET E) now with
    | Ret user => Next user
    | Throw _ => Answer (send 401 (ErrorJson "Invalid token"))
    end.

(** The set built from [ADMIN_ADDRESSES] in [requireAdmin]. *)
Definition allowed : list string :=
  List.filter truthy (map String_trim (split_at "," (ADMIN_ADDRESSES E))).

(** [requireAdmin(req, res, next)]; [user] is [req.user]. *)
Definition requireAdmin (user : option jwt.claims) : passage :=
  match user with
  | None => Answer (send 401 (ErrorJson "unauthorized"))
  | Some u =>
    if negb (present (user_address u))
    then Answer (send 401 (ErrorJson "unauthorized"))
    else if match user_role u with
            | Some role => String.eqb role "ADMIN"
            | None => false
            end
            || existsb (String.eqb (or_else (user_address u) "")) allowed
    then Next u
    else Answer (send 403 (ErrorJson "forbidden: admin only"))
  end.

(** [auth] followed by [requireAdmin]. *)
Definition auth_then_requireAdmin (now : Z) (authorization : option string)
    : passage :=
  match auth now authorization with
  | Next user => requireAdmin (Some user)
  | Answer r => Answer r
  end.

End Middlewares.

End Guards.

(** ** apps/api/src/server.ts: the CORS middleware *)
Module Cors.

(** [s.endsWith(suffix)] *)
Definition endsWith (suffix s : string) : bool :=
  (String.length suffix <=? String.length s)%nat &&
  String.eqb
    (String.substring (String.length s - String.length suffix)
       (String.length suffix) s)
    suffix.

Inductive outcome : Type :=
  | SendStatus (status : Z)
  | CallNext.

Section Cors.
Context {P : Platform}.
(** [process.env.CORS_ORIGIN ?? ""] *)
Variable CORS_ORIGIN : string.
(** [new URL(s).hostname]; [None] when the constructor throws. *)
Variable URL_hostname : string -> option string.

Definition allowed : list string :=
  List.filter truthy (map String_trim (split_at "," CORS_ORIGIN)).

Definition isAllowedOrigin (origin : option string) : bool :=
  if negb (present origin) then true
  else if existsb (String.eqb (or_else origin "")) allowed then true
  else
    match URL_hostname (or_else origin "") with
    | Some hostname => endsWith ".vercel.app" hostname
    | None => false
    end.

(** The middleware: the headers it sets and how it ends. *)
Definition cors (method : string) (origin : option string)
    : list (string * string) * outcome :=
  let headers :=
    if isAllowedOrigin origin then
      [("Access-Control-Allow-Origin", or_else origin "*");
       ("Vary", "Origin");
       ("Access-Control-Allow-Credentials", "true");
       ("Access-Control-Allow-Headers", "Content-Type, Authorization");
       ("Access-Control-Allow-Methods", "GET,POST,OPTIONS")]
    else [] in
  (headers, if String.eqb method "OPTIONS" then SendStatus 204 else CallNext).

End Cors.

End Cors.

(** ** apps/api/src/routes/contests.public.ts: joining a contest

    Lamport amounts are integers; [MIN_LAMPORTS_FOR_5USD] is 0 when
    unset.  A public key is its base58 text.  The JSON of a team is kept
    as text.  Replies show an entry without its relations. *)
Module Contests.

Record contest_row : Type := {
  c_id : string; c_realm : string; c_title : string;
  c_entryFee : Z; c_active : bool
}.

Record entry_row : Type := {
  e_id : string; e_userId : string; e_contestId : string;
  e_team : option string
}.

Record db : Type := {
  users : list Prisma.user_row;
  contests : list contest_row;
  entries : list entry_row
}.

(** An element of [tx.transaction.message.accountKeys]: a [PublicKey]
    itself, as a legacy [Message] lists its keys, or an object with a
    [pubkey] field, as a parsed message lists them. *)
Inductive account_key : Type :=
  | PlainKey (base58 : string)      (* a PublicKey: [k.pubkey] is undefined *)
  | ParsedKey (pubkey : string).    (* { pubkey: PublicKey, ... } *)

(** What [connection.getTransaction] returns when it has the transaction
    with its [meta].  [t_accountKeys] is [None] when the message has no
    [accountKeys] property (a [MessageV0] names its keys
    [staticAccountKeys]). *)
Record transaction : Type := {
  t_err : bool;                 (* tx.meta.err is set *)
  t_preBalances : list Z;
  t_postBalances : list Z;
  t_accountKeys : option (list account_key)
}.

Inductive cbody : Type :=
  | CError (msg : string)                            (* { error } *)
  | CEntry (entry : entry_row) (created : bool)      (* { ok, entry, created } *)
  | CCheckout (to : string) (amountLamports : Z) (memo : string)
      (from : option string).                        (* { ok, to, amountLamports, memo, from } *)

Definition creply : Type := Z * cbody.

(** [prisma.contestEntry.findUnique({ where: { userId_contestId } })] *)
Definition entry_find (userId contestId : string) (t : list entry_row)
    : option entry_row :=
  List.find
    (fun e => String.eqb (e_userId e) userId && String.eqb (e_contestId e) contestId)
    t.

(** [prisma.contestEntry.create]: [None] when it throws, on an existing
    id, an existing (user, contest) pair, or a missing user or contest. *)
Definition entry_create (e : entry_row) (d : db) : option db :=
  match Prisma.findUnique e_id (e_id e) (entries d),
        entry_find (e_userId e) (e_contestId e) (entries d),
        Prisma.findUnique Prisma.u_id (e_userId e) (users d),
        Prisma.findUnique c_id (e_contestId e) (contests d) with
  | None, None, Some _, Some _ =>
      Some {| users := users d; contests := contests d;
              entries := entries d ++ [e] |}
  | _, _, _, _ => None
  end.

(** [l[i] ?? 0] *)
Definition balance (l : list Z) (i : nat) : Z := nth i l 0.

(** The first loop of join/verify from index [i] on: the balance change
    of the last account whose key is [toKey]. *)
Fixpoint toDelta_from (i : nat) (keys : list string) (toKey : string)
    (pre post : list Z) (toDelta : Z) : Z :=
  match keys with
  | [] => toDelta
  | k :: ks =>
    toDelta_from (S i) ks toKey pre post
      (if String.eqb k toKey then balance post i - balance pre i else toDelta)
  end.

(** The second loop from index [i] on: some account with key [fromKey]
    paid at least [minimum]. *)
Fixpoint fromMatched_from (i : nat) (keys : list string) (fromKey : string)
    (pre post : list Z) (minimum : Z) : bool :=
  match keys with
  | [] => false
  | k :: ks =>
    if String.eqb k fromKey && (minimum <=? balance pre i - balance post i)
    then true
    else fromMatched_from (S i) ks fromKey pre post minimum
  end.

(** [keys.map(k => k.pubkey.toBase58 ? k.pubkey.toBase58() : k.toBase58())]:
    the base58 texts of the keys, or [None] when the callback throws.  On
    a [PublicKey] the test reads [toBase58] of the undefined [k.pubkey],
    a TypeError; the branch [k.toBase58()] is reached for no key of these
    two shapes. *)
Fixpoint keys_toBase58 (keys : list account_key) : option (list string) :=
  match keys with
  | [] => Some []
  | PlainKey _ :: _ => None
  | ParsedKey pubkey :: keys' => option_map (cons pubkey) (keys_toBase58 keys')
  end.

(** [tx.transaction.message.accountKeys.map(...)], line 389; [None] when
    it throws. *)
Definition accountKeys_toBase58 (tx : transaction) : option (list string) :=
  match t_accountKeys tx with
  | None => None
  | Some keys => keys_toBase58 keys
  end.

Section Handlers.
(** [process.env.SOL_TREASURY_ADDRESS || ''] *)
Variable TREASURY : string.
Variable MIN_LAMPORTS_FOR_5USD : Z.
(** [new PublicKey(s).toBase58()]; [None] when the constructor throws. *)
Variable toBase58 : string -> option string.

Definition reply_of (st : Z) (b : cbody) : creply := (st, b).

(** POST /contests/:id/join, after [auth]; [id] is the id the new entry
    gets. *)
Definition join (id contestId : string) (team : option string)
    (user : jwt.claims) (d : db) : creply * list event * db :=
  if negb (present (Guards.user_uid user))
  then (reply_of 401 (CError "unauthorized"), [], d)
  else
    let uid := or_else (Guards.user_uid user) "" in
    match Prisma.findUnique c_id contestId (contests d) with
    | None => (reply_of 404 (CError "contest not found"), [], d)
    | Some contest =>
      if negb (c_active contest)
      then (reply_of 400 (CError "contest is not active"), [], d)
      else if 0 <? c_entryFee contest
      then (reply_of 400 (CError "paid contest: use /join/start + /join/verify"),
            [], d)
      else
        match entry_find uid contestId (entries d) with
        | Some existing =>
          match team with
          | Some t =>
            let set_team e :=
              {| e_id := e_id e; e_userId := e_userId e;
                 e_contestId := e_contestId e; e_team := Some t |} in
            (reply_of 200 (CEntry (set_team existing) false), [],
             {| users := users d; contests := contests d;
                entries := Prisma.update e_id (e_id existing) set_team (entries d) |})
          | None => (reply_of 200 (CEntry existing false), [], d)
          end
        | None =>
          let entry := {| e_id := id; e_userId := uid;
                          e_contestId := contestId; e_team := team |} in
          match entry_create entry d with
          | None =>
            (reply_of 500 (CError "failed to join contest"),
             [Console "[contests.public] join error:"], d)
          | Some d' => (reply_of 201 (CEntry entry true), [], d')
          end
        end
    end.

(** POST /contests/:id/join/start, after [auth]. *)
Definition join_start (now : Z) (contestId : string) (user : jwt.claims)
    (d : db) : creply :=
  if negb (present (Guards.user_uid user))
  then reply_of 401 (CError "unauthorized")
  else if negb (truthy TREASURY)
  then reply_of 500 (CError "treasury not configured")
  else
    let uid := or_else (Guards.user_uid user) "" in
    match Prisma.findUnique c_id contestId (contests d) with
    | None => reply_of 404 (CError "contest not found")
    | Some contest =>
      if negb (c_active contest)
      then reply_of 400 (CError "contest is not active")
      else if c_entryFee contest <=? 0
      then reply_of 400 (CError "free contest: use /join")
      else if MIN_LAMPORTS_FOR_5USD =? 0
      then reply_of 500 (CError "pricing not configured (MIN_LAMPORTS_FOR_5USD)")
      else
        reply_of 200
          (CCheckout TREASURY MIN_LAMPORTS_FOR_5USD
             ("JOIN:" +:+ contestId +:+ ":" +:+ uid +:+ ":" +:+ pretty now)
             (Guards.user_address user))
    end.

(** The transfer check of join/verify, lines 385 to 413: [None] when
    reading the account keys throws, [Some (inl msg)] a refusal,
    [Some (inr tt)] a pass. *)
Definition payment_check (toKey fromKey : string) (tx : transaction)
    : option (string + unit) :=
  match accountKeys_toBase58 tx with
  | None => None
  | Some keys =>
    let toDelta :=
      toDelta_from 0 keys toKey (t_preBalances tx) (t_postBalances tx) 0 in
    if toDelta <? MIN_LAMPORTS_FOR_5USD
    then Some (inl "insufficient amount received")
    else if negb (fromMatched_from 0 keys fromKey (t_preBalances tx)
                    (t_postBalances tx) MIN_LAMPORTS_FOR_5USD)
    then Some (inl "sender mismatch")
    else Some (inr tt)
  end.

(** POST /contests/:id/join/verify, after [auth]; [tx] is what
    [connection.getTransaction(signature)] returns ([None] when it has no
    transaction or no meta), [id] the id the new entry gets. *)
Definition join_verify (id contestId : string) (signature : option string)
    (tx : option transaction) (user : jwt.claims) (d : db)
    : creply * list event * db :=
  let failed :=
    (reply_of 500 (CError "failed to verify checkout"),
     [Console "[contests.public] join/verify error:"], d) in
  if negb (present (Guards.user_uid user))
  then (reply_of 401 (CError "unauthorized"), [], d)
  else if negb (present signature)
  then (reply_of 400 (CError "signature required"), [], d)
  else if negb (truthy TREASURY)
  then (reply_of 500 (CError "treasury not configured"), [], d)
  else
    let uid := or_else (Guards.user_uid user) "" in
    match Prisma.findUnique c_id contestId (contests d) with
    | None => (reply_of 404 (CError "contest not found"), [], d)
    | Some contest =>
      if negb (c_active contest)
      then (reply_of 400 (CError "contest is not active"), [], d)
      else if c_entryFee contest <=? 0
      then (reply_of 400 (CError "free contest: use /join"), [], d)
      else if MIN_LAMPORTS_FOR_5USD =? 0
      then (reply_of 500
              (CError "pricing not configured (MIN_LAMPORTS_FOR_5USD)"), [], d)
      else
        match tx with
        | None => (reply_of 400 (CError "transaction not found"), [], d)
        | Some tx =>
          if t_err tx
          then (reply_of 400 (CError "transaction failed on-chain"), [], d)
          else
            match toBase58 TREASURY with
            | None => failed
            | Some toKey =>
              match match Guards.user_address user with
                    | Some address => toBase58 address
                    | None => None
                    end with
              | None => failed
              | Some fromKey =>
                match payment_check toKey fromKey tx with
                | None => failed
                | Some (inl msg) => (reply_of 400 (CError msg), [], d)
                | Some (inr _) =>
                  match entry_find uid contestId (entries d) with
                  | Some existing =>
                    (reply_of 200 (CEntry existing false), [], d)
                  | None =>
                    let entry := {| e_id := id; e_userId := uid;
                                    e_contestId := contestId; e_team := None |} in
                    match entry_create entry d with
                    | None => failed
                    | Some d' => (reply_of 201 (CEntry entry true), [], d')
                    end
                  end
                end
              end
            end
        end
    end.

(** A request to a joining route, with the user [auth] attached. *)
Inductive request : Type :=
  | Join (id contestId : string) (team : option string) (user : jwt.claims)
  | JoinVerify (id contestId : string) (signature : option string)
      (tx : option transaction) (user : jwt.claims).

Definition handle (r : request) (d : db) : creply * list event * db :=
  match r with
  | Join id contestId team user => join id contestId team user d
  | JoinVerify id contestId signature tx user =>
      join_verify id contestId signature tx user d
  end.

Fixpoint run (rs : list request) (d : db) : db :=
  match rs with
  | [] => d
  | r :: rs' => run rs' (snd (handle r d))
  end.

End Handlers.

End Contests.

(** ** src/utils/auth.ts and the two route guards of the web client *)
Module ClientAuth.

(** [localStorage] *)
Definition getToken (storage : gmap string string) : option string :=
  storage !! "auth_token".

Definition isAuthed (storage : gmap string string) : bool :=
  match getToken storage with
  | Some t => truthy t && String.prefix "eyJ" t
  | None => false
  end.

Definition signOut (storage : gmap string string) : gmap string string :=
  delete "auth_token" storage.

(** What a guard renders. *)
Inductive element : Type :=
  | Navigate (to : string)
  | Outlet
  | Children.

Definition RequireAuth (storage : gmap string string) : element :=
  if negb (isAuthed storage) then Navigate "/" else Outlet.

Definition RedirectIfAuthed (storage : gmap string string) : element :=
  if isAuthed storage then Navigate "/homehub" else Children.

End ClientAuth.

(** * Vocabulary of the properties *)

(** ** Live challenges

    A challenge is live at [now] when the verify handler of its store
    would not report it expired.  The challenges of an address are
    collected from all entries of the store. *)
Section Live.
Context {P : Platform}.

Definition AuthNonce_live (st : AuthNonce.state) (a : string) (now : Z)
    : list (string * AuthNonce.nonce_rec) :=
  List.filter
    (fun kr => String.eqb (fst kr) a && negb (AuthNonce.expiresAt (snd kr) <? now))
    (map_to_list (AuthNonce.nonces st)).

Definition RoutesAuth_live (d : Prisma.db) (a : string) (now : Z)
    : list Prisma.session_row :=
  List.filter
    (fun s => String.eqb (Prisma.s_id s) (RoutesAuth.nonce_key a) &&
              negb (Prisma.s_expiresAt s <? now))
    (Prisma.sessions d).

(** The request carries no nonce cookie, or one that [jwt.verify] rejects. *)
Definition no_usable_cookie (E : env) (now : Z) (c : option jwt.wire) : bool :=
  match c with
  | None => true
  | Some w =>
    match jwt.verify w (JWT_SECRET E) now with
    | Ret _ => false
    | Throw _ => true
    end
  end.

(** The nonce a reply hands out, if it hands out one. *)
Definition nonce_of (b : body) : option string :=
  match b with
  | NonceJson n => Some n
  | ChallengeJson _ n _ _ => Some n
  | _ => None
  end.

(** The primary key of the Session table holds. *)
Definition sessions_keyed (d : Prisma.db) : Prop :=
  NoDup (map Prisma.s_id (Prisma.sessions d)).

End Live.

(** ** Requests between two issuances (auth-nonce.ts) *)
Section Between.
Context {P : Platform}.
Variable secret : string.

Definition time_of (r : AuthNonce.request) : Z :=
  match r with
  | AuthNonce.PostNonce now _ _ => now
  | AuthNonce.PostVerify now _ _ _ => now
  end.

(** [r], served in state [st], is a successful verification for [a]. *)
Definition verifies_for (a : string) (r : AuthNonce.request)
    (st : AuthNonce.state) : bool :=
  match r with
  | AuthNonce.PostNonce _ _ _ => false
  | AuthNonce.PostVerify _ _ _ req =>
    bool_decide (AuthNonce.v_address req = Some a) &&
    (status (fst (fst (AuthNonce.handle secret r st))) =? 200)
  end.

(** All of [rs], served in order from [st], come before [deadline] and
    none of them is a successful verification for [a]. *)
Fixpoint undisturbed (a : string) (deadline : Z) (rs : list AuthNonce.request)
    (st : AuthNonce.state) : bool :=
  match rs with
  | [] => true
  | r :: rs' =>
    (time_of r <? deadline) && negb (verifies_for a r st) &&
    undisturbed a deadline rs' (snd (AuthNonce.handle secret r st))
  end.

End Between.

(** ** Concrete requests *)
Module Examples.

(** The base58 text of 32 zero bytes, a well-formed address. *)
Definition addr1 : string := "11111111111111111111111111111111".

(** The base58 texts of 64 and of 65 zero bytes. *)
Definition sig64 : string := addr1 +:+ addr1.
Definition sig65 : string := "1" +:+ sig64.

(** Not base58: ['0'], ['O'], ['I'] and ['l'] are outside the alphabet. *)
Definition bad_addr : string := "0OIl".

Definition E0 : env :=
  {| APP_NAME := "FST"; JWT_SECRET := "k"; USE_DB := false;
     ADMIN_ADDRESSES := "" |}.

Definition no_fields : Server.fields :=
  {| Server.walletAddress := None; Server.address := None;
     Server.wallet := None; Server.signatureBase58 := None;
     Server.signature := None; Server.sig := None; Server.message := None |}.

(** auth-nonce.ts after one challenge ["n1"] for [addr1] issued at time 1000. *)
Definition st1 : AuthNonce.state :=
  snd (AuthNonce.post_nonce (P := Reference.accepting) 1000 "n1"
         {| AuthNonce.address := Some addr1; AuthNonce.walletAddress := None |}
         AuthNonce.init).

Definition submit (n sg : string) : AuthNonce.verify_req :=
  {| AuthNonce.v_address := Some addr1; AuthNonce.v_signature := Some sg;
     AuthNonce.v_nonce := Some n |}.

(** routes/auth.ts after one challenge for [addr1] issued at time 1000. *)
Definition issued1 : string * Prisma.db :=
  RoutesAuth.createAndStoreNonce 1000 "00ff" addr1 Prisma.empty.

Definition submit1 (n sg : string) : RoutesAuth.verify_req :=
  {| RoutesAuth.address := Some addr1; RoutesAuth.nonce := Some n;
     RoutesAuth.signatureBase64 := None; RoutesAuth.signature58 := Some sg |}.

(** The session row that [issued1] holds for [addr1]. *)
Definition row1 : Prisma.session_row :=
  {| Prisma.s_id := RoutesAuth.nonce_key addr1; Prisma.s_userId := addr1;
     Prisma.s_jwtId := fst issued1; Prisma.s_expiresAt := 301000;
     Prisma.s_createdAt := 1000 |}.

(** The record that [st1] holds for [addr1]. *)
Definition rec1 : AuthNonce.nonce_rec :=
  {| AuthNonce.nonce := "n1"; AuthNonce.expiresAt := 301000 |}.

(** A verify request to server.ts for [addr1] without a nonce cookie. *)
Definition server_req (sig58 sigB64 : option string) (msg : string)
    : Server.verify_req :=
  {| Server.body :=
       {| Server.walletAddress := Some addr1;
          Server.address := None; Server.wallet := None;
          Server.signatureBase58 := sig58;
          Server.signature := sigB64; Server.sig := None;
          Server.message := Some msg |};
     Server.query := no_fields;
     Server.nonce_cookie := None |}.

Definition zeros (n : nat) : bytes := repeat Byte.x00 n.

End Examples.

(** ** Vocabulary of the further properties *)

(** The token a successful verification hands out, in a cookie or in the
    body. *)
Definition issued_token (r : reply) : option jwt.token :=
  match json r with
  | TokenRoleJson token _ => Some token
  | VerifiedJson token _ _ _ _ _ => Some token
  | OkJson =>
    match cookies r with
    | [SetCookie _ token _] => Some token
    | _ => None
    end
  | _ => None
  end.

(** Users and wallets as auth-nonce.ts keeps them: keys are unique, an
    address has at most one wallet, and the user of a wallet exists. *)
Definition wallets_consistent (d : Prisma.db) : Prop :=
  NoDup (map Prisma.u_id (Prisma.users d)) /\
  NoDup (map Prisma.w_id (Prisma.wallets d)) /\
  NoDup (map Prisma.w_address (Prisma.wallets d)) /\
  forall w, In w (Prisma.wallets d) ->
            In (Prisma.w_userId w) (map Prisma.u_id (Prisma.users d)).

(** The address a request to auth-nonce.ts is about. *)
Definition AuthNonce_subject {P : Platform} (r : AuthNonce.request)
    : option string :=
  match r with
  | AuthNonce.PostNonce _ _ req => AuthNonce.address_of req
  | AuthNonce.PostVerify _ _ _ req => AuthNonce.v_address req
  end.

(** The address a request to routes/auth.ts is about. *)
Definition RoutesAuth_subject {P : Platform} (r : RoutesAuth.request) : string :=
  match r with
  | RoutesAuth.GetNonce _ _ a => String_trim (or_else a "")
  | RoutesAuth.PostNonce _ _ a => String_trim (or_else a "")
  | RoutesAuth.PostVerify _ req => or_else (RoutesAuth.address req) ""
  end.

(** Contest entries as the joining routes keep them: ids are unique and a
    user has at most one entry per contest. *)
Definition entries_consistent (d : Contests.db) : Prop :=
  NoDup (map Contests.e_id (Contests.entries d)) /\
  NoDup (map (fun e => (Contests.e_userId e, Contests.e_contestId e))
           (Contests.entries d)).

(** ** Vocabulary of the event loop *)


(** The status each handler has answered with, if it has answered. *)
Definition answers (hs : list AuthNonceLoop.task) : list (option Z) :=
  map (fun t => match t with
                | AuthNonceLoop.Done r _ => Some (status r)
                | _ => None
                end) hs.


(** User and wallet ids are unique and the user of a wallet exists. *)
Definition ids_consistent (d : Prisma.db) : Prop :=
  NoDup (map Prisma.u_id (Prisma.users d)) /\
  NoDup (map Prisma.w_id (Prisma.wallets d)) /\
  forall w, In w (Prisma.wallets d) ->
            In (Prisma.w_userId w) (map Prisma.u_id (Prisma.users d)).

(** What a handler in flight is about to write refers to a user that
    exists. *)
Definition task_consistent (d : Prisma.db) (t : AuthNonceLoop.task) : Prop :=
  match t with
  | AuthNonceLoop.UserCreateSettled _ _ _ (Ret user) =>
      In (Prisma.u_id user) (map Prisma.u_id (Prisma.users d))
  | AuthNonceLoop.WalletCreateIssued _ _ _ data =>
      In (Prisma.w_userId data) (map Prisma.u_id (Prisma.users d))
  | _ => True
  end.



(** Every session row of routes/auth.ts is the challenge of an address
    that has a user row. *)
Definition sessions_have_users (d : Prisma.db) : Prop :=
  forall s, In s (Prisma.sessions d) ->
    exists a, Prisma.s_id s = RoutesAuth.nonce_key a /\
              In a (map Prisma.u_id (Prisma.users d)).

(** Every stored record was written by a challenge request served so
    far. *)
Definition provenance {P : Platform} (hist : list AuthNonce.request)
    (st : AuthNonce.state) : Prop :=
  forall a rec,
    AuthNonce.nonces st !! a = Some rec ->
    truthy a = true /\ is_Some (PublicKey a) /\
    exists now fresh req,
      In (AuthNonce.PostNonce now fresh req) hist /\
      AuthNonce.address_of req = Some a /\
      rec = {| AuthNonce.nonce := fresh;
               AuthNonce.expiresAt := now + AuthNonce.NONCE_TTL_MS |}.

(** ** Further concrete requests *)
Module MoreExamples.

(** A compact token text and the decoder that reads it as [t]. *)
Definition decode_as (text : string) (t : jwt.token) (s : string) : jwt.wire :=
  if String.eqb s text then jwt.Signed t else jwt.Opaque s.

(** The token routes/auth.ts issues to [addr1] at time 2000 in [E0]. *)
Definition token1 : jwt.token :=
  {| jwt.payload := jwt.UidClaims Examples.addr1 Examples.addr1 None;
     jwt.iat := 2; jwt.exp := 604802; jwt.jti := None; jwt.key := "k" |}.

Definition E_admin : env :=
  {| APP_NAME := "FST"; JWT_SECRET := "k"; USE_DB := false;
     ADMIN_ADDRESSES := " " +:+ Examples.addr1 +:+ " ,,other" |}.

Definition user1 : jwt.claims :=
  jwt.UidClaims Examples.addr1 Examples.addr1 None.

(** One user, a free and a paid contest, no entries. *)
Definition contests1 : Contests.db :=
  {| Contests.users :=
       [{| Prisma.u_id := Examples.addr1; Prisma.u_createdAt := 0;
           Prisma.u_updatedAt := 0 |}];
     Contests.contests :=
       [{| Contests.c_id := "free"; Contests.c_realm := "fpl";
           Contests.c_title := "Free"; Contests.c_entryFee := 0;
           Contests.c_active := true |};
        {| Contests.c_id := "paid"; Contests.c_realm := "fpl";
           Contests.c_title := "Paid"; Contests.c_entryFee := 5;
           Contests.c_active := true |};
        {| Contests.c_id := "paid2"; Contests.c_realm := "fpl";
           Contests.c_title := "Paid too"; Contests.c_entryFee := 5;
           Contests.c_active := true |}];
     Contests.entries := [] |}.

(** A transfer of 1000 lamports from ["from"] to ["treasury"], its
    account keys listed as objects with a [pubkey]. *)
Definition tx1 : Contests.transaction :=
  {| Contests.t_err := false;
     Contests.t_preBalances := [5000; 100; 1];
     Contests.t_postBalances := [3995; 1100; 1];
     Contests.t_accountKeys :=
       Some [Contests.ParsedKey "from"; Contests.ParsedKey "treasury";
             Contests.ParsedKey "program"] |}.

(** The same transfer with its account keys listed as [PublicKey]s. *)
Definition tx2 : Contests.transaction :=
  {| Contests.t_err := false;
     Contests.t_preBalances := [5000; 100; 1];
     Contests.t_postBalances := [3995; 1100; 1];
     Contests.t_accountKeys :=
       Some [Contests.PlainKey "from"; Contests.PlainKey "treasury";
             Contests.PlainKey "program"] |}.

(** A key printer for the example: the treasury and [addr1]. *)
Definition toBase58 (s : string) : option string :=
  if String.eqb s "T" then Some "treasury"
  else if String.eqb s Examples.addr1 then Some "from"
  else None.

(** The session token server.ts issues at time 2000 with the ids ["j1"],
    ["u1"] and ["w1"]. *)
Definition session1 : jwt.token :=
  {| jwt.payload := jwt.AuthClaims "u1" "w1"; jwt.iat := 2;
     jwt.exp := 2592002; jwt.jti := Some "j1"; jwt.key := "k" |}.

(** The reply of server.ts to a challenge request for [addr1] at time
    1000, its message and the token in its cookie. *)
Definition challenge1 : reply :=
  fst (Server.get_nonce (P := Reference.accepting) Examples.E0 1000 "n1" "j0"
         (Some Examples.addr1)).

Definition message1 : string :=
  match json challenge1 with
  | ChallengeJson _ _ m _ => m
  | _ => ""
  end.

Definition nonce_token1 : jwt.token :=
  match cookies challenge1 with
  | [SetCookie _ t _] => t
  | _ => session1
  end.

(** A second challenge of server.ts for [addr1], asked for at time 2000. *)
Definition challenge2 : reply :=
  fst (Server.get_nonce (P := Reference.accepting) Examples.E0 2000 "n2" "j2"
         (Some Examples.addr1)).

Definition message2 : string :=
  match json challenge2 with
  | ChallengeJson _ _ m _ => m
  | _ => ""
  end.

Definition nonce_token2 : jwt.token :=
  match cookies challenge2 with
  | [SetCookie _ t _] => t
  | _ => session1
  end.

(** A verify request to server.ts for [wal] with message [msg] and the
    token [c] in its nonce cookie. *)
Definition cookie_req (c : jwt.token) (wal msg : string) : Server.verify_req :=
  {| Server.body :=
       {| Server.walletAddress := Some wal;
          Server.address := None; Server.wallet := None;
          Server.signatureBase58 := Some Examples.sig64;
          Server.signature := None; Server.sig := None;
          Server.message := Some msg |};
     Server.query := Examples.no_fields;
     Server.nonce_cookie := Some (jwt.Signed c) |}.




(** The contests of [contests1] over the users routes/auth.ts holds after
    [addr1] asked for a challenge at time 1000 and verified at 2000. *)
Definition contests2 : Contests.db :=
  {| Contests.users :=
       Prisma.users
         (snd (RoutesAuth.post_verify (P := Reference.accepting) Examples.E0
                 2000 (Examples.submit1 (fst Examples.issued1) Examples.sig64)
                 (RoutesAuth.run (P := Reference.accepting) Examples.E0
                    [RoutesAuth.GetNonce 1000 "00ff" (Some Examples.addr1)]
                    Prisma.empty)));
     Contests.contests := Contests.contests contests1;
     Contests.entries := [] |}.

End MoreExamples.

(** * Properties *)

(** Closes a side condition of a run on concrete requests. *)
Ltac by_running :=
  first [ vm_compute; reflexivity
        | vm_compute; discriminate
        | vm_compute; lia
        | simpl; lia ].

(** Closes the branches of a contest handler that answer something else. *)
Ltac other_reply :=
  cbn [fst snd]; unfold Contests.reply_of; intros; simplify_eq.

(** ** The reference platform on known values *)

Example b58decode_hello_world :
  Reference.b58decode "2NEpo7TZRRrLZSi2U" = Some (TextEncoder_encode "Hello World!").
Proof. vm_compute. reflexivity. Qed.

Example b58decode_rejects_zero : Reference.b58decode "0" = None.
Proof. reflexivity. Qed.

Example atob_padded :
  Reference.atob "SGk=" = Some (TextEncoder_encode "Hi") /\
  Reference.atob "S" = None.
Proof. vm_compute. split; reflexivity. Qed.

Example bufferFromBase64_lenient :
  Reference.bufferFromBase64 "SG k=" = TextEncoder_encode "Hi".
Proof. vm_compute. reflexivity. Qed.

Example toISOString_known :
  Reference.toISOString 0 = "1970-01-01T00:00:00.000Z" /\
  Reference.toISOString 1700000000000 = "2023-11-14T22:13:20.000Z".
Proof. vm_compute. split; reflexivity. Qed.

Example addr1_is_a_public_key :
  PublicKey (Platform := Reference.accepting) Examples.addr1
    = Some (Examples.zeros 32) /\
  bs58_decode (Platform := Reference.accepting) Examples.sig64
    = Some (Examples.zeros 64) /\
  bs58_decode (Platform := Reference.accepting) Examples.sig65
    = Some (Examples.zeros 65).
Proof. vm_compute. repeat split. Qed.

(** ** Handlers one at a time and handlers that overlap *)
Section EventLoop.
Context {P : Platform}.

Lemma AuthNonceLoop_run_app_any secret es1 es2 s :
  AuthNonceLoop.run secret (es1 ++ es2) s
  = AuthNonceLoop.run secret es2 (AuthNonceLoop.run secret es1 s).
Proof.
  revert s. induction es1 as [|e es1 IH]; intros s; cbn; [reflexivity|].
  apply IH.
Qed.

Lemma AuthNonceLoop_run_single secret now n : forall t st,
  AuthNonceLoop.run secret (repeat (AuthNonceLoop.Advance 0 now) n)
    {| AuthNonceLoop.store := st; AuthNonceLoop.handlers := [t] |}
  = (let '(t', st') :=
       Nat.iter n (fun '(t, st) => AuthNonceLoop.advance secret now t st) (t, st) in
     {| AuthNonceLoop.store := st'; AuthNonceLoop.handlers := [t'] |}).
Proof.
  induction n as [|n IH]; intros t st; [reflexivity|].
  rewrite Nat.iter_succ_r. cbn [repeat AuthNonceLoop.run].
  unfold AuthNonceLoop.exec at 1.
  cbn [AuthNonceLoop.handlers AuthNonceLoop.store].
  change ([t] !! 0%nat) with (Some t). cbv iota beta.
  destruct (AuthNonceLoop.advance secret now t st) as [t' st'].
  change (<[0%nat := t']> [t]) with [t']. apply IH.
Qed.

(** Served alone, a verify handler of auth-nonce.ts does what
    [AuthNonce.post_verify] says. *)
Lemma AuthNonceLoop_alone secret now uid wid req st :
  let out := AuthNonce.post_verify secret now uid wid req st in
  AuthNonceLoop.run secret
    (AuthNonceLoop.Begin now uid wid req :: AuthNonceLoop.to_completion 0 now)
    {| AuthNonceLoop.store := st; AuthNonceLoop.handlers := [] |}
  = {| AuthNonceLoop.store := snd out;
       AuthNonceLoop.handlers :=
         [AuthNonceLoop.Done (fst (fst out)) (snd (fst out))] |}.
Proof.
  cbv zeta. unfold AuthNonceLoop.to_completion.
  cbn [AuthNonceLoop.run]. unfold AuthNonceLoop.exec at 1.
  cbn [AuthNonceLoop.handlers AuthNonceLoop.store app].
  destruct st as [ns [us ws ss]].
  unfold AuthNonceLoop.begin, AuthNonce.post_verify.
  cbn [AuthNonce.nonces AuthNonce.db].
  destruct (AuthNonce.v_address req) as [address|]; [|reflexivity].
  destruct (AuthNonce.v_signature req) as [signature|]; [|reflexivity].
  destruct (AuthNonce.v_nonce req) as [nonce'|]; [|reflexivity].
  destruct (PublicKey address) as [pub|]; [|reflexivity].
  destruct (ns !! address) as [rec|]; [|reflexivity].
  destruct (AuthNonce.expiresAt rec <? now); [reflexivity|].
  destruct (negb (String.eqb (AuthNonce.nonce rec) nonce')); [reflexivity|].
  destruct (bs58_decode signature) as [sg|]; [|reflexivity].
  destruct (nacl_sign_detached_verify _ sg pub) as [[|]|e];
    [|reflexivity..].
  rewrite AuthNonceLoop_run_single.
  unfold AuthNonce.find_or_create_user.
  cbn [Prisma.wallets Prisma.users Prisma.sessions].
  unfold Nat.iter.
  cbn [nat_rect AuthNonceLoop.advance AuthNonceLoop.settle AuthNonce.db
       AuthNonce.nonces Prisma.wallets].
  destruct (Prisma.wallet_findFirst address ws) as [w|].
  - cbn [AuthNonceLoop.resume]. unfold AuthNonceLoop.finish.
    destruct (jwt.sign _ _ _ _ _); reflexivity.
  - cbn [AuthNonceLoop.resume AuthNonceLoop.advance AuthNonceLoop.settle
         AuthNonce.db AuthNonce.nonces Prisma.users Prisma.wallets
         Prisma.sessions].
    destruct (Prisma.create Prisma.u_id _ us) as [us'|e]; [|reflexivity].
    cbn [AuthNonceLoop.resume AuthNonceLoop.advance AuthNonceLoop.settle
         AuthNonce.db AuthNonce.nonces Prisma.users Prisma.wallets
         Prisma.sessions Prisma.u_id].
    destruct (Prisma.create Prisma.w_id _ ws) as [ws'|e]; [|reflexivity].
    cbn [AuthNonceLoop.resume AuthNonceLoop.advance].
    unfold AuthNonceLoop.finish.
    destruct (jwt.sign _ _ _ _ _); reflexivity.
Qed.

Lemma AuthNonceLoop_run_last secret now hs n : forall t st,
  AuthNonceLoop.run secret (repeat (AuthNonceLoop.Advance (length hs) now) n)
    {| AuthNonceLoop.store := st; AuthNonceLoop.handlers := hs ++ [t] |}
  = (let '(t', st') :=
       Nat.iter n (fun '(t, st) => AuthNonceLoop.advance secret now t st) (t, st) in
     {| AuthNonceLoop.store := st'; AuthNonceLoop.handlers := hs ++ [t'] |}).
Proof.
  induction n as [|n IH]; intros t st; [reflexivity|].
  rewrite Nat.iter_succ_r. cbn [repeat AuthNonceLoop.run].
  unfold AuthNonceLoop.exec at 1.
  cbn [AuthNonceLoop.handlers AuthNonceLoop.store].
  rewrite lookup_app_r by lia. rewrite Nat.sub_diag.
  change ([t] !! 0%nat) with (Some t). cbv iota beta.
  destruct (AuthNonceLoop.advance secret now t st) as [t' st'].
  rewrite insert_app_r_alt by lia. rewrite Nat.sub_diag.
  change (<[0%nat := t']> [t]) with [t']. apply IH.
Qed.

(** A verify handler served to its reply while the others wait does what
    [AuthNonce.post_verify] says, whatever the others have done so far. *)
Lemma AuthNonceLoop_served secret now uid wid req s :
  let out := AuthNonce.post_verify secret now uid wid req
               (AuthNonceLoop.store s) in
  AuthNonceLoop.run secret
    (AuthNonceLoop.Begin now uid wid req
     :: AuthNonceLoop.to_completion (length (AuthNonceLoop.handlers s)) now) s
  = {| AuthNonceLoop.store := snd out;
       AuthNonceLoop.handlers :=
         AuthNonceLoop.handlers s
         ++ [AuthNonceLoop.Done (fst (fst out)) (snd (fst out))] |}.
Proof.
  cbv zeta.
  pose proof (AuthNonceLoop_alone secret now uid wid req (AuthNonceLoop.store s))
    as Halone.
  cbv zeta in Halone. unfold AuthNonceLoop.to_completion in *.
  cbn [AuthNonceLoop.run] in *. unfold AuthNonceLoop.exec at 1 in Halone.
  unfold AuthNonceLoop.exec at 1.
  cbn [AuthNonceLoop.handlers AuthNonceLoop.store app] in *.
  destruct (AuthNonceLoop.begin now uid wid req (AuthNonceLoop.store s))
    as [t st1].
  rewrite AuthNonceLoop_run_single in Halone.
  rewrite AuthNonceLoop_run_last.
  destruct (Nat.iter 6 _ (t, st1)) as [t' st'].
  injection Halone as -> ->. reflexivity.
Qed.

(** Serving the requests one at a time is one of the runs of the event
    loop: [AuthNonce.run] gives the store it ends with. *)
Lemma AuthNonceLoop_serially secret rs : forall s,
  AuthNonceLoop.store
    (AuthNonceLoop.run secret
       (AuthNonceLoop.serially rs (length (AuthNonceLoop.handlers s))) s)
  = AuthNonce.run secret rs (AuthNonceLoop.store s).
Proof.
  induction rs as [|[now fresh req | now uid wid req] rs IH]; intros s;
    cbn [AuthNonceLoop.serially AuthNonce.run AuthNonce.handle];
    [reflexivity| |].
  - cbn [AuthNonceLoop.run AuthNonceLoop.exec].
    apply (IH {| AuthNonceLoop.store := _;
                 AuthNonceLoop.handlers := AuthNonceLoop.handlers s |}).
  - change (AuthNonceLoop.Begin now uid wid req
            :: AuthNonceLoop.to_completion (length (AuthNonceLoop.handlers s)) now
               ++ AuthNonceLoop.serially rs (S (length (AuthNonceLoop.handlers s))))
      with ((AuthNonceLoop.Begin now uid wid req
             :: AuthNonceLoop.to_completion
                  (length (AuthNonceLoop.handlers s)) now)
            ++ AuthNonceLoop.serially rs (S (length (AuthNonceLoop.handlers s)))).
    rewrite AuthNonceLoop_run_app_any, AuthNonceLoop_served.
    match goal with
    | |- context [AuthNonceLoop.run secret _ ?s1] =>
        replace (S (length (AuthNonceLoop.handlers s)))
          with (length (AuthNonceLoop.handlers s1))
          by (cbn [AuthNonceLoop.handlers]; rewrite length_app; cbn; lia);
        rewrite (IH s1)
    end.
    reflexivity.
Qed.

Lemma RoutesAuthLoop_run_single E now n : forall t d,
  RoutesAuthLoop.run E (repeat (RoutesAuthLoop.Advance 0 now) n)
    {| RoutesAuthLoop.db := d; RoutesAuthLoop.handlers := [t] |}
  = (let '(t', d') :=
       Nat.iter n (fun '(t, d) => RoutesAuthLoop.advance E now t d) (t, d) in
     {| RoutesAuthLoop.db := d'; RoutesAuthLoop.handlers := [t'] |}).
Proof.
  induction n as [|n IH]; intros t d; [reflexivity|].
  rewrite Nat.iter_succ_r. cbn [repeat RoutesAuthLoop.run].
  unfold RoutesAuthLoop.exec at 1.
  cbn [RoutesAuthLoop.handlers RoutesAuthLoop.db].
  change ([t] !! 0%nat) with (Some t). cbv iota beta.
  destruct (RoutesAuthLoop.advance E now t d) as [t' d'].
  change (<[0%nat := t']> [t]) with [t']. apply IH.
Qed.

(** Served alone, a verify handler of routes/auth.ts does what
    [RoutesAuth.post_verify] says. *)
Lemma RoutesAuthLoop_alone E now req d :
  let out := RoutesAuth.post_verify E now req d in
  RoutesAuthLoop.run E
    (RoutesAuthLoop.Begin req :: RoutesAuthLoop.to_completion 0 now)
    {| RoutesAuthLoop.db := d; RoutesAuthLoop.handlers := [] |}
  = {| RoutesAuthLoop.db := snd out;
       RoutesAuthLoop.handlers :=
         [RoutesAuthLoop.Done (fst (fst out)) (snd (fst out))] |}.
Proof.
  cbv zeta. unfold RoutesAuthLoop.to_completion.
  cbn [RoutesAuthLoop.run]. unfold RoutesAuthLoop.exec at 1.
  cbn [RoutesAuthLoop.handlers RoutesAuthLoop.db app].
  rewrite RoutesAuthLoop_run_single.
  destruct d as [us ws ss].
  unfold RoutesAuthLoop.begin, RoutesAuth.post_verify.
  destruct (negb _); [reflexivity|].
  unfold Nat.iter.
  cbn [nat_rect RoutesAuthLoop.advance RoutesAuthLoop.settle Prisma.sessions].
  destruct (Prisma.findUnique Prisma.s_id _ ss) as [stored|]; [|reflexivity].
  cbn [RoutesAuthLoop.resume].
  destruct (negb (String.eqb (Prisma.s_jwtId stored) _)); [reflexivity|].
  destruct (Prisma.s_expiresAt stored <? now); [reflexivity|].
  destruct (RoutesAuth.check_signatures _ _ req) as [[|] tr]; cbn [negb];
    [|reflexivity].
  cbn [RoutesAuthLoop.advance RoutesAuthLoop.settle RoutesAuthLoop.resume
       Prisma.users Prisma.wallets Prisma.sessions].
  destruct (Middleware.issueJWT _ _ _ _ _); reflexivity.
Qed.





End EventLoop.

(** ** One-time use *)
Section OneTimeUse.
Context {P : Platform}.


Lemma findUnique_delete {row : Type} (id : row -> string) k (t : list row) :
  Prisma.findUnique id k (Prisma.delete id k t) = None.
Proof.
  unfold Prisma.findUnique, Prisma.delete.
  induction t as [|r t IH]; simpl; [reflexivity|].
  destruct (String.eqb (id r) k) eqn:Hk; simpl; [exact IH|].
  rewrite Hk. exact IH.
Qed.



End OneTimeUse.



(** ** Consumption of the challenge *)
Section Consumption.
Context {P : Platform}.


End Consumption.


(** The same in routes/auth.ts: the row of [addr1] survives the rejected
    signature. *)
Example RoutesAuth_rejected_signature_keeps_row :
  let out := RoutesAuth.post_verify (P := Reference.rejecting) Examples.E0 2000
               (Examples.submit1 (fst Examples.issued1) Examples.sig64)
               (snd Examples.issued1) in
  fst (fst out) = send 400 (ErrorJson "invalid signature") /\
  snd out = snd Examples.issued1 /\
  length (Prisma.sessions (snd out)) = 1%nat.
Proof. vm_compute. repeat split. Qed.


(** ** The message fallback of server.ts *)
Section MessageFallback.
Context {P : Platform}.
Variable E : env.

Lemma no_usable_cookie_later now now' c :
  no_usable_cookie E now c = true -> now <= now' ->
  no_usable_cookie E now' c = true.
Proof.
  unfold no_usable_cookie, jwt.verify. intros H Hle.
  destruct c as [[s|t]|]; try reflexivity.
  destruct (negb (String.eqb (jwt.key t) (JWT_SECRET E))); [reflexivity|].
  destruct (jwt.exp t <=? now / 1000) eqn:Hexp; [|discriminate].
  apply Z.leb_le in Hexp.
  assert (now / 1000 <= now' / 1000) by (apply Z.div_le_mono; lia).
  replace (jwt.exp t <=? now' / 1000) with true
    by (symmetry; apply Z.leb_le; lia).
  reflexivity.
Qed.

Lemma choose_message_fallback now wa m c :
  no_usable_cookie E now c = true ->
  Server.choose_message E now wa m c = inr m.
Proof.
  unfold no_usable_cookie, Server.choose_message.
  destruct c as [w|]; [|reflexivity].
  destruct (jwt.verify w (JWT_SECRET E) now) eqn:Hv; [discriminate|].
  intros _. destruct w as [[|? ?]|t]; reflexivity.
Qed.

Lemma bodyMessage_truthy req m :
  Server.bodyMessage_of req = Some m -> truthy m = true.
Proof.
  unfold Server.bodyMessage_of.
  destruct (truthy (or_else _ _)) eqn:Ht; intros H; simplify_eq. exact Ht.
Qed.

(** C3.  In the verify endpoint of server.ts a request without a nonce
    cookie, or with one that [jwt.verify] rejects, is judged on the
    message it supplies itself: if the supplied signature verifies over
    that message against the base58-decoded wallet address, the reply is
    200 with an auth token that expires 30 days after issue.  The handler
    reads and writes no challenge store, so the identical request
    succeeds again whenever it is replayed later. *)
Theorem C3_body_message_accepted_and_replayable
    now jti userId walletId run req m sg enc pk :
  truthy (JWT_SECRET E) = true ->
  truthy (Server.walletAddress_of req) = true ->
  no_usable_cookie E now (Server.nonce_cookie req) = true ->
  Server.bodyMessage_of req = Some m ->
  Server.decode_signature req = inr (sg, enc) ->
  bs58_decode (Server.walletAddress_of req) = Some pk ->
  nacl_sign_detached_verify (TextEncoder_encode m) sg pk = Ret true ->
  (exists token,
     jwt.sign (jwt.AuthClaims userId walletId) (JWT_SECRET E) (jwt.days 30)
       (Some jti) now = Ret token /\
     jwt.exp token - jwt.iat token = 30 * 24 * 60 * 60 /\
     fst (Server.post_verify E now jti userId walletId run req) =
       {| status := 200;
          json := VerifiedJson token userId walletId enc
                    (fst (Server.persist E run))
                    (Date_toISOString (now + 30 * 24 * 60 * 60 * 1000));
          cookies := [ClearCookie "nonce";
                      SetCookie "auth" token (30 * 24 * 60 * 60 * 1000)] |}) /\
  (forall now' jti' userId' walletId' run',
     now <= now' ->
     status (fst (Server.post_verify E now' jti' userId' walletId' run' req)) = 200).
Proof.
  intros Hsecret Hwa Hcookie Hmsg Hdec Hpk Hsig.
  assert (Hlen : (length sg <? 64)%nat = false).
  { destruct (nacl_size _ _ _ _ Hsig) as [Hl _]. rewrite Hl. reflexivity. }
  assert (Hm : truthy m = true) by (eapply bodyMessage_truthy; eassumption).
  assert (Hrun : forall t j u w r,
            no_usable_cookie E t (Server.nonce_cookie req) = true ->
            exists token,
              jwt.sign (jwt.AuthClaims u w) (JWT_SECRET E) (jwt.days 30)
                (Some j) t = Ret token /\
              jwt.exp token - jwt.iat token = 30 * 24 * 60 * 60 /\
              fst (Server.post_verify E t j u w r req) =
                {| status := 200;
                   json := VerifiedJson token u w enc (fst (Server.persist E r))
                             (Date_toISOString (t + 30 * 24 * 60 * 60 * 1000));
                   cookies := [ClearCookie "nonce";
                               SetCookie "auth" token
                                 (30 * 24 * 60 * 60 * 1000)] |}).
  { intros t j u w r Hc.
    unfold Server.post_verify.
    rewrite Hwa. simpl.
    rewrite (choose_message_fallback _ _ _ _ Hc), Hmsg.
    unfold present. simpl. rewrite Hm. simpl.
    rewrite Hdec, Hlen, Hpk, Hm, Hsig.
    unfold jwt.sign. rewrite Hsecret.
    eexists. split; [reflexivity|]. split.
    - simpl. unfold jwt.days. lia.
    - destruct (Server.persist E r). reflexivity. }
  split.
  - apply Hrun. exact Hcookie.
  - intros now' jti' userId' walletId' run' Hle.
    destruct (Hrun now' jti' userId' walletId' run'
                (no_usable_cookie_later _ _ _ Hcookie Hle))
      as (token & _ & _ & Hreply).
    rewrite Hreply. reflexivity.
Qed.

End MessageFallback.

(** C3 at work: a request carrying no cookie, its own message ["anything"]
    and a 64-byte signature that verifies, sent twice. *)
Lemma C3_witness :
  let req := Examples.server_req (Some Examples.sig64) None "anything" in
  status (fst (Server.post_verify (P := Reference.accepting) Examples.E0
                 1000 "j1" "u1" "w1" Server.NoClient req)) = 200 /\
  status (fst (Server.post_verify (P := Reference.accepting) Examples.E0
                 999000 "j2" "u2" "w2" Server.NoClient req)) = 200.
Proof.
  intros req.
  destruct (@C3_body_message_accepted_and_replayable Reference.accepting
              Examples.E0 1000 "j1" "u1" "w1" Server.NoClient req "anything"
              (Examples.zeros 64) EncBase58 (Examples.zeros 32))
    as [(token & _ & _ & Hfirst) Hreplay]; [by_running .. |].
  split.
  - rewrite Hfirst. reflexivity.
  - apply Hreplay. lia.
Defined.

(** ** Re-issue within the lifetime of a challenge *)
Section Reissue.
Context {P : Platform}.
Variable secret : string.

(** What [/auth/verify] of auth-nonce.ts can do to the nonce map: nothing,
    or delete the entry of the submitted address, on success or on expiry. *)
Lemma AuthNonce_verify_nonces now uid wid req st :
  let out := AuthNonce.post_verify secret now uid wid req st in
  AuthNonce.nonces (snd out) = AuthNonce.nonces st \/
  exists a, AuthNonce.v_address req = Some a /\
    AuthNonce.nonces (snd out) = delete a (AuthNonce.nonces st) /\
    (status (fst (fst out)) = 200 \/
     exists rec, AuthNonce.nonces st !! a = Some rec /\
                 AuthNonce.expiresAt rec < now).
Proof.
  unfold AuthNonce.post_verify, AuthNonce.caught, send.
  repeat case_match; cbn [fst snd status AuthNonce.nonces]; auto;
    right; eexists; (split; [reflexivity|]); (split; [reflexivity|]); auto.
  right. eexists. split; [eassumption|]. apply Z.ltb_lt. assumption.
Qed.

Lemma AuthNonce_post_nonce_keeps a rec now fresh req st :
  AuthNonce.nonces st !! a = Some rec ->
  now < AuthNonce.expiresAt rec ->
  AuthNonce.nonces (snd (AuthNonce.post_nonce now fresh req st)) !! a = Some rec.
Proof.
  intros Hrec Hlt. unfold AuthNonce.post_nonce.
  destruct (AuthNonce.address_of req) as [a'|]; [|exact Hrec].
  destruct (negb (truthy a')); [exact Hrec|].
  destruct (PublicKey a'); [|exact Hrec].
  destruct (decide (a' = a)) as [->|Hne].
  - rewrite Hrec.
    replace (now <? AuthNonce.expiresAt rec) with true
      by (symmetry; apply Z.ltb_lt; exact Hlt).
    exact Hrec.
  - destruct (AuthNonce.nonces st !! a') as [ex|];
      [destruct (now <? AuthNonce.expiresAt ex)|]; simpl;
      rewrite ?lookup_insert_ne by done; exact Hrec.
Qed.

Lemma AuthNonce_handle_keeps a rec r st :
  AuthNonce.nonces st !! a = Some rec ->
  time_of r < AuthNonce.expiresAt rec ->
  verifies_for secret a r st = false ->
  AuthNonce.nonces (snd (AuthNonce.handle secret r st)) !! a = Some rec.
Proof.
  intros Hrec Hlt Hquiet.
  destruct r as [now fresh req | now uid wid req]; simpl in *.
  - apply AuthNonce_post_nonce_keeps; assumption.
  - destruct (AuthNonce_verify_nonces now uid wid req st)
      as [Hsame | (a' & Ha' & Hdel & Hwhy)].
    + rewrite Hsame. exact Hrec.
    + rewrite Hdel.
      destruct (decide (a' = a)) as [->|Hne];
        [|rewrite lookup_delete_ne by done; exact Hrec].
      exfalso. destruct Hwhy as [Hok | (rec' & Hrec' & Hexp)].
      * rewrite Ha', bool_decide_eq_true_2 in Hquiet by reflexivity.
        simpl in Hquiet. apply Z.eqb_neq in Hquiet. contradiction.
      * rewrite Hrec in Hrec'. simplify_eq. lia.
Qed.

Lemma AuthNonce_run_keeps a rec rs : forall st,
  AuthNonce.nonces st !! a = Some rec ->
  undisturbed secret a (AuthNonce.expiresAt rec) rs st = true ->
  AuthNonce.nonces (AuthNonce.run secret rs st) !! a = Some rec.
Proof.
  induction rs as [|r rs IH]; intros st Hrec Hq; simpl in *; [exact Hrec|].
  apply andb_prop in Hq as [Hq Hrest]. apply andb_prop in Hq as [Ht Hv].
  apply Z.ltb_lt in Ht. apply negb_true_iff in Hv.
  apply IH; [|exact Hrest].
  apply AuthNonce_handle_keeps; assumption.
Qed.

(** A granted [/auth/nonce] of auth-nonce.ts leaves a live record for the
    address whose nonce is the one in the reply. *)
Lemma AuthNonce_post_nonce_granted now fresh req st :
  status (fst (fst (AuthNonce.post_nonce now fresh req st))) = 200 ->
  exists a rec,
    AuthNonce.address_of req = Some a /\ truthy a = true /\
    is_Some (PublicKey a) /\
    AuthNonce.nonces (snd (AuthNonce.post_nonce now fresh req st)) !! a = Some rec /\
    json (fst (fst (AuthNonce.post_nonce now fresh req st))) =
      NonceJson (AuthNonce.nonce rec) /\
    now < AuthNonce.expiresAt rec /\
    (AuthNonce.nonces st !! a = Some rec \/
     AuthNonce.expiresAt rec = now + AuthNonce.NONCE_TTL_MS).
Proof.
  unfold AuthNonce.post_nonce, AuthNonce.NONCE_TTL_MS.
  destruct (AuthNonce.address_of req) as [a|]; [|discriminate].
  destruct (truthy a) eqn:Ht; cbn [negb]; [|discriminate].
  destruct (PublicKey a) as [pk|] eqn:Hpk; [|discriminate].
  destruct (AuthNonce.nonces st !! a) as [ex|] eqn:Hex;
    [destruct (now <? AuthNonce.expiresAt ex) eqn:Hlive|];
    cbn [fst snd status json send AuthNonce.nonces]; intros _.
  - exists a, ex. apply Z.ltb_lt in Hlive.
    split; [reflexivity|]. split; [exact Ht|]. split; [eauto|].
    split; [exact Hex|]. split; [reflexivity|]. split; [exact Hlive|].
    left. exact Hex.
  - eexists a, _. rewrite lookup_insert_eq.
    split; [reflexivity|]. split; [exact Ht|]. split; [eauto|].
    split; [reflexivity|]. split; [reflexivity|].
    cbn [AuthNonce.expiresAt]. split; [lia | right; reflexivity].
  - eexists a, _. rewrite lookup_insert_eq.
    split; [reflexivity|]. split; [exact Ht|]. split; [eauto|].
    split; [reflexivity|]. split; [reflexivity|].
    cbn [AuthNonce.expiresAt]. split; [lia | right; reflexivity].
Qed.

(** A live record makes [/auth/nonce] answer with its nonce and change
    nothing. *)
Lemma AuthNonce_post_nonce_reuses a rec now fresh req st :
  AuthNonce.address_of req = Some a -> truthy a = true ->
  is_Some (PublicKey a) ->
  AuthNonce.nonces st !! a = Some rec ->
  now < AuthNonce.expiresAt rec ->
  AuthNonce.post_nonce now fresh req st =
    (send 200 (NonceJson (AuthNonce.nonce rec)), [], st).
Proof.
  intros Ha Ht [pk Hpk] Hrec Hlt. unfold AuthNonce.post_nonce.
  rewrite Ha, Ht, Hpk, Hrec. simpl.
  replace (now <? AuthNonce.expiresAt rec) with true
    by (symmetry; apply Z.ltb_lt; exact Hlt).
  reflexivity.
Qed.

(** C4, as amended.  In auth-nonce.ts a granted challenge request leaves a
    live record for the address whose nonce is the one returned (a record
    that was stored already, or a new one expiring [NONCE_TTL_MS] after
    the request); as long as
    every later request comes before that expiry and none is a successful
    verification for the address, a further challenge request for it
    returns the same nonce and changes nothing.  server.ts and
    routes/auth.ts do not re-issue: the nonce they return is the one drawn
    for the request at hand. *)
Theorem C4_reissue_returns_stored_nonce :
  (forall now1 fresh1 req st0,
     status (fst (fst (AuthNonce.post_nonce now1 fresh1 req st0))) = 200 ->
     exists a rec,
       AuthNonce.address_of req = Some a /\
       AuthNonce.nonces (snd (AuthNonce.post_nonce now1 fresh1 req st0)) !! a
         = Some rec /\
       nonce_of (json (fst (fst (AuthNonce.post_nonce now1 fresh1 req st0))))
         = Some (AuthNonce.nonce rec) /\
       now1 < AuthNonce.expiresAt rec /\
       (AuthNonce.nonces st0 !! a = Some rec \/
        AuthNonce.expiresAt rec = now1 + AuthNonce.NONCE_TTL_MS) /\
       forall rs now2 fresh2,
         let st1 := snd (AuthNonce.post_nonce now1 fresh1 req st0) in
         undisturbed secret a (AuthNonce.expiresAt rec) rs st1 = true ->
         now2 < AuthNonce.expiresAt rec ->
         AuthNonce.post_nonce now2 fresh2 req (AuthNonce.run secret rs st1) =
           (send 200 (NonceJson (AuthNonce.nonce rec)), [],
            AuthNonce.run secret rs st1) /\
         AuthNonce.nonces (AuthNonce.run secret rs st1) !! a = Some rec) /\
  (forall E now nonce jti w,
     truthy (JWT_SECRET E) = true ->
     truthy (String_trim (or_else w "")) = true ->
     nonce_of (json (fst (Server.get_nonce E now nonce jti w))) = Some nonce) /\
  (forall now hex w d,
     truthy (String_trim (or_else w "")) = true ->
     nonce_of (json (fst (fst (RoutesAuth.get_nonce now hex w d)))) =
       Some ("Sign in to FST" +:+ LF +:+
             "Address: " +:+ String_trim (or_else w "") +:+ LF +:+
             "Nonce: " +:+ hex +:+ LF +:+ "TS:" +:+ pretty now)).
Proof.
  split; [|split].
  - intros now1 fresh1 req st0 Hok.
    destruct (AuthNonce_post_nonce_granted _ _ _ _ Hok)
      as (a & rec & Ha & Ht & Hpk & Hrec & Hjson & Hlive & Hnew).
    exists a, rec.
    split; [exact Ha|]. split; [exact Hrec|].
    split; [rewrite Hjson; reflexivity|]. split; [exact Hlive|].
    split; [exact Hnew|].
    intros rs now2 fresh2 st1 Hquiet Hlt.
    assert (Hkept : AuthNonce.nonces (AuthNonce.run secret rs st1) !! a
                    = Some rec)
      by (apply AuthNonce_run_keeps; assumption).
    split; [|exact Hkept].
    apply (AuthNonce_post_nonce_reuses a rec); assumption.
  - intros E now nonce jti w Hsecret Hw.
    unfold Server.get_nonce, Server.signNonceCookie, jwt.sign.
    rewrite Hw, Hsecret. reflexivity.
  - intros now hex w d Hw.
    unfold RoutesAuth.get_nonce. rewrite Hw. reflexivity.
Qed.

End Reissue.

(** C4 fails as stated: two challenge requests for [addr1], one second
    apart, get different nonces from server.ts, and routes/auth.ts
    replaces the stored nonce on the second request. *)
Lemma C4_counterexample :
  let r1 := fst (Server.get_nonce (P := Reference.accepting) Examples.E0
                   1000 "uuid-1" "jti-1" (Some Examples.addr1)) in
  let r2 := fst (Server.get_nonce (P := Reference.accepting) Examples.E0
                   2000 "uuid-2" "jti-2" (Some Examples.addr1)) in
  let d1 := snd (RoutesAuth.get_nonce (P := Reference.accepting)
                   1000 "00ff" (Some Examples.addr1) Prisma.empty) in
  let d2 := snd (RoutesAuth.get_nonce (P := Reference.accepting)
                   2000 "a1b2" (Some Examples.addr1) d1) in
  (status r1 = 200 /\ status r2 = 200 /\
   nonce_of (json r1) = Some "uuid-1" /\ nonce_of (json r2) = Some "uuid-2" /\
   nonce_of (json r1) <> nonce_of (json r2)) /\
  map Prisma.s_jwtId (Prisma.sessions d1) <> map Prisma.s_jwtId (Prisma.sessions d2).
Proof.
  vm_compute. split; [repeat split|]; discriminate.
Qed.

(** C4 as amended: two requests for [addr1] to auth-nonce.ts with a failed
    verification in between, and one request to each of the other two. *)
Lemma C4_witness :
  let req := {| AuthNonce.address := Some Examples.addr1;
                AuthNonce.walletAddress := None |} in
  let rs := [AuthNonce.PostVerify 2000 "u1" "w1"
               (Examples.submit "wrong" Examples.sig64)] in
  AuthNonce.post_nonce (P := Reference.accepting) 3000 "n2" req
    (AuthNonce.run (P := Reference.accepting) "k" rs Examples.st1) =
    (send 200 (NonceJson "n1"), [],
     AuthNonce.run (P := Reference.accepting) "k" rs Examples.st1) /\
  nonce_of (json (fst (Server.get_nonce (P := Reference.accepting) Examples.E0
                         3000 "uuid-3" "jti-3" (Some Examples.addr1))))
    = Some "uuid-3" /\
  is_Some (nonce_of (json (fst (fst (RoutesAuth.get_nonce
                                       (P := Reference.accepting) 3000 "a1b2"
                                       (Some Examples.addr1)
                                       (snd Examples.issued1)))))).
Proof.
  intros req rs.
  pose proof (@C4_reissue_returns_stored_nonce Reference.accepting "k")
    as (Hauth & Hserver & Hroutes).
  split; [|split].
  - destruct (Hauth 1000 "n1" req AuthNonce.init)
      as (a & rec & Ha & Hrec & Hn & _ & _ & Hre); [by_running|].
    assert (a = Examples.addr1)
      by (vm_compute in Ha; injection Ha as <-; reflexivity).
    subst a.
    assert (rec = Examples.rec1)
      by (vm_compute in Hrec; injection Hrec as <-; reflexivity).
    subst rec.
    apply (Hre rs 3000 "n2"); by_running.
  - apply Hserver; by_running.
  - rewrite Hroutes by by_running. eexists. reflexivity.
Defined.

(** ** At most one live challenge per address *)
Section KeyedTables.
Context {row : Type} (id : row -> string).

Lemma filter_absent_key (p : row -> bool) k (t : list row) :
  k ∉ map id t ->
  List.filter (fun r => String.eqb (id r) k && p r) t = [].
Proof.
  induction t as [|r t IH]; simpl; intros Hk; [reflexivity|].
  apply not_elem_of_cons in Hk as [Hne Hk].
  destruct (String.eqb_spec (id r) k) as [Heq|_]; [congruence|].
  simpl. auto.
Qed.

(** Among rows with pairwise distinct keys at most one carries [k]. *)
Lemma at_most_one_per_key (p : row -> bool) k (t : list row) :
  NoDup (map id t) ->
  (length (List.filter (fun r => String.eqb (id r) k && p r) t) <= 1)%nat.
Proof.
  induction t as [|r t IH]; simpl; intros Hnd; [lia|].
  apply NoDup_cons in Hnd as [Hr Hnd].
  destruct (String.eqb_spec (id r) k) as [Heq|_]; simpl; [|auto].
  rewrite filter_absent_key by congruence.
  destruct (p r); simpl; lia.
Qed.

Lemma findUnique_None k (t : list row) :
  Prisma.findUnique id k t = None <-> k ∉ map id t.
Proof.
  unfold Prisma.findUnique.
  induction t as [|r t IH]; simpl.
  - split; [intros _; apply not_elem_of_nil | reflexivity].
  - destruct (String.eqb_spec (id r) k) as [Heq|Hne].
    + split; [discriminate|]. intros Hk. exfalso. apply Hk. subst k. left.
    + rewrite IH. rewrite not_elem_of_cons. intuition congruence.
Qed.

Lemma update_keys k (f : row -> row) (t : list row) :
  (forall r, id (f r) = id r) ->
  map id (Prisma.update id k f t) = map id t.
Proof.
  intros Hf. induction t as [|r t IH]; simpl; [reflexivity|].
  destruct (String.eqb (id r) k); simpl; rewrite ?Hf, IH; reflexivity.
Qed.

Lemma upsert_keyed k (f : row -> row) (r : row) (t : list row) :
  (forall x, id (f x) = id x) -> id r = k ->
  NoDup (map id t) -> NoDup (map id (Prisma.upsert id k f r t)).
Proof.
  intros Hf Hr Hnd. unfold Prisma.upsert.
  destruct (Prisma.findUnique id k t) eqn:Hfind.
  - rewrite update_keys by exact Hf. exact Hnd.
  - apply findUnique_None in Hfind.
    rewrite map_app. simpl. rewrite Hr.
    apply NoDup_app. split; [exact Hnd|]. split.
    + intros x Hx Hin. apply list_elem_of_singleton in Hin. congruence.
    + apply NoDup_singleton.
Qed.

Lemma delete_keyed k (t : list row) :
  NoDup (map id t) -> NoDup (map id (Prisma.delete id k t)).
Proof.
  unfold Prisma.delete.
  induction t as [|r t IH]; simpl; intros Hnd; [exact Hnd|].
  apply NoDup_cons in Hnd as [Hr Hnd].
  destruct (negb (String.eqb (id r) k)); simpl; [|auto].
  apply NoDup_cons. split; [|auto].
  intros Hin. apply Hr.
  apply list_elem_of_In in Hin. apply in_map_iff in Hin as (x & Hx & Hin).
  apply filter_In in Hin as [Hin _].
  apply list_elem_of_In. apply in_map_iff. eauto.
Qed.

(** After an upsert the rows under [k] are exactly the updated or the new
    row. *)
Lemma rows_of_upsert k (f : row -> row) (r : row) (t : list row) :
  (forall x, id (f x) = id x) -> id r = k -> NoDup (map id t) ->
  Prisma.rows_of id k (Prisma.upsert id k f r t) =
    [match Prisma.findUnique id k t with Some x => f x | None => r end].
Proof.
  intros Hf Hr. unfold Prisma.upsert, Prisma.rows_of, Prisma.findUnique.
  induction t as [|x t IH]; simpl; intros Hnd.
  - rewrite Hr, String.eqb_refl. reflexivity.
  - apply NoDup_cons in Hnd as [Hx Hnd].
    destruct (String.eqb_spec (id x) k) as [Heq|Hne]; simpl.
    + rewrite Hf, Heq, String.eqb_refl. f_equal.
      assert (Hk : k ∉ map id t) by congruence.
      clear IH Hx. induction t as [|y t IH]; simpl; [reflexivity|].
      apply not_elem_of_cons in Hk as [Hy Hk].
      apply NoDup_cons in Hnd as [_ Hnd].
      destruct (String.eqb_spec (id y) k) as [?|_]; [congruence|].
      simpl. destruct (String.eqb_spec (id y) k) as [?|_]; [congruence|].
      auto.
    + specialize (IH Hnd).
      destruct (List.find (fun r0 => String.eqb (id r0) k) t) eqn:Hfind; simpl;
        (destruct (String.eqb_spec (id x) k) as [?|_]; [congruence|]);
        exact IH.
Qed.

End KeyedTables.

Section OneLiveChallenge.
Context {P : Platform}.

Lemma createAndStoreNonce_keyed now hex a d :
  sessions_keyed d ->
  sessions_keyed (snd (RoutesAuth.createAndStoreNonce now hex a d)).
Proof.
  unfold sessions_keyed, RoutesAuth.createAndStoreNonce. simpl.
  apply upsert_keyed; reflexivity.
Qed.

Lemma RoutesAuth_verify_sessions E now req d :
  let d' := snd (RoutesAuth.post_verify E now req d) in
  Prisma.sessions d' = Prisma.sessions d \/
  Prisma.sessions d' =
    Prisma.delete Prisma.s_id
      (RoutesAuth.nonce_key (or_else (RoutesAuth.address req) ""))
      (Prisma.sessions d).
Proof.
  unfold RoutesAuth.post_verify.
  repeat case_match; cbn [snd Prisma.sessions]; auto.
Qed.

Lemma RoutesAuth_handle_keyed E r d :
  sessions_keyed d -> sessions_keyed (snd (RoutesAuth.handle E r d)).
Proof.
  intros Hk. destruct r as [now hex a | now hex a | now req]; simpl.
  - unfold RoutesAuth.get_nonce. case_match; [exact Hk|].
    pose proof (createAndStoreNonce_keyed now hex
                  (String_trim (or_else a "")) d Hk) as Hc.
    destruct (RoutesAuth.createAndStoreNonce _ _ _ _). exact Hc.
  - unfold RoutesAuth.post_nonce. case_match; [exact Hk|].
    pose proof (createAndStoreNonce_keyed now hex
                  (String_trim (or_else a "")) d Hk) as Hc.
    destruct (RoutesAuth.createAndStoreNonce _ _ _ _). exact Hc.
  - unfold sessions_keyed in *.
    destruct (RoutesAuth_verify_sessions E now req d) as [-> | ->];
      [exact Hk | apply delete_keyed; exact Hk].
Qed.

Lemma RoutesAuth_run_keyed E rs : forall d,
  sessions_keyed d -> sessions_keyed (RoutesAuth.run E rs d).
Proof.
  induction rs as [|r rs IH]; intros d Hk; simpl; [exact Hk|].
  apply IH, RoutesAuth_handle_keyed, Hk.
Qed.

(** C5, as amended.  The stores of auth-nonce.ts and of routes/auth.ts
    hold at most one live challenge per address, after any sequence of
    requests.  Issuing while one is stored either returns it unchanged or
    replaces it: auth-nonce.ts answers with the stored nonce and changes
    nothing, or overwrites the entry of the address; routes/auth.ts
    leaves exactly one session row for the address, the one carrying the
    new nonce.  server.ts keeps no store: each challenge is a token it
    signed, and its verify handler takes the message from every such
    token until the token's own expiry, so two challenges issued for one
    wallet are both live as long as neither has expired. *)
Theorem C5_at_most_one_live_challenge :
  (forall secret rs st0 a now,
     (length (AuthNonce_live (AuthNonce.run secret rs st0) a now) <= 1)%nat) /\
  (forall now fresh req st a rec,
     AuthNonce.address_of req = Some a -> truthy a = true ->
     is_Some (PublicKey a) ->
     AuthNonce.nonces st !! a = Some rec ->
     AuthNonce.post_nonce now fresh req st =
       (send 200 (NonceJson (AuthNonce.nonce rec)), [], st) \/
     AuthNonce.post_nonce now fresh req st =
       (send 200 (NonceJson fresh), [],
        {| AuthNonce.nonces :=
             <[a := {| AuthNonce.nonce := fresh;
                       AuthNonce.expiresAt := now + AuthNonce.NONCE_TTL_MS |}]>
               (AuthNonce.nonces st);
           AuthNonce.db := AuthNonce.db st |})) /\
  (forall E rs d0 a now,
     sessions_keyed d0 ->
     (length (RoutesAuth_live (RoutesAuth.run E rs d0) a now) <= 1)%nat) /\
  (forall now hex a d,
     sessions_keyed d ->
     exists row,
       Prisma.rows_of Prisma.s_id (RoutesAuth.nonce_key a)
         (Prisma.sessions (snd (RoutesAuth.createAndStoreNonce now hex a d)))
         = [row] /\
       Prisma.s_jwtId row = fst (RoutesAuth.createAndStoreNonce now hex a d) /\
       Prisma.s_expiresAt row = now + 5 * 60000) /\
  (forall E now1 nonce1 jti1 now2 nonce2 jti2 w now bodyMessage,
     let wallet := String_trim (or_else w "") in
     truthy (JWT_SECRET E) = true ->
     truthy wallet = true ->
     now / 1000 < now1 / 1000 + 300 ->
     now / 1000 < now2 / 1000 + 300 ->
     exists t1 t2 m1 m2,
       fst (Server.get_nonce E now1 nonce1 jti1 w) =
         {| status := 200; json := ChallengeJson wallet nonce1 m1 300;
            cookies := [SetCookie "nonce" t1 (5 * 60 * 1000)] |} /\
       fst (Server.get_nonce E now2 nonce2 jti2 w) =
         {| status := 200; json := ChallengeJson wallet nonce2 m2 300;
            cookies := [SetCookie "nonce" t2 (5 * 60 * 1000)] |} /\
       Server.choose_message E now wallet bodyMessage (Some (jwt.Signed t1))
         = inr (Some m1) /\
       Server.choose_message E now wallet bodyMessage (Some (jwt.Signed t2))
         = inr (Some m2)).
Proof.
  repeat apply conj.
  - intros secret rs st0 a now. unfold AuthNonce_live.
    apply (at_most_one_per_key fst
             (fun kr => negb (AuthNonce.expiresAt (snd kr) <? now))).
    apply NoDup_fst_map_to_list.
  - intros now fresh req st a rec Ha Ht [pk Hpk] Hrec.
    unfold AuthNonce.post_nonce. rewrite Ha, Ht, Hpk, Hrec. simpl.
    destruct (now <? AuthNonce.expiresAt rec); [left | right]; reflexivity.
  - intros E rs d0 a now Hk. unfold RoutesAuth_live.
    apply (at_most_one_per_key Prisma.s_id
             (fun s => negb (Prisma.s_expiresAt s <? now))).
    apply (RoutesAuth_run_keyed E rs d0 Hk).
  - intros now hex a d Hk.
    unfold RoutesAuth.createAndStoreNonce. cbn [snd fst Prisma.sessions].
    rewrite rows_of_upsert by (reflexivity || exact Hk).
    eexists. split; [reflexivity|].
    destruct (Prisma.findUnique _ _ _); split; reflexivity.
  - intros E now1 nonce1 jti1 now2 nonce2 jti2 w now bodyMessage wallet
           Hsecret Hw Hlive1 Hlive2.
    unfold Server.get_nonce, Server.signNonceCookie, jwt.sign.
    fold wallet. rewrite Hw, Hsecret. cbn [negb fst].
    do 4 eexists. split; [reflexivity|]. split; [reflexivity|].
    unfold Server.choose_message, jwt.verify.
    cbn [jwt.key jwt.exp jwt.payload]. rewrite String.eqb_refl. cbn [negb].
    unfold jwt.minutes. change (5 * 60) with 300.
    replace (now1 / 1000 + 300 <=? now / 1000) with false
      by (symmetry; apply Z.leb_gt; exact Hlive1).
    replace (now2 / 1000 + 300 <=? now / 1000) with false
      by (symmetry; apply Z.leb_gt; exact Hlive2).
    rewrite String.eqb_refl. cbn [negb]. split; reflexivity.
Qed.

End OneLiveChallenge.

(** C5 fails as stated for server.ts.  Two challenges are issued for
    [addr1], at 1000 and at 2000; at 3000 the verify handler accepts the
    cookie of the first and the cookie of the second, each with its own
    message: both are live at the same time. *)
Lemma C5_counterexample :
  let req1 := MoreExamples.cookie_req MoreExamples.nonce_token1 Examples.addr1
                "" in
  let req2 := MoreExamples.cookie_req MoreExamples.nonce_token2 Examples.addr1
                "" in
  (nonce_of (json MoreExamples.challenge1) = Some "n1" /\
   cookies MoreExamples.challenge1
     = [SetCookie "nonce" MoreExamples.nonce_token1 300000]) /\
  (nonce_of (json MoreExamples.challenge2) = Some "n2" /\
   cookies MoreExamples.challenge2
     = [SetCookie "nonce" MoreExamples.nonce_token2 300000]) /\
  (Server.choose_message Examples.E0 3000 Examples.addr1 None
     (Server.nonce_cookie req1) = inr (Some MoreExamples.message1) /\
   status (fst (Server.post_verify (P := Reference.accepting) Examples.E0 3000
                  "j3" "u3" "w3" Server.NoClient req1)) = 200) /\
  (Server.choose_message Examples.E0 3000 Examples.addr1 None
     (Server.nonce_cookie req2) = inr (Some MoreExamples.message2) /\
   status (fst (Server.post_verify (P := Reference.accepting) Examples.E0 3000
                  "j4" "u4" "w4" Server.NoClient req2)) = 200) /\
  MoreExamples.message1 <> MoreExamples.message2.
Proof.
  vm_compute. repeat split; discriminate.
Qed.

(** C5 at work: two challenges issued for [addr1] through each
    implementation. *)
Lemma C5_witness :
  (length (RoutesAuth_live
             (RoutesAuth.run (P := Reference.accepting) Examples.E0
                [RoutesAuth.GetNonce 1000 "00ff" (Some Examples.addr1);
                 RoutesAuth.PostNonce 2000 "a1b2" (Some Examples.addr1)]
                Prisma.empty)
             Examples.addr1 3000) <= 1)%nat /\
  (exists row,
     Prisma.rows_of Prisma.s_id (RoutesAuth.nonce_key Examples.addr1)
       (Prisma.sessions
          (snd (RoutesAuth.createAndStoreNonce 2000 "a1b2" Examples.addr1
                  (snd Examples.issued1)))) = [row] /\
     Prisma.s_expiresAt row = 302000) /\
  AuthNonce.post_nonce (P := Reference.accepting) 2000 "n2"
    {| AuthNonce.address := Some Examples.addr1;
       AuthNonce.walletAddress := None |} Examples.st1 =
    (send 200 (NonceJson "n1"), [], Examples.st1) /\
  (exists t1 t2 m1 m2,
     Server.choose_message Examples.E0 3000 Examples.addr1 None
       (Some (jwt.Signed t1)) = inr (Some m1) /\
     Server.choose_message Examples.E0 3000 Examples.addr1 None
       (Some (jwt.Signed t2)) = inr (Some m2) /\
     cookies (fst (Server.get_nonce (P := Reference.accepting) Examples.E0 1000
                     "n1" "j0" (Some Examples.addr1)))
       = [SetCookie "nonce" t1 300000] /\
     cookies (fst (Server.get_nonce (P := Reference.accepting) Examples.E0 2000
                     "n2" "j2" (Some Examples.addr1)))
       = [SetCookie "nonce" t2 300000]).
Proof.
  pose proof (@C5_at_most_one_live_challenge Reference.accepting)
    as (_ & Hissue & Hlive & Hrow & Hserver).
  assert (Hempty : sessions_keyed Prisma.empty) by apply NoDup_nil_2.
  repeat apply conj.
  - apply Hlive. exact Hempty.
  - destruct (Hrow 2000 "a1b2" Examples.addr1 (snd Examples.issued1))
      as (row & Hrows & _ & Hexp).
    + unfold sessions_keyed. simpl. apply NoDup_singleton.
    + exists row. split; [exact Hrows | exact Hexp].
  - pose proof (Hissue 2000 "n2"
                  {| AuthNonce.address := Some Examples.addr1;
                     AuthNonce.walletAddress := None |}
                  Examples.st1 Examples.addr1 Examples.rec1
                  ltac:(by_running) ltac:(by_running)
                  ltac:(eexists; by_running) ltac:(by_running))
      as [Hsame | Hnew].
    + exact Hsame.
    + vm_compute in Hnew. discriminate.
  - destruct (Hserver Examples.E0 1000 "n1" "j0" 2000 "n2" "j2"
                (Some Examples.addr1) 3000 None)
      as (t1 & t2 & m1 & m2 & H1 & H2 & Hc1 & Hc2); [by_running .. |].
    exists t1, t2, m1, m2.
    split; [exact Hc1|]. split; [exact Hc2|].
    split; [rewrite H1 | rewrite H2]; reflexivity.
Defined.

(** ** Expiry *)
Section Expiry.
Context {P : Platform}.

(** C6, as amended.  A verification attempt that comes after the expiry
    of the stored challenge ([expiresAt < now]) fails with status 400
    whatever signature and nonce it carries, and without the verifier
    being called.  auth-nonce.ts answers "Nonce expired" and drops the
    record in that attempt; routes/auth.ts answers "nonce invalid or
    expired" and leaves the session row where it is. *)
Theorem C6_expired_challenge_rejected :
  (forall secret now uid wid a sg n st rec pub,
     PublicKey a = Some pub ->
     AuthNonce.nonces st !! a = Some rec ->
     AuthNonce.expiresAt rec < now ->
     AuthNonce.post_verify secret now uid wid
       {| AuthNonce.v_address := Some a; AuthNonce.v_signature := Some sg;
          AuthNonce.v_nonce := Some n |} st =
       (send 400 (ErrorJson "Nonce expired. Get a new nonce."), [],
        {| AuthNonce.nonces := delete a (AuthNonce.nonces st);
           AuthNonce.db := AuthNonce.db st |})) /\
  (forall E now req d stored,
     present (RoutesAuth.address req) = true ->
     present (RoutesAuth.nonce req) = true ->
     (present (RoutesAuth.signatureBase64 req) ||
      present (RoutesAuth.signature58 req)) = true ->
     Prisma.findUnique Prisma.s_id
       (RoutesAuth.nonce_key (or_else (RoutesAuth.address req) ""))
       (Prisma.sessions d) = Some stored ->
     Prisma.s_expiresAt stored < now ->
     exists line,
       RoutesAuth.post_verify E now req d =
         (send 400 (ErrorJson "nonce invalid or expired"), [Console line], d) /\
       (Prisma.s_jwtId stored = or_else (RoutesAuth.nonce req) "" ->
        line = "[verify] nonce expired")).
Proof.
  split.
  - intros secret now uid wid a sg n st rec pub Hpk Hrec Hexp.
    unfold AuthNonce.post_verify. cbn [AuthNonce.v_address AuthNonce.v_signature
                                       AuthNonce.v_nonce].
    rewrite Hpk, Hrec.
    replace (AuthNonce.expiresAt rec <? now) with true
      by (symmetry; apply Z.ltb_lt; exact Hexp).
    reflexivity.
  - intros E now req d stored Ha Hn Hs Hfind Hexp.
    unfold RoutesAuth.post_verify.
    rewrite Ha, Hn, Hs. cbn [andb negb]. rewrite Hfind.
    destruct (String.eqb_spec (Prisma.s_jwtId stored)
                (or_else (RoutesAuth.nonce req) "")) as [Heq|Hne]; cbn [negb].
    + replace (Prisma.s_expiresAt stored <? now) with true
        by (symmetry; apply Z.ltb_lt; exact Hexp).
      eexists. split; reflexivity.
    + eexists. split; [reflexivity|]. intros Heq. contradiction.
Qed.

End Expiry.

(** C6 fails as stated.  In routes/auth.ts the challenge of [addr1]
    expired at 301000 and is still stored after the attempt at 400000 was
    refused; in auth-nonce.ts an attempt at the very instant of expiry
    ([now = expiresAt]) is not refused as expired but verified. *)
Lemma C6_counterexample :
  let d := snd Examples.issued1 in
  let out := RoutesAuth.post_verify (P := Reference.accepting) Examples.E0 400000
               (Examples.submit1 (fst Examples.issued1) Examples.sig64) d in
  let out' := AuthNonce.post_verify (P := Reference.accepting) "k" 301000 "u1" "w1"
                (Examples.submit "n1" Examples.sig64) Examples.st1 in
  (map Prisma.s_expiresAt (Prisma.sessions d) = [301000] /\
   fst out = (send 400 (ErrorJson "nonce invalid or expired"),
              [Console "[verify] nonce expired"]) /\
   snd out = d /\
   is_Some (Prisma.findUnique Prisma.s_id (RoutesAuth.nonce_key Examples.addr1)
              (Prisma.sessions (snd out)))) /\
  (option_map AuthNonce.expiresAt
     (AuthNonce.nonces Examples.st1 !! Examples.addr1) = Some 301000 /\
   status (fst (fst out')) = 200).
Proof.
  vm_compute. repeat split. eexists. reflexivity.
Qed.

(** C6 as amended, one millisecond after expiry, with a signature that
    would verify. *)
Lemma C6_witness :
  AuthNonce.nonces
    (snd (AuthNonce.post_verify (P := Reference.accepting) "k" 301001 "u1" "w1"
            (Examples.submit "n1" Examples.sig64) Examples.st1))
    !! Examples.addr1 = None /\
  status (fst (fst (RoutesAuth.post_verify (P := Reference.accepting)
                      Examples.E0 301001
                      (Examples.submit1 (fst Examples.issued1) Examples.sig64)
                      (snd Examples.issued1)))) = 400.
Proof.
  split.
  - unfold Examples.submit.
    rewrite (proj1 (@C6_expired_challenge_rejected Reference.accepting)
               "k" 301001 "u1" "w1" Examples.addr1 Examples.sig64 "n1"
               Examples.st1 Examples.rec1 (Examples.zeros 32));
      [apply lookup_delete_eq | by_running ..].
  - destruct (proj2 (@C6_expired_challenge_rejected Reference.accepting)
                Examples.E0 301001
                (Examples.submit1 (fst Examples.issued1) Examples.sig64)
                (snd Examples.issued1) Examples.row1)
      as (line & Hrun & _); [by_running .. |].
    rewrite Hrun. reflexivity.
Defined.

(** ** Signature length *)
Section SignatureLength.
Context {P : Platform}.

(** C7, as amended.  server.ts rejects a decoded signature shorter than 64
    bytes with 400 "Signature length invalid" before the verifier is
    called, so every signature it passes to the verifier has at least 64
    bytes.  The helpers of utils/solana.ts check no length: they pass
    every decoded signature to [nacl.sign.detached.verify], and only a
    64-byte signature gets a verdict from it rather than an exception. *)
Theorem C7_signature_length_checks :
  (forall E now jti userId walletId run req msg sg pk,
     In (NaclVerify msg sg pk)
        (snd (Server.post_verify E now jti userId walletId run req)) ->
     (64 <= length sg)%nat) /\
  (forall E now jti userId walletId run req m sg enc,
     truthy (Server.walletAddress_of req) = true ->
     Server.choose_message E now (Server.walletAddress_of req)
       (Server.bodyMessage_of req) (Server.nonce_cookie req) = inr (Some m) ->
     truthy m = true ->
     Server.decode_signature req = inr (sg, enc) ->
     (length sg < 64)%nat ->
     Server.post_verify E now jti userId walletId run req =
       (send 400 (ErrorJson "Signature length invalid"), [])) /\
  (forall address message signature58 pub sg,
     PublicKey address = Some pub ->
     bs58_decode signature58 = Some sg ->
     Solana.verifySolanaSignatureBase58 address message signature58 =
       (nacl_sign_detached_verify (TextEncoder_encode message) sg pub,
        [NaclVerify (TextEncoder_encode message) sg pub]) /\
     forall b,
       fst (Solana.verifySolanaSignatureBase58 address message signature58)
         = Ret b -> length sg = 64%nat) /\
  (forall address message signatureB64 pub sg,
     PublicKey address = Some pub ->
     atob_bytes signatureB64 = Some sg ->
     Solana.verifySolanaSignatureBase64 address message signatureB64 =
       (nacl_sign_detached_verify (TextEncoder_encode message) sg pub,
        [NaclVerify (TextEncoder_encode message) sg pub]) /\
     forall b,
       fst (Solana.verifySolanaSignatureBase64 address message signatureB64)
         = Ret b -> length sg = 64%nat).
Proof.
  repeat apply conj.
  - intros E now jti userId walletId run req msg sg pk.
    unfold Server.post_verify, Server.persist.
    repeat case_match; simplify_eq; cbn [snd app]; intros Hin;
      repeat (destruct Hin as [Hin|Hin]; simplify_eq);
      try contradiction; apply Nat.ltb_ge; assumption.
  - intros E now jti userId walletId run req m sg enc Hwa Hmsg Hm Hdec Hlen.
    unfold Server.post_verify.
    rewrite Hwa. cbn [negb]. rewrite Hmsg. unfold present. cbn [or_else].
    rewrite Hm. cbn [negb]. rewrite Hm, Hdec.
    replace (length sg <? 64)%nat with true
      by (symmetry; apply Nat.ltb_lt; exact Hlen).
    reflexivity.
  - intros address message signature58 pub sg Hpk Hsg.
    unfold Solana.verifySolanaSignatureBase58. rewrite Hpk, Hsg.
    split; [reflexivity|]. cbn [fst]. intros b Hb.
    apply (nacl_size _ _ _ _ Hb).
  - intros address message signatureB64 pub sg Hpk Hsg.
    unfold Solana.verifySolanaSignatureBase64. rewrite Hpk, Hsg.
    split; [reflexivity|]. cbn [fst]. intros b Hb.
    apply (nacl_size _ _ _ _ Hb).
Qed.

End SignatureLength.

(** C7 fails as stated.  [verifySolanaSignatureBase64] hands the three
    bytes of ["AAAA"] to the verifier, which throws; the verify handler
    of server.ts hands it a signature of 65 bytes, which passes the
    [< 64] test, and answers 500 when the verifier throws. *)
Lemma C7_counterexample :
  let zeros n := repeat Byte.x00 n in
  let req :=
    {| Server.body :=
         {| Server.walletAddress := Some Examples.addr1;
            Server.address := None; Server.wallet := None;
            Server.signatureBase58 := Some Examples.sig65;
            Server.signature := None; Server.sig := None;
            Server.message := Some "n1" |};
       Server.query := Examples.no_fields;
       Server.nonce_cookie := None |} in
  Solana.verifySolanaSignatureBase64 (P := Reference.accepting)
    Examples.addr1 "n1" "AAAA" =
    (Throw BadSignatureSize,
     [NaclVerify (TextEncoder_encode "n1") (zeros 3%nat) (zeros 32%nat)]) /\
  Server.post_verify (P := Reference.accepting) Examples.E0 1000 "j1" "u1" "w1"
    Server.NoClient req =
    (send 500 (ErrorJson "Internal error"),
     [NaclVerify (TextEncoder_encode "n1") (zeros 65%nat) (zeros 32%nat);
      Console "[verify] error:"]).
Proof. vm_compute. split; reflexivity. Qed.

(** C7 as amended: a 3-byte signature sent to server.ts and to the
    helpers, and the trace of a 64-byte one. *)
Lemma C7_witness :
  Server.post_verify (P := Reference.accepting) Examples.E0 1000 "j1" "u1" "w1"
    Server.NoClient (Examples.server_req None (Some "AAAA") "n1") =
    (send 400 (ErrorJson "Signature length invalid"), []) /\
  (64 <= length (Examples.zeros 64))%nat /\
  snd (Solana.verifySolanaSignatureBase58 (P := Reference.accepting)
         Examples.addr1 "n1" "111") =
    [NaclVerify (TextEncoder_encode "n1") (Examples.zeros 3) (Examples.zeros 32)] /\
  snd (Solana.verifySolanaSignatureBase64 (P := Reference.accepting)
         Examples.addr1 "n1" "AAAA") =
    [NaclVerify (TextEncoder_encode "n1") (Examples.zeros 3) (Examples.zeros 32)].
Proof.
  pose proof (@C7_signature_length_checks Reference.accepting)
    as (Hpassed & Hshort & H58 & H64).
  repeat apply conj.
  - apply (Hshort Examples.E0 1000 "j1" "u1" "w1" Server.NoClient _ "n1"
             (Examples.zeros 3) EncBase64); by_running.
  - apply (Hpassed Examples.E0 1000 "j1" "u1" "w1" Server.NoClient
             (Examples.server_req (Some Examples.sig64) None "n1")
             (TextEncoder_encode "n1") (Examples.zeros 64) (Examples.zeros 32)).
    vm_compute. left. reflexivity.
  - rewrite (proj1 (H58 Examples.addr1 "n1" "111" (Examples.zeros 32)
                      (Examples.zeros 3) eq_refl eq_refl)).
    reflexivity.
  - rewrite (proj1 (H64 Examples.addr1 "n1" "AAAA" (Examples.zeros 32)
                      (Examples.zeros 3) eq_refl eq_refl)).
    reflexivity.
Defined.

(** ** Nonce mismatch *)
Section Mismatch.
Context {P : Platform}.

(** C8, as amended.  For an address with a live challenge, a submission
    whose nonce differs from the stored one is refused with status 400
    and the store is left exactly as it was; a later submission with the
    stored nonce and a signature that verifies, made before expiry,
    succeeds.  auth-nonce.ts reports the refusal as "Nonce mismatch";
    routes/auth.ts answers "nonce invalid or expired", the reply it also
    gives for a missing and for an expired challenge, and names the
    mismatch only in its console line. *)
Theorem C8_mismatch_keeps_challenge :
  (forall secret now uid wid a sg n st rec pub,
     PublicKey a = Some pub ->
     AuthNonce.nonces st !! a = Some rec ->
     now <= AuthNonce.expiresAt rec ->
     n <> AuthNonce.nonce rec ->
     let out := AuthNonce.post_verify secret now uid wid
                  {| AuthNonce.v_address := Some a;
                     AuthNonce.v_signature := Some sg;
                     AuthNonce.v_nonce := Some n |} st in
     out = (send 400 (ErrorJson "Nonce mismatch"), [], st) /\
     AuthNonce.nonces (snd out) !! a = Some rec /\
     forall now' uid' wid' sg' s userId d',
       now' <= AuthNonce.expiresAt rec ->
       bs58_decode sg' = Some s ->
       nacl_sign_detached_verify (TextEncoder_encode (AuthNonce.nonce rec)) s pub
         = Ret true ->
       AuthNonce.find_or_create_user now' uid' wid' a (AuthNonce.db st)
         = (Ret userId, d') ->
       truthy secret = true ->
       status (fst (fst (AuthNonce.post_verify secret now' uid' wid'
                           {| AuthNonce.v_address := Some a;
                              AuthNonce.v_signature := Some sg';
                              AuthNonce.v_nonce := Some (AuthNonce.nonce rec) |}
                           (snd out)))) = 200) /\
  (forall E now req d stored,
     present (RoutesAuth.address req) = true ->
     present (RoutesAuth.nonce req) = true ->
     (present (RoutesAuth.signatureBase64 req) ||
      present (RoutesAuth.signature58 req)) = true ->
     Prisma.findUnique Prisma.s_id
       (RoutesAuth.nonce_key (or_else (RoutesAuth.address req) ""))
       (Prisma.sessions d) = Some stored ->
     now <= Prisma.s_expiresAt stored ->
     or_else (RoutesAuth.nonce req) "" <> Prisma.s_jwtId stored ->
     let out := RoutesAuth.post_verify E now req d in
     out = (send 400 (ErrorJson "nonce invalid or expired"),
            [Console "[verify] nonce mismatch"], d) /\
     forall now' req',
       or_else (RoutesAuth.address req') "" = or_else (RoutesAuth.address req) "" ->
       RoutesAuth.nonce req' = Some (Prisma.s_jwtId stored) ->
       truthy (Prisma.s_jwtId stored) = true ->
       (present (RoutesAuth.signatureBase64 req') ||
        present (RoutesAuth.signature58 req')) = true ->
       now' <= Prisma.s_expiresAt stored ->
       fst (RoutesAuth.check_signatures (or_else (RoutesAuth.address req) "")
              (Prisma.s_jwtId stored) req') = true ->
       truthy (JWT_SECRET E) = true ->
       status (fst (fst (RoutesAuth.post_verify E now' req' (snd out)))) = 200).
Proof.
  split.
  - intros secret now uid wid a sg n st rec pub Hpk Hrec Hlive Hne out.
    assert (Hout : out = (send 400 (ErrorJson "Nonce mismatch"), [], st)).
    { unfold out, AuthNonce.post_verify.
      cbn [AuthNonce.v_address AuthNonce.v_signature AuthNonce.v_nonce].
      rewrite Hpk, Hrec.
      replace (AuthNonce.expiresAt rec <? now) with false
        by (symmetry; apply Z.ltb_ge; exact Hlive).
      destruct (String.eqb_spec (AuthNonce.nonce rec) n) as [Heq|_];
        [congruence | reflexivity]. }
    rewrite Hout. cbn [snd].
    split; [reflexivity|]. split; [exact Hrec|].
    intros now' uid' wid' sg' s userId d' Hlive' Hs Hsig Huser Hsecret.
    unfold AuthNonce.post_verify.
    cbn [AuthNonce.v_address AuthNonce.v_signature AuthNonce.v_nonce].
    rewrite Hpk, Hrec.
    replace (AuthNonce.expiresAt rec <? now') with false
      by (symmetry; apply Z.ltb_ge; exact Hlive').
    rewrite String.eqb_refl. cbn [negb]. rewrite Hs, Hsig, Huser.
    unfold jwt.sign. rewrite Hsecret. reflexivity.
  - intros E now req d stored Ha Hn Hs Hfind Hlive Hne out.
    assert (Hout : out = (send 400 (ErrorJson "nonce invalid or expired"),
                          [Console "[verify] nonce mismatch"], d)).
    { unfold out, RoutesAuth.post_verify.
      rewrite Ha, Hn, Hs. cbn [andb negb]. rewrite Hfind.
      destruct (String.eqb_spec (Prisma.s_jwtId stored)
                  (or_else (RoutesAuth.nonce req) "")) as [Heq|_];
        [congruence | reflexivity]. }
    rewrite Hout. cbn [snd].
    split; [reflexivity|].
    intros now' req' Ha' Hn' Ht Hs' Hlive' Hck Hsecret.
    assert (Hn'' : or_else (RoutesAuth.nonce req') "" = Prisma.s_jwtId stored)
      by (rewrite Hn'; unfold or_else; rewrite Ht; reflexivity).
    unfold RoutesAuth.post_verify, present.
    rewrite Ha', Hn''. fold (present (RoutesAuth.address req)).
    rewrite Ha, Ht.
    fold (present (RoutesAuth.signatureBase64 req')).
    fold (present (RoutesAuth.signature58 req')).
    rewrite Hs'. cbn [andb negb]. rewrite Hfind, String.eqb_refl. cbn [negb].
    replace (Prisma.s_expiresAt stored <? now') with false
      by (symmetry; apply Z.ltb_ge; exact Hlive').
    destruct (RoutesAuth.check_signatures _ _ req') as [ok tr].
    cbn [fst] in Hck. subst ok. cbn [negb].
    unfold Middleware.issueJWT, jwt.sign. rewrite Hsecret. reflexivity.
Qed.

End Mismatch.

(** C8 fails as stated for routes/auth.ts: a mismatch is not reported as
    one.  The reply to a wrong nonce for [addr1] is the reply a submission
    gets when no challenge is stored and when the stored one has expired;
    the three differ in the console line only. *)
Lemma C8_counterexample :
  let d := snd Examples.issued1 in
  let mismatch := RoutesAuth.post_verify (P := Reference.accepting) Examples.E0
                    2000 (Examples.submit1 "wrong" Examples.sig64) d in
  let missing := RoutesAuth.post_verify (P := Reference.accepting) Examples.E0
                   2000 (Examples.submit1 "wrong" Examples.sig64) Prisma.empty in
  let expired := RoutesAuth.post_verify (P := Reference.accepting) Examples.E0
                   400000
                   (Examples.submit1 (fst Examples.issued1) Examples.sig64) d in
  fst (fst mismatch) = send 400 (ErrorJson "nonce invalid or expired") /\
  fst (fst missing) = fst (fst mismatch) /\
  fst (fst expired) = fst (fst mismatch) /\
  snd (fst mismatch) = [Console "[verify] nonce mismatch"] /\
  snd (fst missing) = [Console "[verify] no stored session"] /\
  snd (fst expired) = [Console "[verify] nonce expired"].
Proof.
  vm_compute. repeat split.
Qed.

(** C8 at work: a wrong nonce for [addr1], then the right one, in both
    implementations. *)
Lemma C8_witness :
  let out := AuthNonce.post_verify (P := Reference.accepting) "k" 2000 "u1" "w1"
               (Examples.submit "wrong" Examples.sig64) Examples.st1 in
  let out' := RoutesAuth.post_verify (P := Reference.accepting) Examples.E0 2000
                (Examples.submit1 "wrong" Examples.sig64)
                (snd Examples.issued1) in
  (out = (send 400 (ErrorJson "Nonce mismatch"), [], Examples.st1) /\
   status (fst (fst (AuthNonce.post_verify (P := Reference.accepting) "k" 3000
                       "u1" "w1" (Examples.submit "n1" Examples.sig64) (snd out))))
     = 200) /\
  (out' = (send 400 (ErrorJson "nonce invalid or expired"),
           [Console "[verify] nonce mismatch"], snd Examples.issued1) /\
   status (fst (fst (RoutesAuth.post_verify (P := Reference.accepting)
                       Examples.E0 3000
                       (Examples.submit1 (fst Examples.issued1) Examples.sig64)
                       (snd out')))) = 200).
Proof.
  intros out out'. split.
  - destruct (proj1 (@C8_mismatch_keeps_challenge Reference.accepting)
                "k" 2000 "u1" "w1" Examples.addr1 Examples.sig64 "wrong"
                Examples.st1 Examples.rec1 (Examples.zeros 32))
      as (Hout & _ & Hnext); [by_running .. |].
    split; [exact Hout|].
    apply (Hnext 3000 "u1" "w1" Examples.sig64 (Examples.zeros 64) "u1"
             (snd (AuthNonce.find_or_create_user 3000 "u1" "w1" Examples.addr1
                     (AuthNonce.db Examples.st1))));
      by_running.
  - destruct (proj2 (@C8_mismatch_keeps_challenge Reference.accepting)
                Examples.E0 2000 (Examples.submit1 "wrong" Examples.sig64)
                (snd Examples.issued1) Examples.row1)
      as (Hout & Hnext); [by_running .. |].
    split; [exact Hout|].
    apply Hnext; by_running.
Defined.

(** ** Address validation *)
Section AddressValidation.
Context {P : Platform}.

Lemma findUnique_upsert {row : Type} (id : row -> string) k
    (f : row -> row) (r : row) (t : list row) :
  (forall x, id (f x) = id x) -> id r = k ->
  Prisma.findUnique id k (Prisma.upsert id k f r t) =
    Some (match Prisma.findUnique id k t with Some x => f x | None => r end).
Proof.
  intros Hf Hr. unfold Prisma.upsert, Prisma.findUnique.
  induction t as [|x t IH]; simpl.
  - rewrite Hr, String.eqb_refl. reflexivity.
  - destruct (String.eqb (id x) k) eqn:Hx; simpl.
    + rewrite Hf, Hx. reflexivity.
    + destruct (List.find (fun r0 => String.eqb (id r0) k) t) eqn:Hfind;
        simpl; rewrite Hx; exact IH.
Qed.

(** C9, as amended.  auth-nonce.ts refuses a non-empty address that is
    not a valid public key with 400 "Invalid walletAddress" and stores
    nothing.  server.ts and routes/auth.ts do not validate the address:
    they refuse the empty one only (400, nothing stored) and issue a
    challenge for every other string, which routes/auth.ts also stores. *)
Theorem C9_address_validation :
  (forall now fresh req st a,
     AuthNonce.address_of req = Some a ->
     truthy a = true ->
     PublicKey a = None ->
     AuthNonce.post_nonce now fresh req st =
       (send 400 (ErrorJson "Invalid walletAddress"), [], st)) /\
  (forall E now nonce jti w,
     truthy (JWT_SECRET E) = true ->
     let wallet := String_trim (or_else w "") in
     let r := fst (Server.get_nonce E now nonce jti w) in
     (truthy wallet = false -> r = send 400 (ErrorJson "Missing wallet param")) /\
     (truthy wallet = true -> status r = 200 /\ nonce_of (json r) = Some nonce)) /\
  (forall now hex w d,
     let a := String_trim (or_else w "") in
     let out := RoutesAuth.get_nonce now hex w d in
     (truthy a = false ->
      out = (send 400 (ErrorJson "address is required"), [], d)) /\
     (truthy a = true ->
      status (fst (fst out)) = 200 /\
      exists row,
        Prisma.findUnique Prisma.s_id (RoutesAuth.nonce_key a)
          (Prisma.sessions (snd out)) = Some row /\
        nonce_of (json (fst (fst out))) = Some (Prisma.s_jwtId row))).
Proof.
  repeat apply conj.
  - intros now fresh req st a Ha Ht Hpk.
    unfold AuthNonce.post_nonce. rewrite Ha, Ht, Hpk. reflexivity.
  - intros E now nonce jti w Hsecret wallet r. subst wallet r.
    unfold Server.get_nonce, Server.signNonceCookie, jwt.sign.
    rewrite Hsecret.
    split; intros Hw; rewrite Hw; cbn [negb fst]; [reflexivity|].
    split; reflexivity.
  - intros now hex w d a out. subst a out.
    unfold RoutesAuth.get_nonce.
    split; intros Hw; rewrite Hw; cbn [negb fst snd]; [reflexivity|].
    unfold RoutesAuth.createAndStoreNonce. cbn [fst snd status send json
                                                Prisma.sessions nonce_of].
    split; [reflexivity|].
    rewrite findUnique_upsert by reflexivity.
    eexists. split; [reflexivity|].
    destruct (Prisma.findUnique _ _ _); reflexivity.
Qed.

End AddressValidation.

(** C9 fails as stated: ["0OIl"] is no public key, yet server.ts answers
    its challenge request with a nonce and routes/auth.ts stores a
    challenge under it. *)
Lemma C9_counterexample :
  let out := RoutesAuth.get_nonce (P := Reference.accepting) 1000 "00ff"
               (Some Examples.bad_addr) Prisma.empty in
  PublicKey (Platform := Reference.accepting) Examples.bad_addr = None /\
  status (fst (Server.get_nonce (P := Reference.accepting) Examples.E0 1000
                 "uuid-1" "jti-1" (Some Examples.bad_addr))) = 200 /\
  status (fst (fst out)) = 200 /\
  map Prisma.s_id (Prisma.sessions (snd out)) = ["nonce:0OIl"].
Proof. vm_compute. repeat split. Qed.

(** C9 as amended, on the same address sent to each implementation. *)
Lemma C9_witness :
  AuthNonce.post_nonce (P := Reference.accepting) 1000 "n1"
    {| AuthNonce.address := None;
       AuthNonce.walletAddress := Some Examples.bad_addr |} AuthNonce.init =
    (send 400 (ErrorJson "Invalid walletAddress"), [], AuthNonce.init) /\
  status (fst (Server.get_nonce (P := Reference.accepting) Examples.E0 1000
                 "uuid-1" "jti-1" (Some Examples.bad_addr))) = 200 /\
  status (fst (fst (RoutesAuth.get_nonce (P := Reference.accepting) 1000 "00ff"
                      (Some Examples.bad_addr) Prisma.empty))) = 200.
Proof.
  pose proof (@C9_address_validation Reference.accepting)
    as (Hauth & Hserver & Hroutes).
  repeat apply conj.
  - apply (Hauth 1000 "n1" _ AuthNonce.init Examples.bad_addr); by_running.
  - apply (Hserver Examples.E0 1000 "uuid-1" "jti-1" (Some Examples.bad_addr));
      by_running.
  - apply (Hroutes 1000 "00ff" (Some Examples.bad_addr) Prisma.empty).
    by_running.
Defined.

(** ** Status of a rejected signature *)
Section RejectedSignature.
Context {P : Platform}.

(** C10, as amended.  When the nonce checks pass and the signature check
    returns false, auth-nonce.ts and server.ts answer 401 "Invalid
    signature", a status they use for nothing else; routes/auth.ts
    answers 400 "invalid signature", the status of its other refusals. *)
Theorem C10_rejected_signature_status :
  (forall secret now uid wid a sg n st rec pub s,
     PublicKey a = Some pub ->
     AuthNonce.nonces st !! a = Some rec ->
     now <= AuthNonce.expiresAt rec ->
     AuthNonce.nonce rec = n ->
     bs58_decode sg = Some s ->
     nacl_sign_detached_verify (TextEncoder_encode n) s pub = Ret false ->
     fst (fst (AuthNonce.post_verify secret now uid wid
                 {| AuthNonce.v_address := Some a;
                    AuthNonce.v_signature := Some sg;
                    AuthNonce.v_nonce := Some n |} st)) =
       send 401 (ErrorJson "Invalid signature")) /\
  (forall secret now uid wid req st,
     status (fst (fst (AuthNonce.post_verify secret now uid wid req st))) = 401 ->
     json (fst (fst (AuthNonce.post_verify secret now uid wid req st))) =
       ErrorJson "Invalid signature") /\
  (forall E now jti userId walletId run req m sg enc pk,
     truthy (Server.walletAddress_of req) = true ->
     Server.choose_message E now (Server.walletAddress_of req)
       (Server.bodyMessage_of req) (Server.nonce_cookie req) = inr (Some m) ->
     truthy m = true ->
     Server.decode_signature req = inr (sg, enc) ->
     bs58_decode (Server.walletAddress_of req) = Some pk ->
     nacl_sign_detached_verify (TextEncoder_encode m) sg pk = Ret false ->
     fst (Server.post_verify E now jti userId walletId run req) =
       send 401 (ErrorJson "Invalid signature")) /\
  (forall E now jti userId walletId run req,
     status (fst (Server.post_verify E now jti userId walletId run req)) = 401 ->
     json (fst (Server.post_verify E now jti userId walletId run req)) =
       ErrorJson "Invalid signature") /\
  (forall E now req d stored,
     present (RoutesAuth.address req) = true ->
     present (RoutesAuth.nonce req) = true ->
     (present (RoutesAuth.signatureBase64 req) ||
      present (RoutesAuth.signature58 req)) = true ->
     Prisma.findUnique Prisma.s_id
       (RoutesAuth.nonce_key (or_else (RoutesAuth.address req) ""))
       (Prisma.sessions d) = Some stored ->
     Prisma.s_jwtId stored = or_else (RoutesAuth.nonce req) "" ->
     now <= Prisma.s_expiresAt stored ->
     fst (RoutesAuth.check_signatures (or_else (RoutesAuth.address req) "")
            (or_else (RoutesAuth.nonce req) "") req) = false ->
     fst (fst (RoutesAuth.post_verify E now req d)) =
       send 400 (ErrorJson "invalid signature")).
Proof.
  repeat apply conj.
  - intros secret now uid wid a sg n st rec pub s Hpk Hrec Hlive Hn Hs Hsig.
    unfold AuthNonce.post_verify.
    cbn [AuthNonce.v_address AuthNonce.v_signature AuthNonce.v_nonce].
    rewrite Hpk, Hrec.
    replace (AuthNonce.expiresAt rec <? now) with false
      by (symmetry; apply Z.ltb_ge; exact Hlive).
    rewrite Hn, String.eqb_refl. cbn [negb]. rewrite Hs, Hsig. reflexivity.
  - intros secret now uid wid req st.
    unfold AuthNonce.post_verify, AuthNonce.caught, send.
    repeat case_match; cbn [fst status json]; intros Hst;
      try discriminate; reflexivity.
  - intros E now jti userId walletId run req m sg enc pk
           Hwa Hmsg Hm Hdec Hpk Hsig.
    assert (Hlen : (length sg <? 64)%nat = false).
    { destruct (nacl_size _ _ _ _ Hsig) as [Hl _]. rewrite Hl. reflexivity. }
    unfold Server.post_verify.
    rewrite Hwa. cbn [negb]. rewrite Hmsg. unfold present. cbn [or_else].
    rewrite Hm. cbn [negb]. rewrite Hm, Hdec, Hlen, Hpk, Hsig. reflexivity.
  - intros E now jti userId walletId run req.
    unfold Server.post_verify, Server.choose_message, Server.decode_signature,
      send.
    repeat case_match; simplify_eq; cbn [fst status json]; intros Hst;
      try discriminate; reflexivity.
  - intros E now req d stored Ha Hn Hs Hfind Heq Hlive Hck.
    unfold RoutesAuth.post_verify.
    rewrite Ha, Hn, Hs. cbn [andb negb]. rewrite Hfind, Heq, String.eqb_refl.
    cbn [negb].
    replace (Prisma.s_expiresAt stored <? now) with false
      by (symmetry; apply Z.ltb_ge; exact Hlive).
    destruct (RoutesAuth.check_signatures _ _ req) as [ok tr].
    cbn [fst] in Hck. subst ok. reflexivity.
Qed.

End RejectedSignature.

(** C10 fails as stated: routes/auth.ts reports the rejected signature of
    a submission whose nonce checks passed with status 400, not 401. *)
Lemma C10_counterexample :
  let out := RoutesAuth.post_verify (P := Reference.rejecting) Examples.E0 2000
               (Examples.submit1 (fst Examples.issued1) Examples.sig64)
               (snd Examples.issued1) in
  fst out =
    (send 400 (ErrorJson "invalid signature"),
     [NaclVerify (TextEncoder_encode (fst Examples.issued1))
        (repeat Byte.x00 64) (repeat Byte.x00 32);
      Console "[verify] invalid signature"]) /\
  status (fst (fst out)) <> 401.
Proof. vm_compute. split; [reflexivity | discriminate]. Qed.

(** C10 as amended, on a rejected signature sent to each implementation. *)
Lemma C10_witness :
  fst (fst (AuthNonce.post_verify (P := Reference.rejecting) "k" 2000 "u1" "w1"
              (Examples.submit "n1" Examples.sig64) Examples.st1)) =
    send 401 (ErrorJson "Invalid signature") /\
  fst (Server.post_verify (P := Reference.rejecting) Examples.E0 1000 "j1" "u1"
         "w1" Server.NoClient
         (Examples.server_req (Some Examples.sig64) None "n1")) =
    send 401 (ErrorJson "Invalid signature") /\
  fst (fst (RoutesAuth.post_verify (P := Reference.rejecting) Examples.E0 2000
              (Examples.submit1 (fst Examples.issued1) Examples.sig64)
              (snd Examples.issued1))) =
    send 400 (ErrorJson "invalid signature").
Proof.
  pose proof (@C10_rejected_signature_status Reference.rejecting)
    as (Hauth & _ & Hserver & _ & Hroutes).
  repeat apply conj.
  - apply (Hauth "k" 2000 "u1" "w1" Examples.addr1 Examples.sig64 "n1"
             Examples.st1 Examples.rec1 (Examples.zeros 32) (Examples.zeros 64));
      by_running.
  - apply (Hserver Examples.E0 1000 "j1" "u1" "w1" Server.NoClient _ "n1"
             (Examples.zeros 64) EncBase58 (Examples.zeros 32)); by_running.
  - apply (Hroutes Examples.E0 2000 _ (snd Examples.issued1) Examples.row1);
      by_running.
Defined.

(** * Further properties of the code *)

(** ** No token without a verified signature *)
Section Soundness.
Context {P : Platform}.

(** X1.  auth-nonce.ts answers 200 only to a submission whose address has
    a stored, unexpired challenge equal to the submitted nonce and whose
    base58 signature the verifier accepted over the bytes of that nonce
    under the key of the address; the verifier was called exactly once,
    and the cookie carries a token for that address valid for seven
    days. *)
Theorem X1_auth_nonce_success_is_verified secret now uid wid req st r tr st' :
  AuthNonce.post_verify secret now uid wid req st = (r, tr, st') ->
  status r = 200 ->
  exists a sg n pub rec s userId token,
    AuthNonce.v_address req = Some a /\
    AuthNonce.v_signature req = Some sg /\
    AuthNonce.v_nonce req = Some n /\
    PublicKey a = Some pub /\
    AuthNonce.nonces st !! a = Some rec /\
    AuthNonce.nonce rec = n /\
    now <= AuthNonce.expiresAt rec /\
    bs58_decode sg = Some s /\
    length s = 64%nat /\
    nacl_sign_detached_verify (TextEncoder_encode n) s pub = Ret true /\
    tr = [NaclVerify (TextEncoder_encode n) s pub] /\
    issued_token r = Some token /\
    jwt.payload token = jwt.SubAddrClaims userId a /\
    jwt.exp token = now / 1000 + 7 * 24 * 60 * 60.
Proof.
  unfold AuthNonce.post_verify, AuthNonce.caught, send.
  intros Hrun Hok.
  repeat case_match; simplify_eq; cbn [status] in Hok; try discriminate.
  match goal with
  | Hs : jwt.sign _ _ _ _ _ = Ret _ |- _ =>
      unfold jwt.sign in Hs; case_match; simplify_eq
  end.
  match goal with
  | Hv : nacl_sign_detached_verify _ _ _ = Ret true |- _ =>
      pose proof (nacl_size _ _ _ _ Hv) as [Hlen _]
  end.
  repeat match goal with
  | Hn : negb (String.eqb _ _) = false |- _ =>
      apply negb_false_iff, String.eqb_eq in Hn
  | Hl : (_ <? _) = false |- _ => apply Z.ltb_ge in Hl
  end.
  subst.
  do 8 eexists.
  repeat (split; [first [eassumption | reflexivity]|]).
  cbn. unfold jwt.days. lia.
Qed.

(** The helpers of utils/solana.ts return true only after the verifier
    has accepted the decoded signature over the bytes of the message
    under the key of the address. *)
Lemma verifySolanaSignatureBase58_true address message sg tr :
  Solana.verifySolanaSignatureBase58 address message sg = (Ret true, tr) ->
  exists pub s,
    PublicKey address = Some pub /\ bs58_decode sg = Some s /\
    nacl_sign_detached_verify (TextEncoder_encode message) s pub = Ret true /\
    tr = [NaclVerify (TextEncoder_encode message) s pub].
Proof.
  unfold Solana.verifySolanaSignatureBase58.
  intros H. repeat case_match; simplify_eq. eauto 10.
Qed.

Lemma verifySolanaSignatureBase64_true address message sg tr :
  Solana.verifySolanaSignatureBase64 address message sg = (Ret true, tr) ->
  exists pub s,
    PublicKey address = Some pub /\ atob_bytes sg = Some s /\
    nacl_sign_detached_verify (TextEncoder_encode message) s pub = Ret true /\
    tr = [NaclVerify (TextEncoder_encode message) s pub].
Proof.
  unfold Solana.verifySolanaSignatureBase64.
  intros H. repeat case_match; simplify_eq. eauto 10.
Qed.

Lemma check_signatures_true addr n req tr :
  RoutesAuth.check_signatures addr n req = (true, tr) ->
  exists pub s,
    PublicKey addr = Some pub /\
    nacl_sign_detached_verify (TextEncoder_encode n) s pub = Ret true /\
    In (NaclVerify (TextEncoder_encode n) s pub) tr /\
    ((present (RoutesAuth.signatureBase64 req) = true /\
      atob_bytes (or_else (RoutesAuth.signatureBase64 req) "") = Some s) \/
     (present (RoutesAuth.signature58 req) = true /\
      bs58_decode (or_else (RoutesAuth.signature58 req) "") = Some s)).
Proof.
  unfold RoutesAuth.check_signatures. intros H.
  destruct (present (RoutesAuth.signatureBase64 req)) eqn:H64.
  - destruct (Solana.verifySolanaSignatureBase64 addr n
                (or_else (RoutesAuth.signatureBase64 req) "")) as [[[|]|e] t1] eqn:Hb64.
    + simpl in H. simplify_eq.
      destruct (verifySolanaSignatureBase64_true _ _ _ _ Hb64)
        as (pub & s & Hpk & Hs & Hv & ->).
      exists pub, s. repeat split; auto. left. reflexivity.
    + simpl in H.
      destruct (present (RoutesAuth.signature58 req)) eqn:H58; [|simplify_eq].
      destruct (Solana.verifySolanaSignatureBase58 addr n
                  (or_else (RoutesAuth.signature58 req) "")) as [[ok2|e] t2] eqn:Hb58;
        simplify_eq.
      destruct (verifySolanaSignatureBase58_true _ _ _ _ Hb58)
        as (pub & s & Hpk & Hs & Hv & ->).
      exists pub, s. repeat split; auto.
      apply in_or_app. right. left. reflexivity.
    + simplify_eq.
  - simpl in H.
    destruct (present (RoutesAuth.signature58 req)) eqn:H58; [|simplify_eq].
    destruct (Solana.verifySolanaSignatureBase58 addr n
                (or_else (RoutesAuth.signature58 req) "")) as [[ok2|e] t2] eqn:Hb58;
      simplify_eq.
    destruct (verifySolanaSignatureBase58_true _ _ _ _ Hb58)
      as (pub & s & Hpk & Hs & Hv & ->).
    exists pub, s. repeat split; auto. left. reflexivity.
Qed.

(** X2.  routes/auth.ts answers 200 only when the session row of the
    address holds the submitted nonce and has not expired, and one of the
    signatures of the request, [signatureBase64] decoded as base64 or
    [signature58] decoded as base58, was accepted by the verifier over the
    bytes of that nonce under the key of the address; the token is issued
    to that address with the role its admin check gives. *)
Theorem X2_routes_auth_success_is_verified E now req d r tr d' :
  RoutesAuth.post_verify E now req d = (r, tr, d') ->
  status r = 200 ->
  let addr := or_else (RoutesAuth.address req) "" in
  let n := or_else (RoutesAuth.nonce req) "" in
  exists stored pub s token,
    Prisma.findUnique Prisma.s_id (RoutesAuth.nonce_key addr) (Prisma.sessions d)
      = Some stored /\
    Prisma.s_jwtId stored = n /\
    now <= Prisma.s_expiresAt stored /\
    PublicKey addr = Some pub /\
    ((present (RoutesAuth.signatureBase64 req) = true /\
      atob_bytes (or_else (RoutesAuth.signatureBase64 req) "") = Some s) \/
     (present (RoutesAuth.signature58 req) = true /\
      bs58_decode (or_else (RoutesAuth.signature58 req) "") = Some s)) /\
    length s = 64%nat /\
    nacl_sign_detached_verify (TextEncoder_encode n) s pub = Ret true /\
    In (NaclVerify (TextEncoder_encode n) s pub) tr /\
    issued_token r = Some token /\
    jwt.payload token =
      jwt.UidClaims addr addr
        (if RoutesAuth.isAdmin E addr then Some "ADMIN" else None).
Proof.
  intros Hrun Hok. cbv zeta. unfold RoutesAuth.post_verify, send in Hrun.
  destruct (present (RoutesAuth.address req) && present (RoutesAuth.nonce req) &&
            (present (RoutesAuth.signatureBase64 req)
             || present (RoutesAuth.signature58 req)));
    cbn [negb] in Hrun; [|simplify_eq; discriminate].
  destruct (Prisma.findUnique Prisma.s_id _ _) as [stored|] eqn:Hfind;
    [|simplify_eq; discriminate].
  destruct (negb (String.eqb (Prisma.s_jwtId stored) _)) eqn:Hn;
    [simplify_eq; discriminate|].
  destruct (Prisma.s_expiresAt stored <? now) eqn:Hexp;
    [simplify_eq; discriminate|].
  destruct (RoutesAuth.check_signatures _ _ req) as [[|] t] eqn:Hck;
    cbn [negb] in Hrun; [|simplify_eq; discriminate].
  destruct (Middleware.issueJWT _ _ _ _ _) as [token|e] eqn:Htok;
    simplify_eq; try discriminate.
  destruct (check_signatures_true _ _ _ _ Hck)
    as (pub & s & Hpk & Hv & Hin & Hreq).
  apply negb_false_iff, String.eqb_eq in Hn. apply Z.ltb_ge in Hexp.
  exists stored, pub, s, token.
  split; [reflexivity|]. split; [exact Hn|]. split; [exact Hexp|].
  split; [exact Hpk|]. split; [exact Hreq|].
  split; [apply (nacl_size _ _ _ _ Hv)|].
  split; [exact Hv|].
  split; [apply in_or_app; left; exact Hin|].
  split; [reflexivity|].
  unfold Middleware.issueJWT, jwt.sign in Htok.
  repeat case_match; simplify_eq; reflexivity.
Qed.

(** X3.  server.ts answers 200 only when the verifier accepted the decoded
    signature, of exactly 64 bytes, over the bytes of the chosen message
    under the base58-decoded wallet address; the token names the user and
    wallet ids drawn for the request. *)
Theorem X3_server_success_is_verified E now jti userId walletId run req :
  let out := Server.post_verify E now jti userId walletId run req in
  status (fst out) = 200 ->
  exists m sg enc pk token,
    Server.choose_message E now (Server.walletAddress_of req)
      (Server.bodyMessage_of req) (Server.nonce_cookie req) = inr (Some m) /\
    Server.decode_signature req = inr (sg, enc) /\
    bs58_decode (Server.walletAddress_of req) = Some pk /\
    length sg = 64%nat /\
    nacl_sign_detached_verify (TextEncoder_encode m) sg pk = Ret true /\
    In (NaclVerify (TextEncoder_encode m) sg pk) (snd out) /\
    issued_token (fst out) = Some token /\
    jwt.payload token = jwt.AuthClaims userId walletId.
Proof.
  intros out. subst out. unfold Server.post_verify.
  destruct (negb (truthy (Server.walletAddress_of req)));
    [intros Hok; cbv [status fst send] in Hok; discriminate|].
  destruct (Server.choose_message _ _ _ _ _) as [r0|[m|]] eqn:Hmsg.
  - intros Hok. exfalso. unfold Server.choose_message in Hmsg.
    repeat case_match; simplify_eq; cbv [status fst send] in Hok;
      try discriminate.
  - unfold present. cbn [or_else].
    destruct (truthy m) eqn:Hm;
      [|intros Hok; cbv in Hok; discriminate].
    rewrite !Hm. cbn [negb].
    destruct (Server.decode_signature req) as [r0|[sg enc]] eqn:Hdec.
    { intros Hok. exfalso.
      unfold Server.decode_signature, Server.decodeBase64 in Hdec.
      repeat case_match; simplify_eq; cbv [status fst send] in Hok;
        try discriminate. }
    destruct (length sg <? 64)%nat;
      [intros Hok; cbv [status fst send] in Hok; discriminate|].
    destruct (bs58_decode _) as [pk|];
      [|intros Hok; cbv [status fst send] in Hok; discriminate].
    destruct (nacl_sign_detached_verify _ sg pk) as [[|]|e] eqn:Hv;
      [|intros Hok; cbv [status fst send] in Hok; discriminate..].
    destruct (jwt.sign _ _ _ _ _) as [token|e] eqn:Htok;
      [|intros Hok; cbv [status fst send] in Hok; discriminate].
    destruct (Server.persist E run) as [db tdb]. intros _.
    exists m, sg, enc, pk, token. cbn [fst snd].
    split; [reflexivity|]. split; [reflexivity|]. split; [reflexivity|].
    split; [apply (nacl_size _ _ _ _ Hv)|].
    split; [exact Hv|].
    split; [left; reflexivity|].
    split; [reflexivity|].
    unfold jwt.sign in Htok. case_match; simplify_eq. reflexivity.
  - intros Hok. cbv [status fst send present or_else truthy negb String.eqb] in Hok.
    discriminate.
Qed.

End Soundness.

(** X1 to X3 at work, on the successful submissions for [addr1]. *)
Lemma X1_witness :
  exists s pub,
    nacl_sign_detached_verify (Platform := Reference.accepting)
      (TextEncoder_encode "n1") s pub = Ret true /\
    length s = 64%nat.
Proof.
  destruct (@X1_auth_nonce_success_is_verified Reference.accepting
              "k" 2000 "u1" "w1" (Examples.submit "n1" Examples.sig64)
              Examples.st1
              (fst (fst (AuthNonce.post_verify (P := Reference.accepting) "k"
                           2000 "u1" "w1" (Examples.submit "n1" Examples.sig64)
                           Examples.st1)))
              (snd (fst (AuthNonce.post_verify (P := Reference.accepting) "k"
                           2000 "u1" "w1" (Examples.submit "n1" Examples.sig64)
                           Examples.st1)))
              (snd (AuthNonce.post_verify (P := Reference.accepting) "k"
                      2000 "u1" "w1" (Examples.submit "n1" Examples.sig64)
                      Examples.st1)))
    as (a & sg & n & pub & rec & s & userId & token & _ & _ & Hn & _ & _
        & _ & _ & _ & Hlen & Hv & _); [by_running .. |].
  injection Hn as <-.
  exists s, pub. split; [exact Hv | exact Hlen].
Defined.

Lemma X2_witness :
  exists stored s,
    Prisma.findUnique Prisma.s_id (RoutesAuth.nonce_key Examples.addr1)
      (Prisma.sessions (snd Examples.issued1)) = Some stored /\
    Prisma.s_jwtId stored = fst Examples.issued1 /\
    bs58_decode (Platform := Reference.accepting) Examples.sig64 = Some s.
Proof.
  destruct (@X2_routes_auth_success_is_verified Reference.accepting
              Examples.E0 2000
              (Examples.submit1 (fst Examples.issued1) Examples.sig64)
              (snd Examples.issued1)
              (fst (fst (RoutesAuth.post_verify (P := Reference.accepting)
                           Examples.E0 2000
                           (Examples.submit1 (fst Examples.issued1) Examples.sig64)
                           (snd Examples.issued1))))
              (snd (fst (RoutesAuth.post_verify (P := Reference.accepting)
                           Examples.E0 2000
                           (Examples.submit1 (fst Examples.issued1) Examples.sig64)
                           (snd Examples.issued1))))
              (snd (RoutesAuth.post_verify (P := Reference.accepting)
                      Examples.E0 2000
                      (Examples.submit1 (fst Examples.issued1) Examples.sig64)
                      (snd Examples.issued1))))
    as (stored & pub & s & token & Hfind & Hn & _ & _ & Hreq & _);
    [by_running .. |].
  exists stored, s. split; [exact Hfind|]. split; [exact Hn|].
  destruct Hreq as [[Hp _]|[_ Hs]]; [vm_compute in Hp; discriminate|].
  exact Hs.
Defined.

Lemma X3_witness :
  exists m sg pk,
    nacl_sign_detached_verify (Platform := Reference.accepting)
      (TextEncoder_encode m) sg pk = Ret true /\
    length sg = 64%nat.
Proof.
  destruct (@X3_server_success_is_verified Reference.accepting Examples.E0
              1000 "j1" "u1" "w1" Server.NoClient
              (Examples.server_req (Some Examples.sig64) None "anything"))
    as (m & sg & enc & pk & token & _ & _ & _ & Hlen & Hv & _); [by_running|].
  exists m, sg, pk. split; [exact Hv | exact Hlen].
Defined.

(** ** What auth-nonce.ts keeps in its map and its database *)
Section AuthNonceInvariants.
Context {P : Platform}.
Variable secret : string.


Lemma provenance_grows hist hist' st :
  provenance hist st -> (forall r, In r hist -> In r hist') ->
  provenance hist' st.
Proof.
  intros Hp Hsub a rec Hrec.
  destruct (Hp a rec Hrec) as (Ht & Hpk & now & fresh & req & Hin & Ha & ->).
  split; [exact Ht|]. split; [exact Hpk|]. eauto 10.
Qed.

Lemma provenance_step hist r st :
  provenance hist st ->
  provenance (hist ++ [r]) (snd (AuthNonce.handle secret r st)).
Proof.
  intros Hp.
  assert (Hold : provenance (hist ++ [r]) st)
    by (eapply provenance_grows; [exact Hp | intros; apply in_or_app; auto]).
  destruct r as [now fresh req | now uid wid req]; cbn [AuthNonce.handle].
  - unfold AuthNonce.post_nonce.
    destruct (AuthNonce.address_of req) as [a'|] eqn:Ha'; [|exact Hold].
    destruct (truthy a') eqn:Ht; cbn [negb]; [|exact Hold].
    destruct (PublicKey a') as [pk|] eqn:Hpk; [|exact Hold].
    assert (Hnew : provenance (hist ++ [AuthNonce.PostNonce now fresh req])
              {| AuthNonce.nonces :=
                   <[a' := {| AuthNonce.nonce := fresh;
                              AuthNonce.expiresAt := now + AuthNonce.NONCE_TTL_MS |}]>
                     (AuthNonce.nonces st);
                 AuthNonce.db := AuthNonce.db st |}).
    { intros a rec. cbn [AuthNonce.nonces].
      destruct (decide (a' = a)) as [->|Hne].
      - rewrite lookup_insert_eq. intros Hrec. simplify_eq.
        split; [exact Ht|]. split; [eauto|].
        exists now, fresh, req.
        split; [apply in_or_app; right; left; reflexivity|].
        split; [exact Ha' | reflexivity].
      - rewrite lookup_insert_ne by done. apply Hold. }
    destruct (AuthNonce.nonces st !! a') as [ex|];
      [destruct (now <? AuthNonce.expiresAt ex)|]; cbn [snd];
      first [exact Hold | exact Hnew].
  - pose proof (AuthNonce_verify_nonces secret now uid wid req st) as Hv.
    cbv zeta in Hv.
    intros a rec Hrec.
    destruct Hv as [Hsame | (a' & _ & Hdel & _)].
    + rewrite Hsame in Hrec. apply Hold. exact Hrec.
    + rewrite Hdel in Hrec. apply lookup_delete_Some in Hrec as [_ Hrec].
      apply Hold. exact Hrec.
Qed.

Lemma provenance_run rs : forall hist st,
  provenance hist st ->
  provenance (hist ++ rs) (AuthNonce.run secret rs st).
Proof.
  induction rs as [|r rs IH]; intros hist st Hp; cbn [AuthNonce.run].
  - rewrite app_nil_r. exact Hp.
  - replace (hist ++ r :: rs) with ((hist ++ [r]) ++ rs)
      by (rewrite <- app_assoc; reflexivity).
    apply IH, provenance_step, Hp.
Qed.

(** X4.  Whatever requests auth-nonce.ts has served since start-up, every
    record in its nonce map sits under a non-empty address that is a
    valid public key, and was written by one of the challenge requests
    served: its nonce is the one drawn for that request and it expires
    exactly [NONCE_TTL_MS] after it. *)
Theorem X4_stored_challenges_come_from_requests rs a rec :
  AuthNonce.nonces (AuthNonce.run secret rs AuthNonce.init) !! a = Some rec ->
  truthy a = true /\ is_Some (PublicKey a) /\
  exists now fresh req,
    In (AuthNonce.PostNonce now fresh req) rs /\
    AuthNonce.address_of req = Some a /\
    AuthNonce.nonce rec = fresh /\
    AuthNonce.expiresAt rec = now + 5 * 60 * 1000.
Proof.
  intros Hrec.
  assert (Hinit : provenance [] AuthNonce.init).
  { intros a0 rec0 H0. cbn [AuthNonce.init AuthNonce.nonces] in H0.
    rewrite lookup_empty in H0. discriminate. }
  destruct (provenance_run rs [] AuthNonce.init Hinit a rec Hrec)
    as (Ht & Hpk & now & fresh & req & Hin & Ha & ->).
  split; [exact Ht|]. split; [exact Hpk|].
  exists now, fresh, req. cbn [app] in Hin.
  repeat split; auto.
Qed.

(** *** Users and wallets *)

Lemma find_None_not_in {A : Type} (key : A -> string) k (l : list A) :
  List.find (fun x => String.eqb (key x) k) l = None -> ~ In k (map key l).
Proof.
  induction l as [|x l IH]; cbn; [tauto|].
  destruct (String.eqb_spec (key x) k) as [Heq|Hne]; [discriminate|].
  intros Hf [Hx|Hin]; [congruence | exact (IH Hf Hin)].
Qed.

Lemma NoDup_snoc {A : Type} (l : list A) x :
  NoDup l -> ~ In x l -> NoDup (l ++ [x]).
Proof.
  intros Hnd Hx. apply NoDup_app. split; [exact Hnd|]. split.
  - intros y Hy Hin. apply list_elem_of_singleton in Hin. subst y.
    apply Hx. apply list_elem_of_In. exact Hy.
  - apply NoDup_singleton.
Qed.

Lemma find_or_create_user_consistent now uid wid a d :
  wallets_consistent d ->
  wallets_consistent (snd (AuthNonce.find_or_create_user now uid wid a d)).
Proof.
  intros (Hu & Hw & Ha & Href).
  unfold AuthNonce.find_or_create_user, Prisma.wallet_findFirst, Prisma.create,
    Prisma.findUnique.
  destruct (List.find (fun w => String.eqb (Prisma.w_address w) a) _) eqn:Hfa;
    [repeat split; assumption|].
  cbn [Prisma.u_id].
  destruct (List.find (fun r => String.eqb (Prisma.u_id r) uid) _) eqn:Hfu;
    [repeat split; assumption|].
  cbn [Prisma.wallets Prisma.w_id].
  apply find_None_not_in in Hfa, Hfu.
  assert (Hu' : NoDup (map Prisma.u_id
                         (Prisma.users d ++
                          [{| Prisma.u_id := uid; Prisma.u_createdAt := now;
                              Prisma.u_updatedAt := now |}]))).
  { rewrite map_app. apply NoDup_snoc; assumption. }
  destruct (List.find (fun r => String.eqb (Prisma.w_id r) wid) _) eqn:Hfw; cbn [snd].
  - split; [exact Hu'|]. split; [exact Hw|]. split; [exact Ha|].
    cbn [Prisma.wallets Prisma.users]. intros w' Hin.
    rewrite map_app. apply in_or_app. left. apply Href, Hin.
  - apply find_None_not_in in Hfw.
    split; [exact Hu'|]. cbn [Prisma.wallets Prisma.users].
    split; [rewrite map_app; apply NoDup_snoc; assumption|].
    split; [rewrite map_app; apply NoDup_snoc; assumption|].
    intros w' Hin. rewrite map_app. apply in_or_app.
    apply in_app_or in Hin as [Hin|[<-|[]]].
    + left. apply Href, Hin.
    + right. left. reflexivity.
Qed.

(** What [/auth/verify] can do to the database: nothing, or what "find or
    create user" does for the submitted address. *)
Lemma AuthNonce_verify_db now uid wid req st :
  AuthNonce.db (snd (AuthNonce.post_verify secret now uid wid req st))
    = AuthNonce.db st \/
  exists a,
    AuthNonce.v_address req = Some a /\
    AuthNonce.db (snd (AuthNonce.post_verify secret now uid wid req st))
      = snd (AuthNonce.find_or_create_user now uid wid a (AuthNonce.db st)).
Proof.
  unfold AuthNonce.post_verify.
  repeat case_match; cbn [snd AuthNonce.db]; auto;
    right; eexists; (split; [reflexivity|]);
    match goal with H : AuthNonce.find_or_create_user _ _ _ _ _ = _ |- _ =>
      rewrite H end; reflexivity.
Qed.

Lemma AuthNonce_post_nonce_db now fresh req st :
  AuthNonce.db (snd (AuthNonce.post_nonce now fresh req st)) = AuthNonce.db st.
Proof.
  unfold AuthNonce.post_nonce. repeat case_match; reflexivity.
Qed.

Lemma AuthNonce_handle_consistent r st :
  wallets_consistent (AuthNonce.db st) ->
  wallets_consistent (AuthNonce.db (snd (AuthNonce.handle secret r st))).
Proof.
  intros Hc. destruct r as [now fresh req | now uid wid req];
    cbn [AuthNonce.handle].
  - rewrite AuthNonce_post_nonce_db. exact Hc.
  - destruct (AuthNonce_verify_db now uid wid req st) as [-> | (a & _ & ->)];
      [exact Hc | apply find_or_create_user_consistent, Hc].
Qed.

(** *** Users and wallets on the event loop *)

Lemma task_consistent_grows d d' t :
  (forall x, In x (map Prisma.u_id (Prisma.users d)) ->
             In x (map Prisma.u_id (Prisma.users d'))) ->
  task_consistent d t -> task_consistent d' t.
Proof.
  intros Hsub. destruct t as [| | | ? ? ? [user|e] | | |]; cbn; auto.
Qed.

Lemma AuthNonceLoop_advance_consistent now t st :
  ids_consistent (AuthNonce.db st) ->
  task_consistent (AuthNonce.db st) t ->
  let out := AuthNonceLoop.advance secret now t st in
  ids_consistent (AuthNonce.db (snd out)) /\
  task_consistent (AuthNonce.db (snd out)) (fst out) /\
  (forall x, In x (map Prisma.u_id (Prisma.users (AuthNonce.db st))) ->
             In x (map Prisma.u_id (Prisma.users (AuthNonce.db (snd out))))).
Proof.
  intros (Hu & Hw & Href) Ht. cbv zeta.
  destruct t as [uid wid a tr | uid wid a tr [w|] | wid a tr data
                 | wid a tr [user|e] | a userId tr data | a userId tr [[]|e]
                 | r tr];
    cbn [AuthNonceLoop.advance AuthNonceLoop.settle AuthNonceLoop.resume];
    try (cbn [fst snd AuthNonce.db task_consistent]; repeat split; auto; fail).
  - unfold AuthNonceLoop.finish.
    destruct (jwt.sign _ _ _ _ _);
      cbn [fst snd AuthNonce.db task_consistent]; repeat split; auto.
  - unfold Prisma.create, Prisma.findUnique.
    destruct (List.find _ (Prisma.users (AuthNonce.db st))) eqn:Hf;
      unfold ids_consistent;
      cbn [fst snd AuthNonce.db task_consistent Prisma.users Prisma.wallets];
      [repeat split; auto|].
    apply find_None_not_in in Hf.
    split; [|split].
    + split; [rewrite map_app; apply NoDup_snoc; assumption|].
      split; [exact Hw|]. intros w Hin. rewrite map_app. apply in_or_app.
      left. apply Href, Hin.
    + rewrite map_app. apply in_or_app. right. left. reflexivity.
    + intros x Hx. rewrite map_app. apply in_or_app. left. exact Hx.
  - unfold Prisma.create, Prisma.findUnique.
    destruct (List.find _ (Prisma.wallets (AuthNonce.db st))) eqn:Hf;
      unfold ids_consistent;
      cbn [fst snd AuthNonce.db task_consistent Prisma.users Prisma.wallets];
      [repeat split; auto|].
    apply find_None_not_in in Hf. cbn [task_consistent] in Ht.
    split; [|split; [exact I | auto]].
    split; [exact Hu|].
    split; [rewrite map_app; apply NoDup_snoc; assumption|].
    intros w Hin. apply in_app_or in Hin as [Hin|[<-|[]]];
      [apply Href, Hin | exact Ht].
  - unfold AuthNonceLoop.finish.
    destruct (jwt.sign _ _ _ _ _);
      cbn [fst snd AuthNonce.db task_consistent]; repeat split; auto.
Qed.

Lemma AuthNonceLoop_exec_consistent e s :
  ids_consistent (AuthNonce.db (AuthNonceLoop.store s)) ->
  Forall (task_consistent (AuthNonce.db (AuthNonceLoop.store s)))
    (AuthNonceLoop.handlers s) ->
  ids_consistent
    (AuthNonce.db (AuthNonceLoop.store (AuthNonceLoop.exec secret e s))) /\
  Forall (task_consistent
            (AuthNonce.db (AuthNonceLoop.store (AuthNonceLoop.exec secret e s))))
    (AuthNonceLoop.handlers (AuthNonceLoop.exec secret e s)).
Proof.
  intros Hd Hts.
  destruct e as [now fresh req | now uid wid req | i now];
    cbn [AuthNonceLoop.exec].
  - cbn [AuthNonceLoop.store AuthNonceLoop.handlers].
    rewrite AuthNonce_post_nonce_db. split; assumption.
  - assert (Hb : AuthNonce.db (snd (AuthNonceLoop.begin now uid wid req
                                     (AuthNonceLoop.store s)))
                 = AuthNonce.db (AuthNonceLoop.store s) /\
                 forall d, task_consistent d
                             (fst (AuthNonceLoop.begin now uid wid req
                                     (AuthNonceLoop.store s)))).
    { unfold AuthNonceLoop.begin.
      repeat case_match; cbn [fst snd AuthNonce.db task_consistent]; auto. }
    destruct (AuthNonceLoop.begin now uid wid req (AuthNonceLoop.store s))
      as [t st'].
    cbn [fst snd AuthNonceLoop.store AuthNonceLoop.handlers] in *.
    destruct Hb as [-> Ht]. split; [exact Hd|].
    apply Forall_app_2; [exact Hts|]. constructor; [apply Ht | constructor].
  - destruct (AuthNonceLoop.handlers s !! i) as [t|] eqn:Hi;
      [|split; assumption].
    pose proof (AuthNonceLoop_advance_consistent now t (AuthNonceLoop.store s)
                  Hd (Forall_lookup_1 _ _ _ _ Hts Hi)) as (Hd' & Ht' & Hsub).
    destruct (AuthNonceLoop.advance secret now t (AuthNonceLoop.store s))
      as [t' st'].
    cbn [fst snd AuthNonceLoop.store AuthNonceLoop.handlers] in *.
    split; [exact Hd'|].
    apply Forall_insert; [|exact Ht'].
    eapply Forall_impl; [exact Hts|].
    intros t0. apply task_consistent_grows, Hsub.
Qed.

Lemma AuthNonceLoop_run_consistent es : forall s,
  ids_consistent (AuthNonce.db (AuthNonceLoop.store s)) ->
  Forall (task_consistent (AuthNonce.db (AuthNonceLoop.store s)))
    (AuthNonceLoop.handlers s) ->
  ids_consistent
    (AuthNonce.db (AuthNonceLoop.store (AuthNonceLoop.run secret es s))).
Proof.
  induction es as [|e es IH]; intros s Hd Hts; cbn [AuthNonceLoop.run];
    [exact Hd|].
  destruct (AuthNonceLoop_exec_consistent e s Hd Hts) as [Hd' Hts'].
  apply IH; assumption.
Qed.

(** Turns of a system with two handlers. *)
Lemma AuthNonceLoop_exec_first now t0 t1 st :
  AuthNonceLoop.exec secret (AuthNonceLoop.Advance 0 now)
    {| AuthNonceLoop.store := st; AuthNonceLoop.handlers := [t0; t1] |}
  = (let '(t', st') := AuthNonceLoop.advance secret now t0 st in
     {| AuthNonceLoop.store := st'; AuthNonceLoop.handlers := [t'; t1] |}).
Proof. reflexivity. Qed.

Lemma AuthNonceLoop_exec_second now t0 t1 st :
  AuthNonceLoop.exec secret (AuthNonceLoop.Advance 1 now)
    {| AuthNonceLoop.store := st; AuthNonceLoop.handlers := [t0; t1] |}
  = (let '(t', st') := AuthNonceLoop.advance secret now t1 st in
     {| AuthNonceLoop.store := st'; AuthNonceLoop.handlers := [t0; t'] |}).
Proof. reflexivity. Qed.

(** A submission that passes the checks of lines 83 to 97 reaches the
    first [await]. *)
Lemma AuthNonceLoop_begin_accepts now uid wid a sg n st rec pub s :
  PublicKey a = Some pub ->
  AuthNonce.nonces st !! a = Some rec ->
  now <= AuthNonce.expiresAt rec ->
  AuthNonce.nonce rec = n ->
  bs58_decode sg = Some s ->
  nacl_sign_detached_verify (TextEncoder_encode n) s pub = Ret true ->
  AuthNonceLoop.begin now uid wid
    {| AuthNonce.v_address := Some a; AuthNonce.v_signature := Some sg;
       AuthNonce.v_nonce := Some n |} st
  = (AuthNonceLoop.FindFirstIssued uid wid a
       [NaclVerify (TextEncoder_encode n) s pub], st).
Proof.
  intros Hpub Hrec Hlive Hn Hs Hv. unfold AuthNonceLoop.begin.
  cbn [AuthNonce.v_address AuthNonce.v_signature AuthNonce.v_nonce].
  rewrite Hpub, Hrec.
  replace (AuthNonce.expiresAt rec <? now) with false
    by (symmetry; apply Z.ltb_ge; exact Hlive).
  rewrite Hn, String.eqb_refl. cbn [negb]. rewrite Hs, Hv. reflexivity.
Qed.

(** X5.  User and wallet rows of auth-nonce.ts.  Served one at a time
    from the empty database, the handlers keep user ids and wallet ids
    unique, give no address two wallet rows, and let every wallet row
    name a user that exists.  On the event loop, whatever the
    interleaving, the ids stay unique and every wallet row names a user
    that exists; but an address can get two wallets: when two
    submissions for an address without a wallet take turns, both miss
    [findFirst], both are answered 200, and each leaves a user and a
    wallet of its own, named in its token. *)
Theorem X5_wallet_rows_stay_consistent :
  (forall rs,
     wallets_consistent
       (AuthNonce.db (AuthNonce.run secret rs AuthNonce.init))) /\
  (forall es,
     ids_consistent
       (AuthNonce.db
          (AuthNonceLoop.store
             (AuthNonceLoop.run secret es
                {| AuthNonceLoop.store := AuthNonce.init;
                   AuthNonceLoop.handlers := [] |})))) /\
  (forall st a n sg pub s rec now1 now2 nowA nowB uid1 wid1 uid2 wid2,
     PublicKey a = Some pub ->
     AuthNonce.nonces st !! a = Some rec ->
     now1 <= AuthNonce.expiresAt rec ->
     now2 <= AuthNonce.expiresAt rec ->
     AuthNonce.nonce rec = n ->
     bs58_decode sg = Some s ->
     nacl_sign_detached_verify (TextEncoder_encode n) s pub = Ret true ->
     truthy secret = true ->
     Prisma.wallet_findFirst a (Prisma.wallets (AuthNonce.db st)) = None ->
     ~ In uid1 (map Prisma.u_id (Prisma.users (AuthNonce.db st))) ->
     ~ In uid2 (map Prisma.u_id (Prisma.users (AuthNonce.db st))) ->
     uid1 <> uid2 ->
     ~ In wid1 (map Prisma.w_id (Prisma.wallets (AuthNonce.db st))) ->
     ~ In wid2 (map Prisma.w_id (Prisma.wallets (AuthNonce.db st))) ->
     wid1 <> wid2 ->
     let req := {| AuthNonce.v_address := Some a;
                   AuthNonce.v_signature := Some sg;
                   AuthNonce.v_nonce := Some n |} in
     let sys :=
       AuthNonceLoop.run secret
         (AuthNonceLoop.Begin now1 uid1 wid1 req ::
          AuthNonceLoop.Begin now2 uid2 wid2 req ::
          concat (repeat [AuthNonceLoop.Advance 0 nowA;
                          AuthNonceLoop.Advance 1 nowB] 6))
         {| AuthNonceLoop.store := st; AuthNonceLoop.handlers := [] |} in
     exists token1 token2,
       answers (AuthNonceLoop.handlers sys) = [Some 200; Some 200] /\
       map (fun t => match t with
                     | AuthNonceLoop.Done r _ => issued_token r
                     | _ => None
                     end) (AuthNonceLoop.handlers sys)
         = [Some token1; Some token2] /\
       jwt.payload token1 = jwt.SubAddrClaims uid1 a /\
       jwt.payload token2 = jwt.SubAddrClaims uid2 a /\
       Prisma.wallets (AuthNonce.db (AuthNonceLoop.store sys)) =
         Prisma.wallets (AuthNonce.db st) ++
         [{| Prisma.w_id := wid1; Prisma.w_address := a;
             Prisma.w_chain := "solana"; Prisma.w_userId := uid1;
             Prisma.w_createdAt := nowA |};
          {| Prisma.w_id := wid2; Prisma.w_address := a;
             Prisma.w_chain := "solana"; Prisma.w_userId := uid2;
             Prisma.w_createdAt := nowB |}]).
Proof.
  split; [|split].
  - intros rs.
    assert (Hinit : wallets_consistent (AuthNonce.db AuthNonce.init)).
    { cbn. repeat split; try apply NoDup_nil_2. intros w []. }
    revert Hinit. generalize AuthNonce.init.
    induction rs as [|r rs IH]; intros st Hc; cbn [AuthNonce.run]; [exact Hc|].
    apply IH, AuthNonce_handle_consistent, Hc.
  - intros es. apply AuthNonceLoop_run_consistent.
    + cbn. repeat split; try apply NoDup_nil_2. intros w [].
    + constructor.
  - intros st a n sg pub s rec now1 now2 nowA nowB uid1 wid1 uid2 wid2
           Hpub Hrec Hlive1 Hlive2 Hn Hs Hv Hsecret Hnone Hu1 Hu2 Hu12
           Hw1 Hw2 Hw12 req sys.
    subst req. destruct st as [ns [us ws ss]].
    cbn [AuthNonce.db AuthNonce.nonces Prisma.users Prisma.wallets] in *.
    set (tr := [NaclVerify (TextEncoder_encode n) s pub]).
    set (u1 := {| Prisma.u_id := uid1; Prisma.u_createdAt := nowA;
                  Prisma.u_updatedAt := nowA |}).
    set (u2 := {| Prisma.u_id := uid2; Prisma.u_createdAt := nowB;
                  Prisma.u_updatedAt := nowB |}).
    set (w1 := {| Prisma.w_id := wid1; Prisma.w_address := a;
                  Prisma.w_chain := "solana"; Prisma.w_userId := uid1;
                  Prisma.w_createdAt := nowA |}).
    set (w2 := {| Prisma.w_id := wid2; Prisma.w_address := a;
                  Prisma.w_chain := "solana"; Prisma.w_userId := uid2;
                  Prisma.w_createdAt := nowB |}).
    assert (Hnot : forall {A : Type} (key : A -> string) k (l : list A),
              ~ In k (map key l) ->
              List.find (fun x => String.eqb (key x) k) l = None).
    { intros A key k l Hk. induction l as [|x l IH]; [reflexivity|].
      cbn. destruct (String.eqb_spec (key x) k) as [Heq|Hne].
      - exfalso. apply Hk. left. exact Heq.
      - apply IH. intros Hin. apply Hk. right. exact Hin. }
    assert (E2 : Prisma.create Prisma.u_id u1 us = Ret (us ++ [u1])).
    { unfold Prisma.create, Prisma.findUnique.
      change (Prisma.u_id u1) with uid1.
      rewrite (Hnot _ Prisma.u_id uid1 us Hu1). reflexivity. }
    assert (E3 : Prisma.create Prisma.u_id u2 (us ++ [u1])
                 = Ret ((us ++ [u1]) ++ [u2])).
    { unfold Prisma.create, Prisma.findUnique.
      change (Prisma.u_id u2) with uid2.
      rewrite (Hnot _ Prisma.u_id uid2 (us ++ [u1])); [reflexivity|].
      rewrite map_app. intros Hin. apply in_app_or in Hin as [Hin|[Heq|[]]];
        [exact (Hu2 Hin) | exact (Hu12 Heq)]. }
    assert (E4 : Prisma.create Prisma.w_id w1 ws = Ret (ws ++ [w1])).
    { unfold Prisma.create, Prisma.findUnique.
      change (Prisma.w_id w1) with wid1.
      rewrite (Hnot _ Prisma.w_id wid1 ws Hw1). reflexivity. }
    assert (E5 : Prisma.create Prisma.w_id w2 (ws ++ [w1])
                 = Ret ((ws ++ [w1]) ++ [w2])).
    { unfold Prisma.create, Prisma.findUnique.
      change (Prisma.w_id w2) with wid2.
      rewrite (Hnot _ Prisma.w_id wid2 (ws ++ [w1])); [reflexivity|].
      rewrite map_app. intros Hin. apply in_app_or in Hin as [Hin|[Heq|[]]];
        [exact (Hw2 Hin) | exact (Hw12 Heq)]. }
    clear Hnot.
    eassert (Hsys : sys = _).
    { subst sys.
    cbn [concat repeat app AuthNonceLoop.run].
    unfold AuthNonceLoop.exec at 14.
    cbn [AuthNonceLoop.store AuthNonceLoop.handlers app].
    rewrite (AuthNonceLoop_begin_accepts now1 uid1 wid1 a sg n _ rec pub s)
      by assumption.
    unfold AuthNonceLoop.exec at 13.
    cbn [AuthNonceLoop.store AuthNonceLoop.handlers app].
    rewrite (AuthNonceLoop_begin_accepts now2 uid2 wid2 a sg n _ rec pub s)
      by assumption.
    fold tr.
    (* the two calls of findFirst *)
    rewrite AuthNonceLoop_exec_first.
    cbn [AuthNonceLoop.advance AuthNonceLoop.settle AuthNonce.db
         AuthNonce.nonces Prisma.wallets].
    rewrite Hnone.
    rewrite AuthNonceLoop_exec_second.
    cbn [AuthNonceLoop.advance AuthNonceLoop.settle AuthNonce.db
         AuthNonce.nonces Prisma.wallets].
    rewrite Hnone.
    (* both resume and call user.create *)
    rewrite AuthNonceLoop_exec_first.
    cbn [AuthNonceLoop.advance AuthNonceLoop.resume].
    rewrite AuthNonceLoop_exec_second.
    cbn [AuthNonceLoop.advance AuthNonceLoop.resume].
    fold u1 u2.
    rewrite AuthNonceLoop_exec_first.
    cbn [AuthNonceLoop.advance AuthNonceLoop.settle AuthNonce.db
         AuthNonce.nonces Prisma.users Prisma.wallets Prisma.sessions].
    rewrite E2.
    rewrite AuthNonceLoop_exec_second.
    cbn [AuthNonceLoop.advance AuthNonceLoop.settle AuthNonce.db
         AuthNonce.nonces Prisma.users Prisma.wallets Prisma.sessions].
    rewrite E3.
    (* both resume and call wallet.create *)
    rewrite AuthNonceLoop_exec_first.
    cbn [AuthNonceLoop.advance AuthNonceLoop.resume].
    rewrite AuthNonceLoop_exec_second.
    cbn [AuthNonceLoop.advance AuthNonceLoop.resume].
    change (Prisma.u_id u1) with uid1. change (Prisma.u_id u2) with uid2.
    fold w1 w2.
    rewrite AuthNonceLoop_exec_first.
    cbn [AuthNonceLoop.advance AuthNonceLoop.settle AuthNonce.db
         AuthNonce.nonces Prisma.users Prisma.wallets Prisma.sessions].
    rewrite E4.
    rewrite AuthNonceLoop_exec_second.
    cbn [AuthNonceLoop.advance AuthNonceLoop.settle AuthNonce.db
         AuthNonce.nonces Prisma.users Prisma.wallets Prisma.sessions].
    rewrite E5.
    (* both resume and answer *)
    rewrite AuthNonceLoop_exec_first.
    cbn [AuthNonceLoop.advance AuthNonceLoop.resume].
    unfold AuthNonceLoop.finish, jwt.sign. rewrite Hsecret.
    rewrite AuthNonceLoop_exec_second.
    cbn [AuthNonceLoop.advance AuthNonceLoop.resume].
    unfold AuthNonceLoop.finish, jwt.sign. rewrite Hsecret.
    reflexivity. }
    clearbody sys. subst sys.
    cbn [AuthNonceLoop.store AuthNonceLoop.handlers AuthNonce.db
         Prisma.wallets answers map status issued_token json cookies].
    do 2 eexists. split; [reflexivity|]. split; [reflexivity|].
    split; [reflexivity|]. split; [reflexivity|].
    rewrite <- app_assoc. reflexivity.
Qed.

(** *** The user behind an address *)

Lemma find_app_Some {A : Type} (p : A -> bool) (l l' : list A) x :
  List.find p l = Some x -> List.find p (l ++ l') = Some x.
Proof.
  induction l as [|y l IH]; cbn; [discriminate|].
  destruct (p y); [tauto | exact IH].
Qed.

Lemma find_app_None {A : Type} (p : A -> bool) (l l' : list A) :
  List.find p l = None -> List.find p (l ++ l') = List.find p l'.
Proof.
  induction l as [|y l IH]; cbn; [reflexivity|].
  destruct (p y); [discriminate | exact IH].
Qed.

(** A successful verification signs in the user "find or create user"
    returns for the address. *)
Lemma AuthNonce_verify_ok_user now uid wid req st r tr st' :
  AuthNonce.post_verify secret now uid wid req st = (r, tr, st') ->
  status r = 200 ->
  exists a userId token,
    AuthNonce.v_address req = Some a /\
    AuthNonce.find_or_create_user now uid wid a (AuthNonce.db st)
      = (Ret userId, AuthNonce.db st') /\
    issued_token r = Some token /\
    jwt.payload token = jwt.SubAddrClaims userId a.
Proof.
  unfold AuthNonce.post_verify, AuthNonce.caught, send.
  intros Hrun Hok.
  repeat case_match; simplify_eq; cbn [status] in Hok; try discriminate.
  match goal with
  | Hs : jwt.sign _ _ _ _ _ = Ret _ |- _ =>
      unfold jwt.sign in Hs; case_match; simplify_eq
  end.
  do 3 eexists. repeat split; eauto.
Qed.











(** X7 (auth-nonce.ts).  A request about one address leaves the stored
    challenge of every other address as it is. *)
Lemma AuthNonce_handle_other r b st :
  AuthNonce_subject r <> Some b ->
  AuthNonce.nonces (snd (AuthNonce.handle secret r st)) !! b
    = AuthNonce.nonces st !! b.
Proof.
  intros Hne. destruct r as [now fresh req | now uid wid req];
    cbn [AuthNonce.handle AuthNonce_subject] in *.
  - unfold AuthNonce.post_nonce.
    destruct (AuthNonce.address_of req) as [a|]; [|reflexivity].
    assert (a <> b) by congruence.
    repeat case_match; cbn [snd AuthNonce.nonces]; try reflexivity;
      rewrite lookup_insert_ne by done; reflexivity.
  - destruct (AuthNonce_verify_nonces secret now uid wid req st)
      as [Hsame | (a & Ha & Hdel & _)]; cbv zeta in *.
    + rewrite Hsame. reflexivity.
    + rewrite Hdel. assert (a <> b) by congruence.
      rewrite lookup_delete_ne by done. reflexivity.
Qed.

End AuthNonceInvariants.

(** X4 and X6 at work, on a second sign-in of [addr1] with other random
    identifiers, and X5 on two first sign-ins that take turns. *)
Lemma X4_witness :
  truthy Examples.addr1 = true /\
  is_Some (PublicKey (Platform := Reference.accepting) Examples.addr1).
Proof.
  destruct (@X4_stored_challenges_come_from_requests Reference.accepting "k"
              [AuthNonce.PostNonce 1000 "n1"
                 {| AuthNonce.address := Some Examples.addr1;
                    AuthNonce.walletAddress := None |}]
              Examples.addr1 Examples.rec1)
    as (Ht & Hpk & _); [by_running|].
  split; [exact Ht | exact Hpk].
Defined.

Lemma X5_witness :
  let sys := AuthNonceLoop.run (P := Reference.accepting) "k"
               (AuthNonceLoop.Begin 2000 "u1" "w1"
                  (Examples.submit "n1" Examples.sig64) ::
                AuthNonceLoop.Begin 2001 "u2" "w2"
                  (Examples.submit "n1" Examples.sig64) ::
                concat (repeat [AuthNonceLoop.Advance 0 2002;
                                AuthNonceLoop.Advance 1 2003] 6))
               {| AuthNonceLoop.store := Examples.st1;
                  AuthNonceLoop.handlers := [] |} in
  answers (AuthNonceLoop.handlers sys) = [Some 200; Some 200] /\
  map Prisma.w_userId
    (Prisma.wallets (AuthNonce.db (AuthNonceLoop.store sys))) = ["u1"; "u2"] /\
  map Prisma.w_address
    (Prisma.wallets (AuthNonce.db (AuthNonceLoop.store sys)))
    = [Examples.addr1; Examples.addr1].
Proof.
  intros sys.
  edestruct (proj2 (proj2 (@X5_wallet_rows_stay_consistent
                             Reference.accepting "k"))
               Examples.st1 Examples.addr1 "n1" Examples.sig64)
    with (now1 := 2000) (now2 := 2001) (nowA := 2002) (nowB := 2003)
         (uid1 := "u1") (wid1 := "w1") (uid2 := "u2") (wid2 := "w2")
    as (token1 & token2 & Hans & _ & _ & _ & Hws).
  1-15: first [ vm_compute; reflexivity | vm_compute; discriminate
              | vm_compute; tauto | vm_compute; congruence ].
  split; [exact Hans|].
  split; [exact (f_equal (map Prisma.w_userId) Hws)
         | exact (f_equal (map Prisma.w_address) Hws)].
Defined.


(** ** Independence of addresses *)
Section Independence.
Context {P : Platform}.

Lemma nonce_key_inj a b :
  RoutesAuth.nonce_key a = RoutesAuth.nonce_key b -> a = b.
Proof. unfold RoutesAuth.nonce_key. cbn. intros H. simplify_eq. reflexivity. Qed.

Lemma findUnique_update_ne {row : Type} (id : row -> string) k k'
    (f : row -> row) (t : list row) :
  (forall x, id (f x) = id x) -> k <> k' ->
  Prisma.findUnique id k' (Prisma.update id k f t) = Prisma.findUnique id k' t.
Proof.
  intros Hf Hne. unfold Prisma.findUnique.
  induction t as [|x t IH]; cbn; [reflexivity|].
  destruct (String.eqb_spec (id x) k) as [Hx|Hx]; cbn.
  - rewrite Hf.
    destruct (String.eqb_spec (id x) k') as [Hx'|_]; [congruence | exact IH].
  - destruct (String.eqb (id x) k'); [reflexivity | exact IH].
Qed.

Lemma findUnique_upsert_ne {row : Type} (id : row -> string) k k'
    (f : row -> row) (r : row) (t : list row) :
  (forall x, id (f x) = id x) -> id r = k -> k <> k' ->
  Prisma.findUnique id k' (Prisma.upsert id k f r t) = Prisma.findUnique id k' t.
Proof.
  intros Hf Hr Hne. unfold Prisma.upsert.
  destruct (Prisma.findUnique id k t); [apply findUnique_update_ne; assumption|].
  unfold Prisma.findUnique.
  destruct (List.find (fun r0 => String.eqb (id r0) k') t) eqn:Hfind.
  - apply find_app_Some. exact Hfind.
  - rewrite find_app_None by exact Hfind. cbn. rewrite Hr.
    destruct (String.eqb_spec k k'); [contradiction | reflexivity].
Qed.

Lemma findUnique_delete_ne {row : Type} (id : row -> string) k k' (t : list row) :
  k <> k' ->
  Prisma.findUnique id k' (Prisma.delete id k t) = Prisma.findUnique id k' t.
Proof.
  intros Hne. unfold Prisma.findUnique, Prisma.delete.
  induction t as [|x t IH]; cbn; [reflexivity|].
  destruct (String.eqb_spec (id x) k) as [Hx|Hx]; cbn.
  - destruct (String.eqb_spec (id x) k') as [Hx'|_]; [congruence | exact IH].
  - destruct (String.eqb (id x) k'); [reflexivity | exact IH].
Qed.

Lemma createAndStoreNonce_other now hex a b d :
  a <> b ->
  Prisma.findUnique Prisma.s_id (RoutesAuth.nonce_key b)
    (Prisma.sessions (snd (RoutesAuth.createAndStoreNonce now hex a d)))
  = Prisma.findUnique Prisma.s_id (RoutesAuth.nonce_key b) (Prisma.sessions d).
Proof.
  intros Hne. unfold RoutesAuth.createAndStoreNonce. cbn [snd Prisma.sessions].
  apply findUnique_upsert_ne; [reflexivity | reflexivity |].
  intros Hk. apply Hne, nonce_key_inj, Hk.
Qed.

Lemma RoutesAuth_handle_other E r b d :
  RoutesAuth_subject r <> b ->
  Prisma.findUnique Prisma.s_id (RoutesAuth.nonce_key b)
    (Prisma.sessions (snd (RoutesAuth.handle E r d)))
  = Prisma.findUnique Prisma.s_id (RoutesAuth.nonce_key b) (Prisma.sessions d).
Proof.
  intros Hne. destruct r as [now hex a | now hex a | now req];
    cbn [RoutesAuth.handle RoutesAuth_subject] in *.
  - unfold RoutesAuth.get_nonce. case_match; [reflexivity|].
    pose proof (createAndStoreNonce_other now hex _ b d Hne) as Hc.
    destruct (RoutesAuth.createAndStoreNonce _ _ _ _). exact Hc.
  - unfold RoutesAuth.post_nonce. case_match; [reflexivity|].
    pose proof (createAndStoreNonce_other now hex _ b d Hne) as Hc.
    destruct (RoutesAuth.createAndStoreNonce _ _ _ _). exact Hc.
  - destruct (RoutesAuth_verify_sessions E now req d) as [Hs | Hs];
      cbv zeta in Hs; rewrite Hs; [reflexivity|].
    apply findUnique_delete_ne.
    intros Hk. apply Hne, nonce_key_inj, Hk.
Qed.

(** X7.  Requests about other addresses never touch the challenge stored
    for an address: after any sequence of requests none of which is
    about [b], the nonce map of auth-nonce.ts and the session table of
    routes/auth.ts hold for [b] exactly what they held before. *)
Theorem X7_addresses_are_independent :
  (forall secret rs b st,
     Forall (fun r => AuthNonce_subject r <> Some b) rs ->
     AuthNonce.nonces (AuthNonce.run secret rs st) !! b
       = AuthNonce.nonces st !! b) /\
  (forall E rs b d,
     Forall (fun r => RoutesAuth_subject r <> b) rs ->
     Prisma.findUnique Prisma.s_id (RoutesAuth.nonce_key b)
       (Prisma.sessions (RoutesAuth.run E rs d))
     = Prisma.findUnique Prisma.s_id (RoutesAuth.nonce_key b)
         (Prisma.sessions d)).
Proof.
  split.
  - intros secret rs b. induction rs as [|r rs IH]; intros st Hall;
      cbn [AuthNonce.run]; [reflexivity|].
    apply Forall_cons in Hall as [Hr Hall].
    rewrite IH by exact Hall. apply AuthNonce_handle_other, Hr.
  - intros E rs b. induction rs as [|r rs IH]; intros d Hall;
      cbn [RoutesAuth.run]; [reflexivity|].
    apply Forall_cons in Hall as [Hr Hall].
    rewrite IH by exact Hall. apply RoutesAuth_handle_other, Hr.
Qed.

End Independence.

(** X7 at work: a challenge for ["0OIl"] issued by routes/auth.ts leaves
    the one of [addr1] alone, and so does a request for another address
    to auth-nonce.ts. *)
Lemma X7_witness :
  AuthNonce.nonces
    (AuthNonce.run (P := Reference.accepting) "k"
       [AuthNonce.PostVerify 2000 "u1" "w1"
          {| AuthNonce.v_address := Some "other";
             AuthNonce.v_signature := Some Examples.sig64;
             AuthNonce.v_nonce := Some "n1" |}] Examples.st1)
    !! Examples.addr1 = Some Examples.rec1 /\
  Prisma.findUnique Prisma.s_id (RoutesAuth.nonce_key Examples.addr1)
    (Prisma.sessions
       (RoutesAuth.run (P := Reference.accepting) Examples.E0
          [RoutesAuth.GetNonce 2000 "a1b2" (Some Examples.bad_addr)]
          (snd Examples.issued1))) = Some Examples.row1.
Proof.
  pose proof (@X7_addresses_are_independent Reference.accepting)
    as [Hauth Hroutes].
  split.
  - rewrite Hauth; [by_running|].
    constructor; [|constructor]. by_running.
  - rewrite Hroutes; [by_running|].
    constructor; [|constructor]. by_running.
Defined.

(** ** routes/auth.ts: issuing, verifying, and the users it creates *)
Section RoutesAuthRoundTrip.
Context {P : Platform}.

Lemma truthy_append_l a b : truthy a = true -> truthy (a +:+ b) = true.
Proof. destruct a; [discriminate | reflexivity]. Qed.

Lemma truthy_append_r a b : truthy b = true -> truthy (a +:+ b) = true.
Proof. destruct a; [tauto | reflexivity]. Qed.

(** What [createAndStoreNonce] leaves under the key of the address. *)
Lemma createAndStoreNonce_stored now hex a d :
  exists row,
    Prisma.findUnique Prisma.s_id (RoutesAuth.nonce_key a)
      (Prisma.sessions (snd (RoutesAuth.createAndStoreNonce now hex a d)))
      = Some row /\
    Prisma.s_jwtId row = fst (RoutesAuth.createAndStoreNonce now hex a d) /\
    Prisma.s_expiresAt row = now + 5 * 60000 /\
    truthy (fst (RoutesAuth.createAndStoreNonce now hex a d)) = true.
Proof.
  unfold RoutesAuth.createAndStoreNonce. cbn [fst snd Prisma.sessions].
  rewrite findUnique_upsert by reflexivity.
  eexists. split; [reflexivity|].
  destruct (Prisma.findUnique _ _ _); repeat split; reflexivity.
Qed.

(** X8.  In routes/auth.ts a challenge issued for a non-empty address can
    be redeemed until five minutes after it was issued: a submission for
    that address carrying the nonce of the reply and a signature the
    helpers accept gets 200 with a seven-day token for the address, whose
    role is ADMIN exactly when the address passes the admin check, and
    the session row of the address is gone afterwards. *)
Theorem X8_routes_auth_issue_then_verify E now hex w d now' req :
  let a := String_trim (or_else w "") in
  let issued := RoutesAuth.get_nonce now hex w d in
  truthy a = true ->
  truthy (JWT_SECRET E) = true ->
  RoutesAuth.address req = Some a ->
  RoutesAuth.nonce req = nonce_of (json (fst (fst issued))) ->
  (present (RoutesAuth.signatureBase64 req) ||
   present (RoutesAuth.signature58 req)) = true ->
  now' <= now + 5 * 60000 ->
  fst (RoutesAuth.check_signatures a
         (or_else (nonce_of (json (fst (fst issued)))) "") req) = true ->
  let out := RoutesAuth.post_verify E now' req (snd issued) in
  exists token,
    fst (fst out) =
      send 200 (TokenRoleJson token
                  (if RoutesAuth.isAdmin E a then "ADMIN" else "USER")) /\
    jwt.payload token =
      jwt.UidClaims a a (if RoutesAuth.isAdmin E a then Some "ADMIN" else None) /\
    jwt.exp token = now' / 1000 + 7 * 24 * 60 * 60 /\
    Prisma.findUnique Prisma.s_id (RoutesAuth.nonce_key a)
      (Prisma.sessions (snd out)) = None.
Proof.
  intros a issued Ha Hsecret Haddr Hnonce Hsig Hlive Hck out.
  subst issued out. unfold RoutesAuth.get_nonce in *. fold a in Hnonce, Hck |- *.
  rewrite Ha in *. cbn [negb] in *.
  destruct (createAndStoreNonce_stored now hex a d)
    as (row & Hfind & Hjwt & Hexp & Htruthy).
  destruct (RoutesAuth.createAndStoreNonce now hex a d) as [n d1] eqn:Hc.
  cbn [fst snd json send nonce_of] in *.
  assert (Hn : or_else (RoutesAuth.nonce req) "" = n)
    by (rewrite Hnonce; unfold or_else; rewrite Htruthy; reflexivity).
  assert (Hn' : or_else (Some n) "" = n)
    by (unfold or_else; rewrite Htruthy; reflexivity).
  rewrite Hn' in Hck.
  assert (Ha' : or_else (RoutesAuth.address req) "" = a)
    by (rewrite Haddr; unfold or_else; rewrite Ha; reflexivity).
  unfold RoutesAuth.post_verify, present.
  rewrite Ha', Hn, Ha, Htruthy.
  fold (present (RoutesAuth.signatureBase64 req)).
  fold (present (RoutesAuth.signature58 req)).
  rewrite Hsig. cbn [andb negb]. rewrite Hfind, Hjwt, String.eqb_refl.
  cbn [negb].
  replace (Prisma.s_expiresAt row <? now') with false
    by (symmetry; apply Z.ltb_ge; lia).
  destruct (RoutesAuth.check_signatures a n req) as [ok tr].
  cbn [fst] in Hck. subst ok. cbn [negb].
  unfold Middleware.issueJWT, jwt.sign. rewrite Hsecret. cbn [negb fst snd].
  destruct (RoutesAuth.isAdmin E a);
    (eexists; split; [reflexivity|]; split; [reflexivity|];
     split; [cbn; unfold jwt.days; lia|];
     cbn [Prisma.sessions]; apply findUnique_delete).
Qed.

Lemma update_findUnique {row : Type} (id : row -> string) k
    (f : row -> row) (t : list row) x :
  (forall y, id (f y) = id y) ->
  Prisma.findUnique id k t = Some x ->
  Prisma.findUnique id k (Prisma.update id k f t) = Some (f x).
Proof.
  intros Hf. unfold Prisma.findUnique.
  induction t as [|y t IH]; cbn; [discriminate|].
  destruct (String.eqb (id y) k) eqn:Hy; cbn.
  - intros Hx. simplify_eq. rewrite Hf, Hy. reflexivity.
  - rewrite Hy. exact IH.
Qed.

(** X9.  A challenge request to routes/auth.ts for a non-empty address
    writes a user whose id is that address before any signature has been
    seen: afterwards the user exists with [updatedAt] set to the time of
    the request, an existing user keeps its [createdAt], and user ids
    stay unique. *)
Theorem X9_challenge_request_creates_user now hex w d :
  let a := String_trim (or_else w "") in
  let d' := snd (RoutesAuth.get_nonce now hex w d) in
  truthy a = true ->
  NoDup (map Prisma.u_id (Prisma.users d)) ->
  NoDup (map Prisma.u_id (Prisma.users d')) /\
  snd (fst (RoutesAuth.get_nonce now hex w d)) = [] /\
  exists u,
    Prisma.findUnique Prisma.u_id a (Prisma.users d') = Some u /\
    Prisma.u_updatedAt u = now /\
    Prisma.u_createdAt u =
      match Prisma.findUnique Prisma.u_id a (Prisma.users d) with
      | Some u0 => Prisma.u_createdAt u0
      | None => now
      end.
Proof.
  intros a d' Ha Hnd. subst d'. unfold RoutesAuth.get_nonce. fold a.
  rewrite Ha. cbn [negb].
  unfold RoutesAuth.createAndStoreNonce. cbn [fst snd Prisma.users].
  split; [apply upsert_keyed; [reflexivity | reflexivity | exact Hnd]|].
  split; [reflexivity|].
  rewrite findUnique_upsert by reflexivity.
  eexists. split; [reflexivity|].
  destruct (Prisma.findUnique Prisma.u_id a (Prisma.users d)); split; reflexivity.
Qed.

End RoutesAuthRoundTrip.

(** X8 and X9 at work on [addr1]. *)
Lemma X8_witness :
  let issued := RoutesAuth.get_nonce (P := Reference.accepting) 1000 "00ff"
                  (Some Examples.addr1) Prisma.empty in
  status (fst (fst (RoutesAuth.post_verify (P := Reference.accepting)
                      Examples.E0 301000
                      (Examples.submit1 (fst Examples.issued1) Examples.sig64)
                      (snd issued)))) = 200.
Proof.
  intros issued.
  destruct (@X8_routes_auth_issue_then_verify Reference.accepting Examples.E0
              1000 "00ff" (Some Examples.addr1) Prisma.empty 301000
              (Examples.submit1 (fst Examples.issued1) Examples.sig64))
    as (token & Hreply & _); [by_running .. |].
  fold issued in Hreply. rewrite Hreply. reflexivity.
Defined.

Lemma X9_witness :
  map Prisma.u_id
    (Prisma.users (snd (RoutesAuth.get_nonce (P := Reference.accepting) 1000
                          "00ff" (Some Examples.bad_addr) Prisma.empty)))
    = [Examples.bad_addr] /\
  NoDup (map Prisma.u_id
           (Prisma.users (snd (RoutesAuth.get_nonce (P := Reference.accepting)
                                 1000 "00ff" (Some Examples.bad_addr)
                                 Prisma.empty)))).
Proof.
  split; [by_running|].
  apply (@X9_challenge_request_creates_user Reference.accepting 1000 "00ff"
           (Some Examples.bad_addr) Prisma.empty);
    [by_running | apply NoDup_nil_2].
Defined.

(** ** The bearer-token middlewares *)
Section BearerTokens.
Context {P : Platform}.

Lemma substring_all s : String.substring 0 (String.length s) s = s.
Proof. induction s as [|c s IH]; cbn; [reflexivity | rewrite IH; reflexivity]. Qed.

Lemma prefix_split p : forall h,
  String.prefix p h = true ->
  h = p +:+ Guards.slice (String.length p) h.
Proof.
  unfold Guards.slice.
  induction p as [|c p IH]; intros h Hp; cbn.
  - rewrite Nat.sub_0_r, substring_all. reflexivity.
  - destruct h as [|c' h]; cbn in Hp; [discriminate|].
    destruct (Ascii.ascii_dec c c') as [->|]; [|discriminate].
    change (String c' h =
            String c' (p +:+ String.substring (String.length p)
                               (String.length h - String.length p) h)).
    f_equal. apply IH, Hp.
Qed.

Lemma prefix_append p s : String.prefix p (p +:+ s) = true.
Proof.
  induction p as [|c p IH]; [destruct s; reflexivity|].
  change (String.prefix (String c p) (String c (p +:+ s)) = true).
  cbn [String.prefix].
  destruct (Ascii.ascii_dec c c); [exact IH | contradiction].
Qed.

Lemma slice_append p s : Guards.slice (String.length p) (p +:+ s) = s.
Proof.
  unfold Guards.slice.
  induction p as [|c p IH].
  - cbn. rewrite Nat.sub_0_r. apply substring_all.
  - change (String.substring (S (String.length p))
              (S (String.length (p +:+ s)) - S (String.length p))
              (String c (p +:+ s)) = s).
    cbn [String.substring Nat.sub]. exact IH.
Qed.

(** The two ways [auth] goes: no bearer token, or a non-empty one that is
    handed to [jwt.verify]. *)
Lemma auth_cases E decode now h :
  ((String.prefix "Bearer " (or_else h "") = false \/ or_else h "" = "Bearer ") /\
   Guards.auth E decode now h = Guards.Answer (send 401 (ErrorJson "No token"))) \/
  (exists s,
     h = Some ("Bearer " +:+ s) /\ truthy s = true /\
     Guards.auth E decode now h =
       if truthy (JWT_SECRET E)
       then match jwt.verify (decode s) (JWT_SECRET E) now with
            | Ret user => Guards.Next user
            | Throw _ => Guards.Answer (send 401 (ErrorJson "Invalid token"))
            end
       else Guards.Answer (send 401 (ErrorJson "Invalid token"))).
Proof.
  unfold Guards.auth.
  destruct (String.prefix "Bearer " (or_else h "")) eqn:Hp;
    [|left; split; [left|]; reflexivity].
  apply (prefix_split "Bearer ") in Hp. cbn [String.length] in Hp.
  unfold present. cbn [or_else].
  destruct (truthy (Guards.slice 7 (or_else h ""))) eqn:Hs.
  - right. exists (Guards.slice 7 (or_else h "")).
    split; [|split; [exact Hs|]].
    + destruct h as [x|]; [|cbn in Hp; discriminate].
      cbn [or_else] in *. destruct (truthy x); [congruence | discriminate].
    + rewrite Hs. cbn [negb]. destruct (truthy (JWT_SECRET E)); reflexivity.
  - left. split; [|reflexivity]. right.
    unfold truthy in Hs. apply negb_false_iff, String.eqb_eq in Hs.
    rewrite Hs in Hp. exact Hp.
Qed.

(** X10.  [auth] lets a request through exactly when its Authorization
    header is "Bearer " followed by a non-empty token that [jwt.verify]
    accepts under the configured, non-empty secret, and then attaches the
    verified payload.  It answers 401 "No token" exactly when the header
    is absent, has another scheme or carries nothing after "Bearer ", and
    401 "Invalid token" exactly when a non-empty bearer token is refused
    by [jwt.verify] or no secret is configured.  It does nothing else. *)
Theorem X10_auth_accepts_exactly_valid_bearer_tokens E decode now h :
  (forall user,
     Guards.auth E decode now h = Guards.Next user <->
     exists s,
       h = Some ("Bearer " +:+ s) /\ truthy s = true /\
       truthy (JWT_SECRET E) = true /\
       jwt.verify (decode s) (JWT_SECRET E) now = Ret user) /\
  (Guards.auth E decode now h = Guards.Answer (send 401 (ErrorJson "No token")) <->
   String.prefix "Bearer " (or_else h "") = false \/ or_else h "" = "Bearer ") /\
  (Guards.auth E decode now h
     = Guards.Answer (send 401 (ErrorJson "Invalid token")) <->
   exists s,
     h = Some ("Bearer " +:+ s) /\ truthy s = true /\
     (truthy (JWT_SECRET E) = false \/
      exists e, jwt.verify (decode s) (JWT_SECRET E) now = Throw e)) /\
  ((exists user, Guards.auth E decode now h = Guards.Next user) \/
   Guards.auth E decode now h = Guards.Answer (send 401 (ErrorJson "No token")) \/
   Guards.auth E decode now h = Guards.Answer (send 401 (ErrorJson "Invalid token"))).
Proof.
  assert (Hbearer : forall s, truthy s = true ->
            String.prefix "Bearer " (or_else (Some ("Bearer " +:+ s)) "") = true /\
            or_else (Some ("Bearer " +:+ s)) "" <> "Bearer ").
  { intros s Hs. cbn [or_else].
    rewrite (truthy_append_l "Bearer " s eq_refl).
    split; [apply prefix_append|].
    intros Heq. cbv [String.append] in Heq. simplify_eq. }
  assert (Hsame : forall s s', Some ("Bearer " +:+ s) = Some ("Bearer " +:+ s') ->
                               s = s')
    by (intros s s' Heq; cbv [String.append] in Heq; simplify_eq; reflexivity).
  destruct (auth_cases E decode now h)
    as [[Hno Hauth]|(s & Hh & Hs & Hauth)]; rewrite Hauth.
  - split; [|split; [|split]].
    + intros user. split; [discriminate|].
      intros (s & -> & Hs & _). destruct (Hbearer s Hs) as [Hp Hne].
      destruct Hno as [Hno|Hno]; congruence.
    + tauto.
    + split; [unfold send; intros Heq; simplify_eq|].
      intros (s & -> & Hs & _). destruct (Hbearer s Hs) as [Hp Hne].
      destruct Hno as [Hno|Hno]; congruence.
    + right. left. reflexivity.
  - subst h. destruct (Hbearer s Hs) as [Hp Hne].
    destruct (truthy (JWT_SECRET E)) eqn:Hk;
      [destruct (jwt.verify (decode s) (JWT_SECRET E) now) as [u|e] eqn:Hv|].
    + split; [|split; [|split]].
      * intros user. split.
        { intros Heq. simplify_eq. exists s. auto. }
        { intros (s' & Heq & _ & _ & Hv'). apply Hsame in Heq. subst s'.
          congruence. }
      * split; [discriminate|]. intros [Hf|Hf]; congruence.
      * split; [discriminate|].
        intros (s' & Heq & _ & [Hf|[e Hf]]); [discriminate|].
        apply Hsame in Heq. subst s'. congruence.
      * left. eauto.
    + split; [|split; [|split]].
      * intros user. split; [discriminate|].
        intros (s' & Heq & _ & _ & Hv'). apply Hsame in Heq. subst s'.
        congruence.
      * split; [unfold send; intros Heq; simplify_eq|].
        intros [Hf|Hf]; congruence.
      * split; [|reflexivity]. intros _. exists s. eauto 6.
      * right. right. reflexivity.
    + split; [|split; [|split]].
      * intros user. split; [discriminate|].
        intros (s' & _ & _ & Hf & _). discriminate.
      * split; [unfold send; intros Heq; simplify_eq|].
        intros [Hf|Hf]; congruence.
      * split; [|reflexivity]. intros _. exists s. auto.
      * right. right. reflexivity.
Qed.

(** [auth] on a token that [issueJWT] produced. *)
Lemma auth_issued E decode uid address role now token s now' :
  Middleware.issueJWT E uid address role now = Ret token ->
  decode s = jwt.Signed token ->
  truthy s = true ->
  Guards.auth E decode now' (Some ("Bearer " +:+ s)) =
    if now' / 1000 <? now / 1000 + 7 * 24 * 60 * 60
    then Guards.Next (jwt.UidClaims uid address role)
    else Guards.Answer (send 401 (ErrorJson "Invalid token")).
Proof.
  unfold Middleware.issueJWT, jwt.sign. intros Hi Hd Hs.
  destruct (truthy (JWT_SECRET E)) eqn:Hk; cbn [negb] in Hi; [|discriminate].
  simplify_eq.
  unfold Guards.auth. cbn [or_else].
  rewrite (truthy_append_l "Bearer " s eq_refl), (prefix_append "Bearer " s).
  change 7%nat with (String.length "Bearer ").
  rewrite slice_append. unfold present. cbn [or_else].
  rewrite Hs. cbn [negb]. rewrite Hs, Hk, Hd. cbn [negb].
  unfold jwt.verify. cbn [jwt.key jwt.exp jwt.payload].
  rewrite String.eqb_refl. cbn [negb]. unfold jwt.days.
  destruct (Z.ltb_spec (now' / 1000) (now / 1000 + 7 * 24 * 60 * 60)) as [Hlt|Hge].
  - replace (now / 1000 + 7 * 24 * 60 * 60 <=? now' / 1000) with false
      by (symmetry; apply Z.leb_gt; lia).
    reflexivity.
  - replace (now / 1000 + 7 * 24 * 60 * 60 <=? now' / 1000) with true
      by (symmetry; apply Z.leb_le; lia).
    reflexivity.
Qed.

(** X11.  A token from [issueJWT] passes [auth] with its own payload until
    seven days (in whole seconds) after it was issued, and from then on
    is answered 401 "Invalid token": never earlier, never later. *)
Theorem X11_issued_token_valid_for_seven_days
    E decode uid address role now token s now' :
  Middleware.issueJWT E uid address role now = Ret token ->
  decode s = jwt.Signed token ->
  truthy s = true ->
  Guards.auth E decode now' (Some ("Bearer " +:+ s)) =
    if now' / 1000 <? now / 1000 + 7 * 24 * 60 * 60
    then Guards.Next (jwt.UidClaims uid address role)
    else Guards.Answer (send 401 (ErrorJson "Invalid token")).
Proof. apply auth_issued. Qed.

(** The token a successful verification of routes/auth.ts issues. *)
Lemma RoutesAuth_verify_ok_token E now req d token role :
  fst (fst (RoutesAuth.post_verify E now req d)) =
    send 200 (TokenRoleJson token role) ->
  let a := or_else (RoutesAuth.address req) "" in
  truthy a = true /\
  Middleware.issueJWT E a a
    (if RoutesAuth.isAdmin E a then Some "ADMIN" else None) now = Ret token.
Proof.
  unfold RoutesAuth.post_verify, send. cbv zeta.
  destruct (present (RoutesAuth.address req)) eqn:Ha; cbn [andb negb];
    [|cbn; discriminate].
  destruct (present (RoutesAuth.nonce req) &&
            (present (RoutesAuth.signatureBase64 req) ||
             present (RoutesAuth.signature58 req))); cbn [negb];
    [|cbn; discriminate].
  destruct (Prisma.findUnique _ _ _) as [stored|]; [|cbn; discriminate].
  destruct (negb (String.eqb _ _)); [cbn; discriminate|].
  destruct (_ <? _); [cbn; discriminate|].
  destruct (RoutesAuth.check_signatures _ _ _) as [ok tr].
  destruct ok; cbn [negb]; [|cbn; discriminate].
  destruct (Middleware.issueJWT _ _ _ _ _) as [t|e]; cbn [fst];
    [|discriminate].
  intros Hr. split; [exact Ha | congruence].
Qed.

(** X12.  The role decided at sign-in travels with the token.  While a
    token of routes/auth.ts is valid, [auth] followed by [requireAdmin]
    lets its bearer through when the address passed the admin check at
    sign-in, whatever ADMIN_ADDRESSES says now, or when it passes the
    check now; otherwise the answer is 403. *)
Theorem X12_admin_role_travels_with_the_token
    E E' decode now req d token role s now' :
  fst (fst (RoutesAuth.post_verify E now req d)) =
    send 200 (TokenRoleJson token role) ->
  decode s = jwt.Signed token ->
  truthy s = true ->
  JWT_SECRET E' = JWT_SECRET E ->
  now' / 1000 < now / 1000 + 7 * 24 * 60 * 60 ->
  let a := or_else (RoutesAuth.address req) "" in
  Guards.auth_then_requireAdmin E' decode now' (Some ("Bearer " +:+ s)) =
    if RoutesAuth.isAdmin E a || RoutesAuth.isAdmin E' a
    then Guards.Next
           (jwt.UidClaims a a
              (if RoutesAuth.isAdmin E a then Some "ADMIN" else None))
    else Guards.Answer (send 403 (ErrorJson "forbidden: admin only")).
Proof.
  intros Hr Hd Hs Hk Hlt a.
  destruct (RoutesAuth_verify_ok_token _ _ _ _ _ _ Hr) as [Ha Hi].
  fold a in Ha, Hi.
  assert (Hi' : Middleware.issueJWT E' a a
                  (if RoutesAuth.isAdmin E a then Some "ADMIN" else None) now
                = Ret token)
    by (unfold Middleware.issueJWT in *; rewrite Hk; exact Hi).
  unfold Guards.auth_then_requireAdmin.
  rewrite (auth_issued E' decode _ _ _ _ _ _ now' Hi' Hd Hs).
  replace (now' / 1000 <? now / 1000 + 7 * 24 * 60 * 60) with true
    by (symmetry; apply Z.ltb_lt; exact Hlt).
  unfold Guards.requireAdmin, present. cbn [Guards.user_address or_else].
  rewrite Ha. cbn [negb]. rewrite Ha.
  change (existsb (String.eqb a) (Guards.allowed E'))
    with (RoutesAuth.isAdmin E' a).
  destruct (RoutesAuth.isAdmin E a); cbn [Guards.user_role orb];
    [reflexivity|].
  destruct (RoutesAuth.isAdmin E' a); reflexivity.
Qed.

End BearerTokens.

(** X10 to X12 at work on the token of [addr1]. *)
Lemma X10_witness :
  Guards.auth Examples.E0
    (MoreExamples.decode_as "eyJ1" MoreExamples.token1) 3000
    (Some ("Bearer " +:+ "eyJ1")) = Guards.Next MoreExamples.user1.
Proof.
  apply (proj1 (X10_auth_accepts_exactly_valid_bearer_tokens
                  Examples.E0
                  (MoreExamples.decode_as "eyJ1" MoreExamples.token1) 3000
                  (Some ("Bearer " +:+ "eyJ1")))).
  exists "eyJ1". repeat split; by_running.
Defined.

Lemma X11_witness :
  Guards.auth Examples.E0
    (MoreExamples.decode_as "eyJ1" MoreExamples.token1) 604801999
    (Some ("Bearer " +:+ "eyJ1")) = Guards.Next MoreExamples.user1 /\
  Guards.auth Examples.E0
    (MoreExamples.decode_as "eyJ1" MoreExamples.token1) 604802000
    (Some ("Bearer " +:+ "eyJ1"))
    = Guards.Answer (send 401 (ErrorJson "Invalid token")).
Proof.
  split.
  - rewrite (X11_issued_token_valid_for_seven_days
               Examples.E0 (MoreExamples.decode_as "eyJ1" MoreExamples.token1)
               Examples.addr1 Examples.addr1 None 2000 MoreExamples.token1
               "eyJ1" 604801999); by_running.
  - rewrite (X11_issued_token_valid_for_seven_days
               Examples.E0 (MoreExamples.decode_as "eyJ1" MoreExamples.token1)
               Examples.addr1 Examples.addr1 None 2000 MoreExamples.token1
               "eyJ1" 604802000); by_running.
Defined.

Lemma X12_witness :
  Guards.auth_then_requireAdmin (P := Reference.accepting) MoreExamples.E_admin
    (MoreExamples.decode_as "eyJ1" MoreExamples.token1) 3000
    (Some ("Bearer " +:+ "eyJ1")) = Guards.Next MoreExamples.user1 /\
  Guards.auth_then_requireAdmin (P := Reference.accepting) Examples.E0
    (MoreExamples.decode_as "eyJ1" MoreExamples.token1) 3000
    (Some ("Bearer " +:+ "eyJ1"))
    = Guards.Answer (send 403 (ErrorJson "forbidden: admin only")).
Proof.
  split.
  - rewrite (@X12_admin_role_travels_with_the_token Reference.accepting
               Examples.E0 MoreExamples.E_admin
               (MoreExamples.decode_as "eyJ1" MoreExamples.token1) 2000
               (Examples.submit1 (fst Examples.issued1) Examples.sig64)
               (snd Examples.issued1) MoreExamples.token1 "USER" "eyJ1" 3000);
      by_running.
  - rewrite (@X12_admin_role_travels_with_the_token Reference.accepting
               Examples.E0 Examples.E0
               (MoreExamples.decode_as "eyJ1" MoreExamples.token1) 2000
               (Examples.submit1 (fst Examples.issued1) Examples.sig64)
               (snd Examples.issued1) MoreExamples.token1 "USER" "eyJ1" 3000);
      by_running.
Defined.

(** ** Tokens across the three sign-ins *)
Section ForeignTokens.
Context {P : Platform}.

(** The token a successful verification of server.ts issues. *)
Lemma Server_verify_ok_token E now jti userId walletId run req :
  let out := Server.post_verify E now jti userId walletId run req in
  status (fst out) = 200 ->
  exists token,
    issued_token (fst out) = Some token /\
    jwt.sign (jwt.AuthClaims userId walletId) (JWT_SECRET E) (jwt.days 30)
      (Some jti) now = Ret token.
Proof.
  intros out. subst out. unfold Server.post_verify.
  destruct (negb (truthy (Server.walletAddress_of req)));
    [intros Hok; cbv [status fst send] in Hok; discriminate|].
  destruct (Server.choose_message _ _ _ _ _) as [r0|[m|]] eqn:Hmsg.
  - intros Hok. exfalso. unfold Server.choose_message in Hmsg.
    repeat case_match; simplify_eq; cbv [status fst send] in Hok;
      try discriminate.
  - unfold present. cbn [or_else].
    destruct (truthy m) eqn:Hm;
      [|intros Hok; cbv in Hok; discriminate].
    rewrite !Hm. cbn [negb].
    destruct (Server.decode_signature req) as [r0|[sg enc]] eqn:Hdec.
    { intros Hok. exfalso.
      unfold Server.decode_signature, Server.decodeBase64 in Hdec.
      repeat case_match; simplify_eq; cbv [status fst send] in Hok;
        try discriminate. }
    destruct (length sg <? 64)%nat;
      [intros Hok; cbv [status fst send] in Hok; discriminate|].
    destruct (bs58_decode _) as [pk|];
      [|intros Hok; cbv [status fst send] in Hok; discriminate].
    destruct (nacl_sign_detached_verify _ sg pk) as [[|]|e] eqn:Hv;
      [|intros Hok; cbv [status fst send] in Hok; discriminate..].
    destruct (jwt.sign _ _ _ _ _) as [token|e] eqn:Htok;
      [|intros Hok; cbv [status fst send] in Hok; discriminate].
    destruct (Server.persist E run) as [db tdb]. intros _.
    exists token. cbn [fst]. split; reflexivity.
  - intros Hok. cbv [status fst send present or_else truthy negb String.eqb] in Hok.
    discriminate.
Qed.

(** The payload of a token that [auth] lets through. *)
Lemma auth_Next_payload E decode now s token user :
  decode s = jwt.Signed token ->
  Guards.auth E decode now (Some ("Bearer " +:+ s)) = Guards.Next user ->
  user = jwt.payload token /\ jwt.key token = JWT_SECRET E /\
  now / 1000 < jwt.exp token.
Proof.
  intros Hd. unfold Guards.auth. cbn [or_else].
  rewrite (truthy_append_l "Bearer " s eq_refl), (prefix_append "Bearer " s).
  change 7%nat with (String.length "Bearer ").
  rewrite slice_append. unfold present. cbn [or_else].
  destruct (truthy s) eqn:Hs; cbn [negb]; [|discriminate].
  rewrite Hs.
  destruct (truthy (JWT_SECRET E)); cbn [negb]; [|discriminate].
  rewrite Hd. unfold jwt.verify.
  destruct (String.eqb_spec (jwt.key token) (JWT_SECRET E)) as [Hk|];
    cbn [negb]; [|discriminate].
  destruct (Z.leb_spec (jwt.exp token) (now / 1000)); [discriminate|].
  intros Hn. simplify_eq. auto.
Qed.

(** X13.  The tokens of auth-nonce.ts and of server.ts open none of the
    routes behind [auth]: even where [auth] itself accepts such a token
    (same secret, not expired), its payload has neither [uid] nor
    [address], so [requireAdmin] and the three joining routes answer 401
    "unauthorized" and change nothing. *)
Theorem X13_tokens_of_the_other_sign_ins_are_unauthorized
    secret now uid wid areq st E0 snow jti userId walletId run sreq r token
    E decode s now' TREASURY MIN toBase58 id contestId team sg tx d user :
  fst (fst (AuthNonce.post_verify secret now uid wid areq st)) = r \/
  fst (Server.post_verify E0 snow jti userId walletId run sreq) = r ->
  status r = 200 ->
  issued_token r = Some token ->
  decode s = jwt.Signed token ->
  Guards.auth E decode now' (Some ("Bearer " +:+ s)) = Guards.Next user ->
  Guards.requireAdmin E (Some user)
    = Guards.Answer (send 401 (ErrorJson "unauthorized")) /\
  Contests.join id contestId team user d
    = ((401, Contests.CError "unauthorized"), [], d) /\
  Contests.join_start TREASURY MIN now' contestId user d
    = (401, Contests.CError "unauthorized") /\
  Contests.join_verify TREASURY MIN toBase58 id contestId sg tx user d
    = ((401, Contests.CError "unauthorized"), [], d).
Proof.
  intros Hfrom Hok Htok Hd Hauth.
  destruct (auth_Next_payload _ _ _ _ _ _ Hd Hauth) as (-> & _ & _).
  assert (Hp : (exists sub addr, jwt.payload token = jwt.SubAddrClaims sub addr) \/
               (exists sub w, jwt.payload token = jwt.AuthClaims sub w)).
  { destruct Hfrom as [Ha|Hs]; subst r.
    - left.
      destruct (AuthNonce.post_verify secret now uid wid areq st)
        as [[r tr] st'] eqn:Hrun.
      destruct (AuthNonce_verify_ok_user _ _ _ _ _ _ _ _ _ Hrun Hok)
        as (a & userId' & token' & _ & _ & Htok' & Hpay).
      cbn [fst] in Htok. rewrite Htok in Htok'. simplify_eq. eauto.
    - right.
      destruct (Server_verify_ok_token _ _ _ _ _ _ _ Hok) as (token' & Htok' & Hsign).
      rewrite Htok in Htok'. simplify_eq.
      unfold jwt.sign in Hsign. case_match; simplify_eq. eauto. }
  destruct Hp as [(sub & addr & ->)|(sub & w & ->)];
    repeat split; reflexivity.
Qed.

(** X14.  The nonce cookie of server.ts decides which message is signed.
    While the cookie set by GET /auth/nonce is valid (300 whole seconds)
    the verify handler takes the challenge message from it and ignores the
    message of the request, and refuses another wallet with 400 before
    any signature check; from its expiry on it silently falls back to the
    message of the request. *)
Theorem X14_nonce_cookie_decides_the_signed_message
    E now nonce jti w wallet n m secs name token age now' req :
  json (fst (Server.get_nonce E now nonce jti w)) = ChallengeJson wallet n m secs ->
  cookies (fst (Server.get_nonce E now nonce jti w)) = [SetCookie name token age] ->
  Server.nonce_cookie req = Some (jwt.Signed token) ->
  (wallet = String_trim (or_else w "") /\ n = nonce /\ name = "nonce" /\
   truthy m = true) /\
  Server.choose_message E now' (Server.walletAddress_of req)
    (Server.bodyMessage_of req) (Server.nonce_cookie req) =
    (if now / 1000 + 300 <=? now' / 1000
     then inr (Server.bodyMessage_of req)
     else if String.eqb wallet (Server.walletAddress_of req)
     then inr (Some m)
     else inl (send 400 (ErrorJson "Wallet mismatch with nonce"))) /\
  (forall jti' userId walletId run,
     now' / 1000 < now / 1000 + 300 ->
     truthy (Server.walletAddress_of req) = true ->
     wallet <> Server.walletAddress_of req ->
     Server.post_verify E now' jti' userId walletId run req
       = (send 400 (ErrorJson "Wallet mismatch with nonce"), [])).
Proof.
  unfold Server.get_nonce, Server.signNonceCookie, jwt.sign.
  destruct (negb (truthy (String_trim (or_else w "")))); [cbn; discriminate|].
  destruct (truthy (JWT_SECRET E)) eqn:Hk; [|cbn; discriminate].
  cbn [fst json cookies]. intros Hj Hc Hreq.
  injection Hj as Hwal Hn Hm Hsecs. injection Hc as Hname Htoken Hage.
  subst wallet n name token.
  assert (Hchoose :
    Server.choose_message E now' (Server.walletAddress_of req)
      (Server.bodyMessage_of req) (Server.nonce_cookie req) =
    (if now / 1000 + 300 <=? now' / 1000
     then inr (Server.bodyMessage_of req)
     else if String.eqb (String_trim (or_else w "")) (Server.walletAddress_of req)
     then inr (Some m)
     else inl (send 400 (ErrorJson "Wallet mismatch with nonce")))).
  { rewrite Hreq. unfold Server.choose_message, jwt.verify.
    cbn [jwt.key jwt.exp jwt.payload]. rewrite String.eqb_refl, Hm.
    cbn [negb].
    unfold jwt.minutes. change (5 * 60) with 300.
    destruct (_ <=? _); [reflexivity|].
    destruct (String.eqb _ _); reflexivity. }
  split; [|split].
  - repeat split.
    rewrite <- Hm. destruct (APP_NAME E); reflexivity.
  - exact Hchoose.
  - intros jti' userId walletId run Hlt Hw Hne.
    unfold Server.post_verify. rewrite Hw. cbn [negb]. rewrite Hchoose.
    replace (now / 1000 + 300 <=? now' / 1000) with false
      by (symmetry; apply Z.leb_gt; lia).
    destruct (String.eqb_spec (String_trim (or_else w ""))
                (Server.walletAddress_of req)); [contradiction | reflexivity].
Qed.


End ForeignTokens.

(** X13 to X15 at work: the session token of server.ts for ["u1"], and the
    nonce cookie of [addr1]. *)
Lemma X13_witness :
  Contests.join "e1" "free" None (jwt.AuthClaims "u1" "w1")
    MoreExamples.contests1
    = ((401, Contests.CError "unauthorized"), [], MoreExamples.contests1).
Proof.
  destruct (@X13_tokens_of_the_other_sign_ins_are_unauthorized
              Reference.accepting "k" 2000 "u1" "w1"
              (Examples.submit "n1" Examples.sig64) Examples.st1
              Examples.E0 2000 "j1" "u1" "w1" Server.NoClient
              (Examples.server_req (Some Examples.sig64) None "hello")
              (fst (Server.post_verify (P := Reference.accepting) Examples.E0
                      2000 "j1" "u1" "w1" Server.NoClient
                      (Examples.server_req (Some Examples.sig64) None "hello")))
              MoreExamples.session1 Examples.E0
              (MoreExamples.decode_as "eyJ2" MoreExamples.session1) "eyJ2" 3000
              "T" 1000 MoreExamples.toBase58 "e1" "free" None None None
              MoreExamples.contests1 (jwt.AuthClaims "u1" "w1"))
    as (_ & H & _); [right; reflexivity | by_running .. | exact H].
Defined.

Lemma X14_witness :
  let req := MoreExamples.cookie_req MoreExamples.nonce_token1 Examples.addr1
               "another message" in
  Server.choose_message Examples.E0 2000
    (Server.walletAddress_of (P := Reference.accepting) req)
    (Server.bodyMessage_of req)
    (Server.nonce_cookie req) = inr (Some MoreExamples.message1).
Proof.
  intros req.
  destruct (@X14_nonce_cookie_decides_the_signed_message Reference.accepting
              Examples.E0 1000 "n1" "j0" (Some Examples.addr1) Examples.addr1
              "n1" MoreExamples.message1 300 "nonce" MoreExamples.nonce_token1
              300000 2000 req)
    as (_ & H & _); [by_running .. |].
  rewrite H. by_running.
Defined.


(** ** The CORS middleware of server.ts *)
Section CorsProperties.
Context {P : Platform}.

Lemma substring_split n : forall s m,
  (n + m = String.length s)%nat ->
  String.substring 0 n s +:+ String.substring n m s = s.
Proof.
  induction n as [|n IH]; intros s m Hlen.
  - cbn in Hlen. subst m. destruct s; cbn; [reflexivity|].
    rewrite substring_all. reflexivity.
  - destruct s as [|c s]; cbn in Hlen; [discriminate|].
    change (String c (String.substring 0 n s +:+ String.substring n m s)
            = String c s).
    f_equal. apply IH. lia.
Qed.

Lemma substring_append_r p : forall s,
  String.substring (String.length p) (String.length s) (p +:+ s) = s.
Proof.
  induction p as [|c p IH]; intros s.
  - cbn. apply substring_all.
  - change (String.substring (String.length p) (String.length s) (p +:+ s) = s).
    apply IH.
Qed.

Lemma length_append_string p s :
  String.length (p +:+ s) = (String.length p + String.length s)%nat.
Proof.
  induction p as [|c p IH]; [reflexivity|].
  change (S (String.length (p +:+ s))
          = S (String.length p + String.length s)).
  rewrite IH. reflexivity.
Qed.

(** [endsWith] holds exactly of the strings with that suffix. *)
Lemma endsWith_spec suffix s :
  Cors.endsWith suffix s = true <-> exists p, s = p +:+ suffix.
Proof.
  unfold Cors.endsWith. split.
  - intros H. apply andb_true_iff in H as [Hlen Heq].
    apply Nat.leb_le in Hlen. apply String.eqb_eq in Heq.
    exists (String.substring 0 (String.length s - String.length suffix) s).
    symmetry.
    etransitivity;
      [|apply (substring_split (String.length s - String.length suffix) s
                 (String.length suffix)); lia].
    f_equal. symmetry. exact Heq.
  - intros [p ->]. rewrite length_append_string.
    apply andb_true_iff. split; [apply Nat.leb_le; lia|].
    replace (String.length p + String.length suffix - String.length suffix)%nat
      with (String.length p) by lia.
    rewrite substring_append_r. apply String.eqb_refl.
Qed.

(** [isAllowedOrigin] in terms of the origin. *)
Lemma isAllowedOrigin_spec CORS_ORIGIN URL_hostname origin :
  Cors.isAllowedOrigin CORS_ORIGIN URL_hostname origin = true <->
  present origin = false \/
  In (or_else origin "") (map String_trim (split_at "," CORS_ORIGIN)) \/
  exists sub, URL_hostname (or_else origin "") = Some (sub +:+ ".vercel.app").
Proof.
  unfold Cors.isAllowedOrigin.
  destruct (present origin) eqn:Hp; cbn [negb]; [|tauto].
  assert (Hin : existsb (String.eqb (or_else origin ""))
                  (Cors.allowed CORS_ORIGIN) = true <->
                In (or_else origin "")
                  (map String_trim (split_at "," CORS_ORIGIN))).
  { unfold Cors.allowed. rewrite existsb_exists. split.
    - intros (x & Hx & Heq). apply String.eqb_eq in Heq. subst x.
      apply filter_In in Hx as [Hx _]. exact Hx.
    - intros Hx. exists (or_else origin ""). split; [|apply String.eqb_refl].
      apply filter_In. split; [exact Hx | exact Hp]. }
  destruct (existsb _ _).
  - split; [|reflexivity]. intros _. right. left. apply Hin. reflexivity.
  - destruct (URL_hostname (or_else origin "")) as [host|] eqn:Hu.
    + rewrite endsWith_spec. split.
      * intros [sub ->]. right. right. exists sub. reflexivity.
      * intros [Hf|[Hx|[sub Hs]]]; [discriminate| |].
        { apply Hin in Hx. discriminate. }
        { simplify_eq. eauto. }
    + split; [discriminate|].
      intros [Hf|[Hx|[sub Hs]]]; [discriminate| |discriminate].
      apply Hin in Hx. discriminate.
Qed.

(** X16.  The CORS middleware sends the wild card only to requests without
    an Origin header.  A request with one gets its own origin echoed, and
    that exactly when the origin is a trimmed entry of CORS_ORIGIN or its
    host name ends in ".vercel.app".  An allowed request gets exactly the
    five CORS headers, the credentials header among them; a refused
    origin gets no header at all. *)
Theorem X16_cors_echoes_allowed_origins CORS_ORIGIN URL_hostname method origin :
  let headers := fst (Cors.cors CORS_ORIGIN URL_hostname method origin) in
  let allowed_origin :=
    present origin = false \/
    In (or_else origin "") (map String_trim (split_at "," CORS_ORIGIN)) \/
    exists sub, URL_hostname (or_else origin "") = Some (sub +:+ ".vercel.app") in
  (forall v,
     In ("Access-Control-Allow-Origin", v) headers <->
     (present origin = false /\ v = "*") \/
     (present origin = true /\ v = or_else origin "" /\
      (In v (map String_trim (split_at "," CORS_ORIGIN)) \/
       exists sub, URL_hostname v = Some (sub +:+ ".vercel.app")))) /\
  (allowed_origin ->
   headers =
     [("Access-Control-Allow-Origin",
       if present origin then or_else origin "" else "*");
      ("Vary", "Origin");
      ("Access-Control-Allow-Credentials", "true");
      ("Access-Control-Allow-Headers", "Content-Type, Authorization");
      ("Access-Control-Allow-Methods", "GET,POST,OPTIONS")]) /\
  (~ allowed_origin -> headers = []).
Proof.
  intros headers allowed_origin. subst headers allowed_origin.
  pose proof (isAllowedOrigin_spec CORS_ORIGIN URL_hostname origin) as Hspec.
  unfold Cors.cors. cbn [fst].
  assert (Hor : or_else origin "*" = if present origin then or_else origin "" else "*").
  { unfold present, or_else. destruct origin as [o|]; [|reflexivity].
    destruct (truthy o) eqn:Ho; [rewrite Ho|]; reflexivity. }
  rewrite Hor.
  destruct (Cors.isAllowedOrigin CORS_ORIGIN URL_hostname origin) eqn:Hok.
  - assert (Hallowed := proj1 Hspec eq_refl).
    split; [|split; [reflexivity | tauto]].
    intros v. cbn [In]. split.
    + intros [Hv|[Hv|[Hv|[Hv|[Hv|[]]]]]]; simplify_eq.
      destruct (present origin) eqn:Hp; [|left; auto].
      right. split; [reflexivity|]. split; [reflexivity|].
      destruct Hallowed as [Hf|[Hx|Hs]]; [discriminate | left | right];
        assumption.
    + intros [[Hp ->]|(Hp & -> & _)]; rewrite Hp; left; reflexivity.
  - assert (Hrefused : ~ (present origin = false \/
              In (or_else origin "") (map String_trim (split_at "," CORS_ORIGIN)) \/
              exists sub, URL_hostname (or_else origin "")
                          = Some (sub +:+ ".vercel.app"))).
    { intros Ha. apply Hspec in Ha. discriminate. }
    split; [|split; [intros Ha; contradiction | reflexivity]].
    intros v. cbn [In]. split; [tauto|].
    intros [[Hp _]|(_ & -> & Hx)]; apply Hrefused; tauto.
Qed.

End CorsProperties.

(** X16 at work: a preview deployment is answered with its own origin and
    the credentials header, another site with no CORS header. *)
Lemma X16_witness :
  fst (Cors.cors (P := Reference.accepting) "https://fst.example"
         (fun _ => Some "fst-preview.vercel.app") "GET"
         (Some "https://fst-preview.vercel.app"))
    = [("Access-Control-Allow-Origin", "https://fst-preview.vercel.app");
       ("Vary", "Origin");
       ("Access-Control-Allow-Credentials", "true");
       ("Access-Control-Allow-Headers", "Content-Type, Authorization");
       ("Access-Control-Allow-Methods", "GET,POST,OPTIONS")] /\
  fst (Cors.cors (P := Reference.accepting) "https://fst.example"
         (fun _ => Some "other.example") "GET" (Some "https://other.example"))
    = [].
Proof.
  split.
  - apply (proj1 (proj2 (@X16_cors_echoes_allowed_origins Reference.accepting
                           "https://fst.example"
                           (fun _ => Some "fst-preview.vercel.app") "GET"
                           (Some "https://fst-preview.vercel.app")))).
    right. right. exists "fst-preview". reflexivity.
  - apply (proj2 (proj2 (@X16_cors_echoes_allowed_origins Reference.accepting
                           "https://fst.example"
                           (fun _ => Some "other.example") "GET"
                           (Some "https://other.example")))).
    intros [Hp|[Hin|[sub Hsub]]].
    + vm_compute in Hp. discriminate.
    + vm_compute in Hin. destruct Hin as [Heq|[]]. discriminate.
    + assert (He : Cors.endsWith ".vercel.app" "other.example" = true).
      { apply endsWith_spec. exists sub. congruence. }
      vm_compute in He. discriminate.
Defined.

(** ** Joining contests *)
Section ContestEntries.
Variable TREASURY : string.
Variable MIN : Z.
Variable toBase58 : string -> option string.

Lemma update_map {row B : Type} (id : row -> string) (g : row -> B) k f t :
  (forall r, g (f r) = g r) ->
  map g (Prisma.update id k f t) = map g t.
Proof.
  intros Hf. induction t as [|r t IH]; cbn; [reflexivity|].
  destruct (String.eqb (id r) k); cbn; rewrite ?Hf, IH; reflexivity.
Qed.

Lemma find_update {row : Type} (id : row -> string) (p : row -> bool) k f :
  (forall r, p (f r) = p r) ->
  forall t x,
    List.find p t = Some x -> id x = k ->
    List.find p (Prisma.update id k f t) = Some (f x).
Proof.
  intros Hf. induction t as [|r t IH]; intros x Hx Hk; cbn in *;
    [discriminate|].
  destruct (p r) eqn:Hp.
  - simplify_eq. rewrite String.eqb_refl. cbn. rewrite Hf, Hp. reflexivity.
  - destruct (String.eqb (id r) k); cbn; rewrite ?Hf, Hp; apply IH; assumption.
Qed.

Lemma entry_find_None uid cid t :
  Contests.entry_find uid cid t = None ->
  ~ In (uid, cid)
       (map (fun e => (Contests.e_userId e, Contests.e_contestId e)) t).
Proof.
  unfold Contests.entry_find.
  induction t as [|e t IH]; cbn; [tauto|].
  destruct (String.eqb_spec (Contests.e_userId e) uid) as [Hu|Hu];
    destruct (String.eqb_spec (Contests.e_contestId e) cid) as [Hc|Hc];
    cbn; try discriminate;
    intros Hf [Hx|Hin]; solve [congruence | exact (IH Hf Hin)].
Qed.


Lemma entry_create_Some e d d' :
  Contests.entry_create e d = Some d' ->
  Prisma.findUnique Contests.e_id (Contests.e_id e) (Contests.entries d) = None /\
  Contests.entry_find (Contests.e_userId e) (Contests.e_contestId e)
    (Contests.entries d) = None /\
  is_Some (Prisma.findUnique Prisma.u_id (Contests.e_userId e) (Contests.users d)) /\
  is_Some (Prisma.findUnique Contests.c_id (Contests.e_contestId e)
             (Contests.contests d)) /\
  d' = {| Contests.users := Contests.users d;
          Contests.contests := Contests.contests d;
          Contests.entries := Contests.entries d ++ [e] |}.
Proof.
  unfold Contests.entry_create.
  destruct (Prisma.findUnique Contests.e_id _ _); [discriminate|].
  destruct (Contests.entry_find _ _ _); [discriminate|].
  destruct (Prisma.findUnique Prisma.u_id _ _); [|discriminate].
  destruct (Prisma.findUnique Contests.c_id _ _); [|discriminate].
  intros Hd. simplify_eq. eauto 10.
Qed.

Lemma present_Some (a : option string) :
  present a = true -> a = Some (or_else a "").
Proof.
  unfold present, or_else. destruct a as [s|]; [|intros H; cbv in H; discriminate].
  destruct (truthy s) eqn:Hs; [reflexivity | intros H; cbv in H; discriminate].
Qed.

(** What POST /contests/:id/join does to the database: nothing, a new
    team for the entry found, or a new entry. *)
Lemma join_cases id c team user d :
  let out := Contests.join id c team user d in
  let uid := or_else (Guards.user_uid user) "" in
  snd out = d \/
  (exists existing t,
     Contests.entry_find uid c (Contests.entries d) = Some existing /\
     snd out =
       {| Contests.users := Contests.users d;
          Contests.contests := Contests.contests d;
          Contests.entries :=
            Prisma.update Contests.e_id (Contests.e_id existing)
              (fun e => {| Contests.e_id := Contests.e_id e;
                           Contests.e_userId := Contests.e_userId e;
                           Contests.e_contestId := Contests.e_contestId e;
                           Contests.e_team := Some t |})
              (Contests.entries d) |}) \/
  (exists contest,
     let e := {| Contests.e_id := id; Contests.e_userId := uid;
                 Contests.e_contestId := c; Contests.e_team := team |} in
     Contests.entry_create e d = Some (snd out) /\
     fst (fst out) = (201, Contests.CEntry e true) /\
     present (Guards.user_uid user) = true /\
     Prisma.findUnique Contests.c_id c (Contests.contests d) = Some contest /\
     Contests.c_active contest = true /\
     Contests.c_entryFee contest <= 0).
Proof.
  cbv zeta. unfold Contests.join.
  destruct (present (Guards.user_uid user)) eqn:Hu; cbn [negb]; [|left; reflexivity].
  destruct (Prisma.findUnique Contests.c_id c (Contests.contests d))
    as [contest|] eqn:Hc; [|left; reflexivity].
  destruct (Contests.c_active contest) eqn:Ha; cbn [negb]; [|left; reflexivity].
  destruct (Z.ltb_spec 0 (Contests.c_entryFee contest)); [left; reflexivity|].
  destruct (Contests.entry_find _ _ _) as [existing|] eqn:Hf.
  - destruct team as [t|]; [|left; reflexivity].
    right. left. exists existing, t. split; reflexivity.
  - destruct (Contests.entry_create _ d) as [d'|] eqn:Hcr; [|left; reflexivity].
    right. right. exists contest. cbn [fst snd]. repeat split; auto.
Qed.

(** What a 201 of POST /contests/:id/join/verify went through. *)
Lemma join_verify_created id c sg tx user d b :
  let out := Contests.join_verify TREASURY MIN toBase58 id c sg tx user d in
  let uid := or_else (Guards.user_uid user) "" in
  fst (fst out) = (201, b) ->
  exists t toKey fromKey address contest,
    let e := {| Contests.e_id := id; Contests.e_userId := uid;
                Contests.e_contestId := c; Contests.e_team := None |} in
    present (Guards.user_uid user) = true /\
    present sg = true /\
    truthy TREASURY = true /\
    Prisma.findUnique Contests.c_id c (Contests.contests d) = Some contest /\
    Contests.c_active contest = true /\
    0 < Contests.c_entryFee contest /\
    MIN <> 0 /\
    tx = Some t /\ Contests.t_err t = false /\
    toBase58 TREASURY = Some toKey /\
    Guards.user_address user = Some address /\
    toBase58 address = Some fromKey /\
    Contests.payment_check MIN toKey fromKey t = Some (inr tt) /\
    Contests.entry_create e d = Some (snd out) /\
    b = Contests.CEntry e true.
Proof.
  cbv zeta. unfold Contests.join_verify.
  destruct (present (Guards.user_uid user)) eqn:Hu; cbn [negb]; [|other_reply].
  destruct (present sg) eqn:Hs; cbn [negb]; [|other_reply].
  destruct (truthy TREASURY) eqn:Ht; cbn [negb]; [|other_reply].
  destruct (Prisma.findUnique Contests.c_id c (Contests.contests d))
    as [contest|] eqn:Hc; [|other_reply].
  destruct (Contests.c_active contest) eqn:Ha; cbn [negb]; [|other_reply].
  destruct (Z.leb_spec (Contests.c_entryFee contest) 0); [other_reply|].
  destruct (Z.eqb_spec MIN 0); [other_reply|].
  destruct tx as [t|]; [|other_reply].
  destruct (Contests.t_err t) eqn:He; [other_reply|].
  destruct (toBase58 TREASURY) as [toKey|] eqn:Hto; [|other_reply].
  destruct (Guards.user_address user) as [address|] eqn:Had; [|other_reply].
  destruct (toBase58 address) as [fromKey|] eqn:Hfrom; [|other_reply].
  destruct (Contests.payment_check MIN toKey fromKey t) as [[msg|[]]|] eqn:Hpay;
    [other_reply| |other_reply].
  destruct (Contests.entry_find _ _ _) as [existing|] eqn:Hf; [other_reply|].
  destruct (Contests.entry_create _ d) as [d'|] eqn:Hcr; [|other_reply].
  other_reply. exists t, toKey, fromKey, address, contest.
  repeat split; auto.
Qed.

(** What POST /contests/:id/join/verify does to the database: nothing or
    a new entry. *)
Lemma join_verify_cases id c sg tx user d :
  let out := Contests.join_verify TREASURY MIN toBase58 id c sg tx user d in
  snd out = d \/ exists b, fst (fst out) = (201, b).
Proof.
  cbv zeta. unfold Contests.join_verify.
  repeat case_match; cbn [fst snd]; eauto.
Qed.

Lemma entry_create_consistent e d d' :
  Contests.entry_create e d = Some d' ->
  entries_consistent d -> entries_consistent d'.
Proof.
  intros Hcr [H1 H2].
  apply entry_create_Some in Hcr as (Hid & Hpair & _ & _ & ->).
  split; cbn [Contests.entries]; rewrite map_app; apply NoDup_snoc; auto.
  - apply find_None_not_in. exact Hid.
  - apply entry_find_None. exact Hpair.
Qed.

Lemma handle_consistent r d :
  entries_consistent d ->
  entries_consistent (snd (Contests.handle TREASURY MIN toBase58 r d)).
Proof.
  intros Hd. destruct r as [id c team user|id c sg tx user]; cbn [Contests.handle].
  - destruct (join_cases id c team user d)
      as [->|[(existing & t & _ & ->)|(contest & Hcr & _)]].
    + exact Hd.
    + destruct Hd as [H1 H2].
      split; cbn [Contests.entries]; rewrite update_map; auto.
    + exact (entry_create_consistent _ _ _ Hcr Hd).
  - destruct (join_verify_cases id c sg tx user d) as [->|[b Hb]]; [exact Hd|].
    destruct (join_verify_created _ _ _ _ _ _ _ Hb)
      as (t & toKey & fromKey & address & contest & _ & _ & _ & _ & _ & _ & _
          & _ & _ & _ & _ & _ & _ & Hcr & _).
    exact (entry_create_consistent _ _ _ Hcr Hd).
Qed.

(** X17.  The joining routes keep the entries of a consistent database
    consistent: after any sequence of join and join/verify requests no two
    entries share an id and no user has two entries in one contest. *)
Theorem X17_entries_stay_consistent rs : forall d,
  entries_consistent d ->
  entries_consistent (Contests.run TREASURY MIN toBase58 rs d).
Proof.
  induction rs as [|r rs IH]; intros d Hd; cbn [Contests.run]; [exact Hd|].
  apply IH, handle_consistent, Hd.
Qed.

(** X18.  Joining is idempotent: once POST /contests/:id/join has answered
    with an entry, created or found, the same user joining again without
    a team gets 200 with that entry and [created: false], and the
    database stays as it is. *)
Theorem X18_joining_again_returns_the_entry id c team user d st e created id' :
  fst (fst (Contests.join id c team user d)) = (st, Contests.CEntry e created) ->
  Contests.join id' c None user (snd (Contests.join id c team user d))
    = ((200, Contests.CEntry e false), [], snd (Contests.join id c team user d)).
Proof.
  intros Hr.
  assert (Hinv :
    present (Guards.user_uid user) = true /\
    exists contest,
      Prisma.findUnique Contests.c_id c
        (Contests.contests (snd (Contests.join id c team user d))) = Some contest /\
      Contests.c_active contest = true /\
      (0 <? Contests.c_entryFee contest) = false /\
      Contests.entry_find (or_else (Guards.user_uid user) "") c
        (Contests.entries (snd (Contests.join id c team user d))) = Some e).
  { revert Hr. unfold Contests.join.
    destruct (present (Guards.user_uid user)) eqn:Hu; cbn [negb]; [|other_reply].
    destruct (Prisma.findUnique Contests.c_id c (Contests.contests d))
      as [contest|] eqn:Hc; [|other_reply].
    destruct (Contests.c_active contest) eqn:Ha; cbn [negb]; [|other_reply].
    destruct (0 <? Contests.c_entryFee contest) eqn:Hfee; [other_reply|].
    destruct (Contests.entry_find _ _ _) as [existing|] eqn:Hf.
    - destruct team as [t|]; other_reply.
      + split; [reflexivity|]. exists contest. repeat split; auto.
        cbn [Contests.entries]. unfold Contests.entry_find.
        exact (find_update Contests.e_id
                 (fun e =>
                    String.eqb (Contests.e_userId e)
                      (or_else (Guards.user_uid user) "") &&
                    String.eqb (Contests.e_contestId e) c)
                 (Contests.e_id existing)
                 (fun e => {| Contests.e_id := Contests.e_id e;
                              Contests.e_userId := Contests.e_userId e;
                              Contests.e_contestId := Contests.e_contestId e;
                              Contests.e_team := Some t |})
                 (fun _ => eq_refl) (Contests.entries d) existing Hf eq_refl).
      + split; [reflexivity|]. exists contest. repeat split; auto.
    - destruct (Contests.entry_create _ d) as [d'|] eqn:Hcr; other_reply.
      apply entry_create_Some in Hcr as (_ & Hpair & _ & _ & ->).
      cbn [Contests.e_userId Contests.e_contestId] in Hpair.
      split; [reflexivity|]. exists contest. repeat split; auto.
      cbn [Contests.entries]. unfold Contests.entry_find in *.
      rewrite (find_app_None _ _ _ Hpair). cbn.
      rewrite !String.eqb_refl. reflexivity. }
  destruct Hinv as (Hu & contest & Hc & Ha & Hfee & Hf).
  set (d1 := snd (Contests.join id c team user d)) in *.
  unfold Contests.join at 1. rewrite Hu, Hc, Ha, Hfee, Hf. reflexivity.
Qed.

(** X19.  An entry is added only as the routes allow.  A request to a
    joining route leaves users and contests alone and either keeps the
    ids, users and contests of all entries, or appends one entry, answers
    201 with it, and then the contest is active and: for /join it is free
    and the entry is the token's user's; for /join/verify it has a fee and
    the transaction exists, did not fail on-chain and passed the payment
    check for the treasury and the address of the token. *)
Theorem X19_entries_are_added_only_as_allowed r d :
  let out := Contests.handle TREASURY MIN toBase58 r d in
  let key e := (Contests.e_id e, Contests.e_userId e, Contests.e_contestId e) in
  Contests.users (snd out) = Contests.users d /\
  Contests.contests (snd out) = Contests.contests d /\
  (map key (Contests.entries (snd out)) = map key (Contests.entries d) \/
   exists e contest,
     Contests.entries (snd out) = Contests.entries d ++ [e] /\
     fst (fst out) = (201, Contests.CEntry e true) /\
     Prisma.findUnique Contests.c_id (Contests.e_contestId e)
       (Contests.contests d) = Some contest /\
     Contests.c_active contest = true /\
     match r with
     | Contests.Join _ _ _ user =>
         Contests.c_entryFee contest <= 0 /\
         Guards.user_uid user = Some (Contests.e_userId e)
     | Contests.JoinVerify _ _ _ tx user =>
         0 < Contests.c_entryFee contest /\
         Guards.user_uid user = Some (Contests.e_userId e) /\
         exists t toKey fromKey address,
           tx = Some t /\ Contests.t_err t = false /\
           toBase58 TREASURY = Some toKey /\
           Guards.user_address user = Some address /\
           toBase58 address = Some fromKey /\
           Contests.payment_check MIN toKey fromKey t = Some (inr tt)
     end).
Proof.
  cbv zeta.
  destruct r as [id c team user|id c sg tx user]; cbn [Contests.handle].
  - destruct (join_cases id c team user d)
      as [->|[(existing & t & _ & ->)|(contest & Hcr & Hr & Hu & Hc & Ha & Hfee)]].
    + auto.
    + cbn [Contests.users Contests.contests Contests.entries].
      split; [reflexivity|]. split; [reflexivity|]. left.
      apply update_map. reflexivity.
    + cbv zeta in Hcr, Hr.
      apply entry_create_Some in Hcr as (_ & _ & _ & _ & Hd').
      rewrite Hd'. cbn [Contests.users Contests.contests Contests.entries].
      split; [reflexivity|]. split; [reflexivity|]. right.
      eexists. exists contest. split; [reflexivity|].
      split; [exact Hr|]. cbn [Contests.e_contestId Contests.e_userId].
      split; [exact Hc|]. split; [exact Ha|].
      split; [exact Hfee | apply present_Some, Hu].
  - destruct (join_verify_cases id c sg tx user d) as [->|[b Hb]]; [auto|].
    destruct (join_verify_created _ _ _ _ _ _ _ Hb)
      as (t & toKey & fromKey & address & contest & Hu & _ & _ & Hc & Ha & Hfee
          & _ & -> & He & Hto & Had & Hfrom & Hpay & Hcr & ->).
    apply entry_create_Some in Hcr as (_ & _ & _ & _ & Hd').
    rewrite Hd'. cbn [Contests.users Contests.contests Contests.entries].
    split; [reflexivity|]. split; [reflexivity|]. right.
    eexists. exists contest. split; [reflexivity|].
    split; [exact Hb|]. cbn [Contests.e_contestId Contests.e_userId].
    split; [exact Hc|]. split; [exact Ha|].
    split; [exact Hfee|]. split; [apply present_Some, Hu|].
    exists t, toKey, fromKey, address. auto 10.
Qed.

End ContestEntries.

(** X17 and X18 at work: [addr1] joins the free contest. *)
Lemma X17_witness :
  entries_consistent
    (Contests.run "T" 1000 MoreExamples.toBase58
       [Contests.Join "e1" "free" None MoreExamples.user1;
        Contests.Join "e2" "free" (Some "team") MoreExamples.user1;
        Contests.JoinVerify "e3" "paid" (Some "sig") (Some MoreExamples.tx1)
          MoreExamples.user1]
       MoreExamples.contests1).
Proof.
  apply X17_entries_stay_consistent.
  split; apply NoDup_nil_2.
Defined.

Lemma X18_witness :
  fst (fst (Contests.join "e2" "free" None MoreExamples.user1
              (snd (Contests.join "e1" "free" (Some "team") MoreExamples.user1
                      MoreExamples.contests1))))
  = (200, Contests.CEntry
            {| Contests.e_id := "e1"; Contests.e_userId := Examples.addr1;
               Contests.e_contestId := "free"; Contests.e_team := Some "team" |}
            false).
Proof.
  rewrite (X18_joining_again_returns_the_entry "e1" "free" (Some "team")
             MoreExamples.user1 MoreExamples.contests1 201
             {| Contests.e_id := "e1"; Contests.e_userId := Examples.addr1;
                Contests.e_contestId := "free"; Contests.e_team := Some "team" |}
             true "e2"); by_running.
Defined.

(** ** The payment check of join/verify *)
(** The first loop keeps the balance change at the last index of the
    key. *)
Lemma toDelta_from_spec toKey pre post : forall keys i acc,
  (~ In toKey keys /\
   Contests.toDelta_from i keys toKey pre post acc = acc) \/
  exists k,
    nth_error keys k = Some toKey /\
    (forall j, (k < j)%nat -> nth_error keys j <> Some toKey) /\
    Contests.toDelta_from i keys toKey pre post acc
      = Contests.balance post (i + k) - Contests.balance pre (i + k).
Proof.
  induction keys as [|k0 ks IH]; intros i acc; cbn [Contests.toDelta_from].
  - left. split; [intros []|reflexivity].
  - destruct (IH (S i)
                (if String.eqb k0 toKey
                 then Contests.balance post i - Contests.balance pre i
                 else acc))
      as [[Hnot Hv]|(k & Hk & Hlast & Hv)].
    + destruct (String.eqb_spec k0 toKey) as [->|Hne].
      * right. exists 0%nat. rewrite Nat.add_0_r. split; [reflexivity|].
        split; [|exact Hv].
        intros [|j] Hj; [lia|]. cbn. intros Hin. apply Hnot.
        exact (nth_error_In _ _ Hin).
      * left. split; [|exact Hv]. intros [Heq|Hin]; [congruence | tauto].
    + right. exists (S k). split; [exact Hk|]. split.
      * intros [|j] Hj; [lia|]. cbn. apply Hlast. lia.
      * rewrite Hv. replace (i + S k)%nat with (S i + k)%nat by lia.
        reflexivity.
Qed.

(** The second loop finds an index of the key that lost the minimum. *)
Lemma fromMatched_from_spec fromKey pre post minimum : forall keys i,
  Contests.fromMatched_from i keys fromKey pre post minimum = true <->
  exists k,
    nth_error keys k = Some fromKey /\
    minimum <= Contests.balance pre (i + k) - Contests.balance post (i + k).
Proof.
  induction keys as [|k0 ks IH]; intros i; cbn [Contests.fromMatched_from].
  - split; [discriminate|]. intros ([|k] & Hk & _); discriminate.
  - destruct (String.eqb_spec k0 fromKey) as [->|Hne]; cbn [andb].
    + destruct (Z.leb_spec minimum
                  (Contests.balance pre i - Contests.balance post i)) as [Hle|Hgt].
      * split; [|reflexivity]. intros _. exists 0%nat.
        rewrite Nat.add_0_r. split; [reflexivity | exact Hle].
      * rewrite IH. split.
        { intros (k & Hk & Hle). exists (S k). split; [exact Hk|].
          replace (i + S k)%nat with (S i + k)%nat by lia. exact Hle. }
        { intros ([|k] & Hk & Hle).
          - rewrite Nat.add_0_r in Hle. lia.
          - exists k. split; [exact Hk|].
            replace (S i + k)%nat with (i + S k)%nat by lia. exact Hle. }
    + rewrite IH. split.
      * intros (k & Hk & Hle). exists (S k). split; [exact Hk|].
        replace (i + S k)%nat with (S i + k)%nat by lia. exact Hle.
      * intros ([|k] & Hk & Hle).
        { cbn in Hk. congruence. }
        { exists k. split; [exact Hk|].
          replace (S i + k)%nat with (i + S k)%nat by lia. exact Hle. }
Qed.

(** The keys line 389 reads without throwing are those listed as
    objects with a [pubkey]. *)
Lemma keys_toBase58_Some ks : forall keys,
  Contests.keys_toBase58 ks = Some keys <-> ks = map Contests.ParsedKey keys.
Proof.
  induction ks as [|[b|k] ks IH]; intros keys; cbn [Contests.keys_toBase58].
  - split.
    + intros H. simplify_eq. reflexivity.
    + destruct keys; [reflexivity | discriminate].
  - split; [discriminate|]. destruct keys; discriminate.
  - destruct (Contests.keys_toBase58 ks) as [keys'|] eqn:Hks; cbn [option_map].
    + split.
      * intros H. simplify_eq. cbn. f_equal. apply IH. reflexivity.
      * destruct keys as [|k' keys]; [discriminate|]. cbn. intros H.
        simplify_eq. f_equal. f_equal.
        assert (Hs : Some keys' = Some keys)
          by (apply (IH keys); reflexivity).
        simplify_eq. reflexivity.
    + split; [discriminate|].
      destruct keys as [|k' keys]; [discriminate|]. cbn. intros H.
      simplify_eq.
      assert (Hs : None = Some keys) by (apply (IH keys); reflexivity).
      discriminate.
Qed.

Lemma keys_toBase58_None ks :
  Contests.keys_toBase58 ks = None <-> exists b, In (Contests.PlainKey b) ks.
Proof.
  induction ks as [|[b|k] ks IH]; cbn [Contests.keys_toBase58].
  - split; [discriminate | intros [b []]].
  - split; [|reflexivity]. intros _. exists b. left. reflexivity.
  - destruct (Contests.keys_toBase58 ks) as [keys'|]; cbn [option_map].
    + split; [discriminate|]. intros [b [Hb|Hb]]; [discriminate|].
      assert (Hc : Some keys' = None) by (apply IH; eauto).
      discriminate.
    + split; [|reflexivity]. intros _.
      destruct (proj1 IH eq_refl) as [b Hb]. exists b. right. exact Hb.
Qed.

(** X20.  What the transfer check of join/verify accepts.  Reading the
    account keys throws exactly when the message has no [accountKeys] or
    lists a key as a [PublicKey] itself; join/verify then answers with an
    error and adds no entry.  With a positive minimum, a transaction
    passes exactly when all its keys are listed as objects with a
    [pubkey], the last account under the treasury key gained at least the
    minimum and some account under the sender's key lost at least the
    minimum; nothing else of the transaction is looked at. *)
Theorem X20_payment_check_reads_balance_changes MIN toKey fromKey tx :
  0 < MIN ->
  (Contests.payment_check MIN toKey fromKey tx = None <->
   Contests.t_accountKeys tx = None \/
   exists ks b, Contests.t_accountKeys tx = Some ks /\
                In (Contests.PlainKey b) ks) /\
  (Contests.payment_check MIN toKey fromKey tx = None ->
   forall TREASURY toBase58 id c sg user d,
     let out := Contests.join_verify TREASURY MIN toBase58 id c sg (Some tx)
                  user d in
     snd out = d /\
     exists st msg, fst (fst out) = (st, Contests.CError msg) /\ 400 <= st) /\
  (Contests.payment_check MIN toKey fromKey tx = Some (inr tt) <->
   exists keys,
     Contests.t_accountKeys tx = Some (map Contests.ParsedKey keys) /\
     (exists i,
        nth_error keys i = Some toKey /\
        (forall j, (i < j)%nat -> nth_error keys j <> Some toKey) /\
        MIN <= Contests.balance (Contests.t_postBalances tx) i
               - Contests.balance (Contests.t_preBalances tx) i) /\
     (exists j,
        nth_error keys j = Some fromKey /\
        MIN <= Contests.balance (Contests.t_preBalances tx) j
               - Contests.balance (Contests.t_postBalances tx) j)).
Proof.
  intros Hmin.
  assert (Hthrows : forall toKey' fromKey',
            Contests.payment_check MIN toKey' fromKey' tx = None <->
            Contests.accountKeys_toBase58 tx = None).
  { intros toKey' fromKey'. unfold Contests.payment_check.
    destruct (Contests.accountKeys_toBase58 tx); [|tauto].
    repeat case_match; split; discriminate. }
  split; [|split].
  - rewrite Hthrows. unfold Contests.accountKeys_toBase58.
    destruct (Contests.t_accountKeys tx) as [ks|]; [|tauto].
    rewrite keys_toBase58_None. split.
    + intros [b Hb]. right. eauto.
    + intros [Hf|(ks' & b & Hks & Hb)]; [discriminate|]. simplify_eq. eauto.
  - intros Hnone TREASURY toBase58 id c sg user d.
    apply Hthrows in Hnone. cbv zeta. unfold Contests.join_verify.
    assert (Hany : forall toKey' fromKey',
              Contests.payment_check MIN toKey' fromKey' tx = None)
      by (intros; apply Hthrows; exact Hnone).
    repeat case_match; cbn [fst snd]; unfold Contests.reply_of;
      try (split; [reflexivity|]; do 2 eexists; split; [reflexivity | lia]);
      match goal with
      | H : Contests.payment_check _ _ _ _ = Some _ |- _ =>
          rewrite Hany in H; discriminate
      end.
  - unfold Contests.payment_check, Contests.accountKeys_toBase58.
    destruct (Contests.t_accountKeys tx) as [ks|];
      [|split; [discriminate | intros (keys & Hf & _); discriminate]].
    destruct (Contests.keys_toBase58 ks) as [keys|] eqn:Hks.
    + apply keys_toBase58_Some in Hks. subst ks.
      pose proof (fromMatched_from_spec fromKey (Contests.t_preBalances tx)
                    (Contests.t_postBalances tx) MIN keys 0) as Hfrom.
      cbn [Nat.add] in Hfrom.
      assert (Hinj : forall keys', Some (map Contests.ParsedKey keys)
                                   = Some (map Contests.ParsedKey keys') ->
                                   keys' = keys).
      { intros keys' Heq. simplify_eq.
        assert (Hs : Some keys = Some keys').
        { rewrite <- (proj2 (keys_toBase58_Some _ keys) eq_refl).
          apply keys_toBase58_Some. assumption. }
        simplify_eq. reflexivity. }
      destruct (toDelta_from_spec toKey (Contests.t_preBalances tx)
                  (Contests.t_postBalances tx) keys 0 0)
        as [[Hnot Hv]|(k & Hk & Hlast & Hv)]; rewrite Hv; cbn [Nat.add].
      * replace (0 <? MIN) with true by (symmetry; apply Z.ltb_lt; exact Hmin).
        split; [discriminate|].
        intros (keys' & Heq & (i & Hi & _) & _). exfalso.
        apply Hinj in Heq. subst keys'. apply Hnot.
        exact (nth_error_In _ _ Hi).
      * destruct (Z.ltb_spec
                    (Contests.balance (Contests.t_postBalances tx) k
                     - Contests.balance (Contests.t_preBalances tx) k) MIN)
          as [Hlt|Hge].
        { split; [discriminate|].
          intros (keys' & Heq & (i & Hi & Hilast & Hle) & _). exfalso.
          apply Hinj in Heq. subst keys'.
          destruct (Nat.lt_trichotomy i k) as [Hik|[->|Hki]].
          - exact (Hilast k Hik Hk).
          - lia.
          - exact (Hlast i Hki Hi). }
        { destruct (Contests.fromMatched_from 0 keys fromKey _ _ MIN) eqn:Hm;
            cbn [negb].
          - split; [|reflexivity]. intros _. exists keys.
            split; [reflexivity|]. split.
            + exists k. auto.
            + apply Hfrom. reflexivity.
          - split; [discriminate|].
            intros (keys' & Heq & _ & Hj). apply Hinj in Heq. subst keys'.
            apply Hfrom in Hj. discriminate. }
    + split; [discriminate|].
      intros (keys & Heq & _). simplify_eq.
      rewrite (proj2 (keys_toBase58_Some _ keys) eq_refl) in Hks. discriminate.
Qed.


(** ** Payments and entries *)
Section Payments.
Variable TREASURY : string.
Variable MIN : Z.
Variable toBase58 : string -> option string.


End Payments.

(** X20 and X21 at work on the transfer [tx1]. *)
Lemma X20_witness :
  Contests.payment_check 1000 "treasury" "from" MoreExamples.tx1 = Some (inr tt) /\
  Contests.payment_check 1000 "treasury" "from" MoreExamples.tx2 = None /\
  fst (fst (Contests.join_verify "T" 1000 MoreExamples.toBase58 "e1" "paid"
              (Some "sig") (Some MoreExamples.tx2) MoreExamples.user1
              MoreExamples.contests1))
    = (500, Contests.CError "failed to verify checkout").
Proof.
  destruct (X20_payment_check_reads_balance_changes 1000 "treasury" "from"
              MoreExamples.tx1) as (_ & _ & Hpass); [by_running|].
  destruct (X20_payment_check_reads_balance_changes 1000 "treasury" "from"
              MoreExamples.tx2) as (Hthrow & Hreply & _); [by_running|].
  assert (Hnone : Contests.payment_check 1000 "treasury" "from" MoreExamples.tx2
                  = None).
  { apply Hthrow. right. eexists. exists "from".
    split; [reflexivity | left; reflexivity]. }
  split; [|split; [exact Hnone|]].
  - apply Hpass. exists ["from"; "treasury"; "program"].
    split; [reflexivity|]. split.
    + exists 1%nat. split; [reflexivity|]. split; [|by_running].
      intros [|[|[|[|j]]]] Hj; try lia; cbn; discriminate.
    + exists 0%nat. split; [reflexivity | by_running].
  - destruct (Hreply Hnone "T" MoreExamples.toBase58 "e1" "paid" (Some "sig")
                MoreExamples.user1 MoreExamples.contests1)
      as (_ & st & msg & Hr & _).
    rewrite Hr. revert Hr. vm_compute. intros Hr. exact (eq_sym Hr).
Defined.


(** ** The guards of the web client *)
Section ClientGuards.

Lemma prefix_truthy p t :
  truthy p = true -> String.prefix p t = true -> truthy t = true.
Proof. destruct p; [discriminate|]. destruct t; [discriminate | reflexivity]. Qed.

(** X22.  The two guards of the web client are complementary, and signing
    out closes the guarded pages: whatever the storage holds, exactly one
    of [RequireAuth] and [RedirectIfAuthed] redirects; after [signOut]
    it is [RequireAuth], to "/"; and storing a token under "auth_token"
    opens the guarded pages exactly when the token starts with "eyJ". *)
Theorem X22_client_guards_are_complementary (storage : gmap string string) :
  (ClientAuth.RequireAuth storage = ClientAuth.Outlet <->
   ClientAuth.RedirectIfAuthed storage = ClientAuth.Navigate "/homehub") /\
  (ClientAuth.RequireAuth storage = ClientAuth.Navigate "/" <->
   ClientAuth.RedirectIfAuthed storage = ClientAuth.Children) /\
  ClientAuth.RequireAuth (ClientAuth.signOut storage) = ClientAuth.Navigate "/" /\
  ClientAuth.RedirectIfAuthed (ClientAuth.signOut storage) = ClientAuth.Children /\
  (forall t,
     ClientAuth.RequireAuth (<["auth_token" := t]> storage) = ClientAuth.Outlet
     <-> String.prefix "eyJ" t = true).
Proof.
  unfold ClientAuth.RequireAuth, ClientAuth.RedirectIfAuthed.
  split; [|split; [|split; [|split]]].
  - destruct (ClientAuth.isAuthed storage); cbn; split; congruence.
  - destruct (ClientAuth.isAuthed storage); cbn; split; congruence.
  - unfold ClientAuth.isAuthed, ClientAuth.getToken, ClientAuth.signOut.
    rewrite lookup_delete_eq. reflexivity.
  - unfold ClientAuth.isAuthed, ClientAuth.getToken, ClientAuth.signOut.
    rewrite lookup_delete_eq. reflexivity.
  - intros t. unfold ClientAuth.isAuthed, ClientAuth.getToken.
    rewrite lookup_insert_eq.
    destruct (String.prefix "eyJ" t) eqn:Hp.
    + rewrite (prefix_truthy "eyJ" t eq_refl Hp). cbn. tauto.
    + rewrite andb_false_r. cbn. split; discriminate.
Qed.

End ClientGuards.

(** ** From sign-in to a contest entry *)
Section SignInToEntry.
Context {P : Platform}.

Lemma In_update {row : Type} (id : row -> string) k f (t : list row) x :
  In x (Prisma.update id k f t) -> exists y, In y t /\ (x = y \/ x = f y).
Proof.
  induction t as [|r t IH]; cbn; [tauto|].
  destruct (String.eqb (id r) k); cbn; intros [<-|Hin]; eauto;
    destruct (IH Hin) as (y & Hy & Hx); eauto.
Qed.

Lemma upsert_keeps_keys {row : Type} (id : row -> string) k f r (t : list row) a :
  (forall x, id (f x) = id x) ->
  In a (map id t) -> In a (map id (Prisma.upsert id k f r t)).
Proof.
  intros Hf Hin. unfold Prisma.upsert.
  destruct (Prisma.findUnique id k t).
  - rewrite update_map by exact Hf. exact Hin.
  - rewrite map_app. apply in_or_app. left. exact Hin.
Qed.

Lemma upsert_has_key {row : Type} (id : row -> string) k f r (t : list row) :
  (forall x, id (f x) = id x) -> id r = k ->
  In k (map id (Prisma.upsert id k f r t)).
Proof.
  intros Hf Hr. unfold Prisma.upsert.
  destruct (Prisma.findUnique id k t) as [x|] eqn:Hx.
  - rewrite update_map by exact Hf.
    unfold Prisma.findUnique in Hx. apply find_some in Hx as [Hin Hk].
    apply String.eqb_eq in Hk. rewrite <- Hk. apply in_map, Hin.
  - rewrite map_app. apply in_or_app. right. left. exact Hr.
Qed.

Lemma createAndStoreNonce_users now hex a d :
  sessions_have_users d ->
  sessions_have_users (snd (RoutesAuth.createAndStoreNonce now hex a d)).
Proof.
  intros Hd s. unfold RoutesAuth.createAndStoreNonce.
  cbn [snd Prisma.sessions Prisma.users]. unfold Prisma.upsert at 1.
  destruct (Prisma.findUnique Prisma.s_id _ (Prisma.sessions d)).
  - intros Hin. apply In_update in Hin as (y & Hy & Hs).
    destruct (Hd y Hy) as (b & Hb & Hu).
    exists b. split.
    + destruct Hs as [->| ->]; exact Hb.
    + apply upsert_keeps_keys; [reflexivity | exact Hu].
  - intros Hin. apply in_app_or in Hin as [Hin|[<-|[]]].
    + destruct (Hd s Hin) as (b & Hb & Hu).
      exists b. split; [exact Hb|].
      apply upsert_keeps_keys; [reflexivity | exact Hu].
    + exists a. split; [reflexivity|].
      apply upsert_has_key; reflexivity.
Qed.

Lemma RoutesAuth_handle_users E r d :
  sessions_have_users d -> sessions_have_users (snd (RoutesAuth.handle E r d)).
Proof.
  intros Hd. destruct r as [now hex a | now hex a | now req];
    cbn [RoutesAuth.handle].
  - unfold RoutesAuth.get_nonce. case_match; [exact Hd|].
    pose proof (createAndStoreNonce_users now hex
                  (String_trim (or_else a "")) d Hd) as Hc.
    destruct (RoutesAuth.createAndStoreNonce _ _ _ _). exact Hc.
  - unfold RoutesAuth.post_nonce. case_match; [exact Hd|].
    pose proof (createAndStoreNonce_users now hex
                  (String_trim (or_else a "")) d Hd) as Hc.
    destruct (RoutesAuth.createAndStoreNonce _ _ _ _). exact Hc.
  - assert (Hu : Prisma.users (snd (RoutesAuth.post_verify E now req d))
                 = Prisma.users d)
      by (unfold RoutesAuth.post_verify; repeat case_match; reflexivity).
    intros s Hin. unfold sessions_have_users in Hd. rewrite Hu.
    apply Hd.
    destruct (RoutesAuth_verify_sessions E now req d) as [Hs|Hs];
      cbv zeta in Hs; rewrite Hs in Hin; [exact Hin|].
    unfold Prisma.delete in Hin. apply filter_In in Hin as [Hin _]. exact Hin.
Qed.

Lemma RoutesAuth_run_users E rs : forall d,
  sessions_have_users d -> sessions_have_users (RoutesAuth.run E rs d).
Proof.
  induction rs as [|r rs IH]; intros d Hd; cbn [RoutesAuth.run]; [exact Hd|].
  apply IH, RoutesAuth_handle_users, Hd.
Qed.

(** X23.  In routes/auth.ts every stored challenge belongs to an address
    that has a user row: the user is written before the session, and no
    request removes a user.  The property is kept by every sequence of
    requests. *)
Theorem X23_every_challenge_has_its_user E rs d :
  sessions_have_users d -> sessions_have_users (RoutesAuth.run E rs d).
Proof. apply RoutesAuth_run_users. Qed.

(** X24.  From sign-in to a contest entry.  After any requests to
    routes/auth.ts from the empty database, a wallet whose verification
    succeeded can, while its token is valid, pass [auth] and join an
    active free contest it has not joined: the entry is created (201) for
    the user whose id is the address, and that user row exists because
    the challenge request wrote it. *)
Theorem X24_signed_in_wallet_can_join
    E rs now req token role decode s now' cd id c team contest :
  let d := RoutesAuth.run E rs Prisma.empty in
  let a := or_else (RoutesAuth.address req) "" in
  fst (fst (RoutesAuth.post_verify E now req d)) =
    send 200 (TokenRoleJson token role) ->
  decode s = jwt.Signed token ->
  truthy s = true ->
  now' / 1000 < now / 1000 + 7 * 24 * 60 * 60 ->
  Contests.users cd = Prisma.users (snd (RoutesAuth.post_verify E now req d)) ->
  Prisma.findUnique Contests.c_id c (Contests.contests cd) = Some contest ->
  Contests.c_active contest = true ->
  Contests.c_entryFee contest <= 0 ->
  Prisma.findUnique Contests.e_id id (Contests.entries cd) = None ->
  Contests.entry_find a c (Contests.entries cd) = None ->
  exists user,
    Guards.auth E decode now' (Some ("Bearer " +:+ s)) = Guards.Next user /\
    fst (fst (Contests.join id c team user cd)) =
      (201, Contests.CEntry
              {| Contests.e_id := id; Contests.e_userId := a;
                 Contests.e_contestId := c; Contests.e_team := team |} true).
Proof.
  intros d a Hr Hd Hs Hlt Hus Hc Hact Hfee Hid Hnone.
  destruct (RoutesAuth_verify_ok_token _ _ _ _ _ _ Hr) as [Ha Hi].
  fold a in Ha, Hi.
  assert (Huser : exists u, Prisma.findUnique Prisma.u_id a (Contests.users cd) = Some u).
  { assert (Hinv : sessions_have_users d)
      by (apply RoutesAuth_run_users; intros x []).
    assert (Hstored : exists stored,
              Prisma.findUnique Prisma.s_id (RoutesAuth.nonce_key a)
                (Prisma.sessions d) = Some stored).
    { revert Hr. subst a. unfold RoutesAuth.post_verify. cbv zeta.
      destruct (negb _); [cbn; discriminate|].
      destruct (Prisma.findUnique Prisma.s_id _ _) as [stored|];
        [eauto | cbn; discriminate]. }
    destruct Hstored as [stored Hst].
    unfold Prisma.findUnique in Hst. apply find_some in Hst as [Hin Hk].
    apply String.eqb_eq in Hk.
    destruct (Hinv stored Hin) as (b & Hb & Hu).
    rewrite Hb in Hk. apply nonce_key_inj in Hk. subst b.
    assert (Hu' : Prisma.users (snd (RoutesAuth.post_verify E now req d))
                  = Prisma.users d)
      by (unfold RoutesAuth.post_verify; repeat case_match; reflexivity).
    rewrite Hus, Hu'.
    destruct (Prisma.findUnique Prisma.u_id a (Prisma.users d)) as [u|] eqn:Hf;
      [eauto|].
    exfalso. apply (find_None_not_in Prisma.u_id a _ Hf). exact Hu. }
  destruct Huser as [u Hu].
  exists (jwt.UidClaims a a (if RoutesAuth.isAdmin E a then Some "ADMIN" else None)).
  split.
  - rewrite (auth_issued E decode _ _ _ _ _ _ now' Hi Hd Hs).
    replace (now' / 1000 <? now / 1000 + 7 * 24 * 60 * 60) with true
      by (symmetry; apply Z.ltb_lt; exact Hlt).
    reflexivity.
  - unfold Contests.join. cbn [Guards.user_uid]. unfold present.
    cbn [or_else]. rewrite Ha. cbn [negb]. rewrite Ha, Hc, Hact. cbn [negb].
    replace (0 <? Contests.c_entryFee contest) with false
      by (symmetry; apply Z.ltb_ge; exact Hfee).
    rewrite Hnone. unfold Contests.entry_create.
    cbn [Contests.e_id Contests.e_userId Contests.e_contestId].
    rewrite Hid, Hnone, Hu, Hc. reflexivity.
Qed.

End SignInToEntry.

(** ** The two checkout routes *)
Section Checkout.
Variable TREASURY : string.
Variable MIN : Z.
Variable toBase58 : string -> option string.

(** X25.  join/verify repeats the refusals of join/start.  Whenever
    join/start would not quote a checkout, join/verify with a signature
    answers with the same status and error for the same user and contest,
    before it looks at any transaction, and leaves the database as it
    is. *)
Theorem X25_verify_repeats_the_refusals_of_start now id c sg tx user d :
  present sg = true ->
  fst (Contests.join_start TREASURY MIN now c user d) <> 200 ->
  Contests.join_verify TREASURY MIN toBase58 id c sg tx user d
    = (Contests.join_start TREASURY MIN now c user d, [], d).
Proof.
  intros Hs. unfold Contests.join_start, Contests.join_verify.
  rewrite Hs. cbn [negb].
  destruct (negb (present (Guards.user_uid user))); [reflexivity|].
  destruct (negb (truthy TREASURY)); [reflexivity|].
  destruct (Prisma.findUnique Contests.c_id c (Contests.contests d))
    as [contest|]; [|reflexivity].
  destruct (negb (Contests.c_active contest)); [reflexivity|].
  destruct (Contests.c_entryFee contest <=? 0); [reflexivity|].
  destruct (MIN =? 0); [reflexivity|].
  cbn [fst Contests.reply_of]. unfold Contests.reply_of. cbn [fst].
  intros Hne. exfalso. apply Hne. reflexivity.
Qed.

End Checkout.

(** X23 to X25 at work. *)
Lemma X23_witness :
  sessions_have_users
    (RoutesAuth.run (P := Reference.accepting) Examples.E0
       [RoutesAuth.GetNonce 1000 "00ff" (Some Examples.addr1)] Prisma.empty).
Proof.
  apply (@X23_every_challenge_has_its_user Reference.accepting).
  intros s [].
Defined.

Lemma X24_witness :
  exists user,
    fst (fst (Contests.join "e1" "free" None user MoreExamples.contests2)) =
      (201, Contests.CEntry
              {| Contests.e_id := "e1"; Contests.e_userId := Examples.addr1;
                 Contests.e_contestId := "free"; Contests.e_team := None |}
              true).
Proof.
  destruct (@X24_signed_in_wallet_can_join Reference.accepting Examples.E0
              [RoutesAuth.GetNonce 1000 "00ff" (Some Examples.addr1)] 2000
              (Examples.submit1 (fst Examples.issued1) Examples.sig64)
              MoreExamples.token1 "USER"
              (MoreExamples.decode_as "eyJ1" MoreExamples.token1) "eyJ1" 3000
              MoreExamples.contests2 "e1" "free" None
              {| Contests.c_id := "free"; Contests.c_realm := "fpl";
                 Contests.c_title := "Free"; Contests.c_entryFee := 0;
                 Contests.c_active := true |})
    as (user & _ & H); [by_running .. |].
  exists user. exact H.
Defined.

Lemma X25_witness :
  Contests.join_verify "" 1000 MoreExamples.toBase58 "e1" "paid" (Some "sig")
    (Some MoreExamples.tx1) MoreExamples.user1 MoreExamples.contests1
  = ((500, Contests.CError "treasury not configured"), [],
     MoreExamples.contests1).
Proof.
  rewrite (X25_verify_repeats_the_refusals_of_start "" 1000
             MoreExamples.toBase58 0 "e1" "paid" (Some "sig")
             (Some MoreExamples.tx1) MoreExamples.user1 MoreExamples.contests1);
    by_running.
Defined.
